(** * Contest reminder bot: shallow embedding and verified properties

    The development follows index.js (the hardened revision that carries
    fetchWithRetry, sendDiscordMessage and the validated cron table).
    Asynchronous functions become computations of a small monad that
    threads the state of the outside world, may complete by a thrown
    error, and emits the observable effects as a chronological list of
    events. *)

From Stdlib Require Import String Ascii List ZArith QArith Qround Lia Lqa Bool DecimalString.
From Equations Require Import Equations.
Import ListNotations.
Close Scope Q_scope.
Open Scope string_scope.

(** ** Text of the template literals, byte for byte as in the source *)

Module Text.
Definition backup_notice : string := "âš ï¸ Failed to send to main channel. Original message: ".
Definition no_content : string := "No content".
Definition admin_notice : string := "âš ï¸ Failed to send reminder to channel ".
Definition none_head : string := "ðŸ“­ No upcoming ".
Definition none_tail : string := " contests found. Keep practicing! ðŸš€".
Definition embed_title_head : string := "ðŸŽ‰ Upcoming ".
Definition embed_title_tail : string := " Contests ðŸŽ‰".
Definition field_name_head : string := "ðŸ”¥ ".
Definition date_head : string := "ðŸ“… **Date & Time:** ".
Definition duration_head : string := "â³ **Duration:** ".
Definition duration_tail : string := " hours".
Definition link_head : string := "ðŸ”— [Join Now](".
Definition link_tail : string := ")".
Definition description_head : string := "ðŸ“ ".
Definition reminder_head : string := "@everyone ðŸ’¥ Here's your **".
Definition reminder_tail : string := " Contest Reminder**! Stay sharp and good luck! ðŸ€".
Definition check_mark : string := "âœ…".
Definition combined_failed : string := "âŒ Combined reminder failed: ".
Definition warning_title_head : string := "ðŸš¨ 10 Minutes Left for ".
Definition warning_title_tail : string := " Contest!".
Definition starts_at : string := "ðŸŽ¯ Starts at: ".
Definition gear_up : string := "ðŸ’¥ Gear up and give your best! ðŸ”¥".
Definition countdown : string := "@everyone âš ï¸ 10-Minute Countdown Begins!".
Definition nl : string := String (ascii_of_nat 10) EmptyString.
End Text.

(** ** JavaScript values *)

(** Numbers are exact rationals; [None] stands for an absent property
    ([undefined]) or for [NaN], which behave alike in every place the
    program looks at a number (falsy, every comparison false, absorbing
    in arithmetic). *)
Definition number := option Q.

(** Template-literal rendering of an integer and of an array length. *)
Definition string_of_Z (z : Z) : string := NilZero.string_of_int (Z.to_int z).
Definition string_of_nat (n : nat) : string := NilZero.string_of_uint (Nat.to_uint n).

(** [!v] is false exactly on these. *)
Definition truthy_string (v : option string) : bool :=
  match v with
  | Some s => negb (s =? "")
  | None => false
  end.

Definition truthy_number (v : number) : bool :=
  match v with
  | Some q => negb (Qeq_bool q 0%Q)
  | None => false
  end.

(** [a > b], [a < b] on numbers: false as soon as one side is NaN. *)
Definition Qltb (a b : Q) : bool := negb (Qle_bool b a).

Definition js_gt (a b : number) : bool :=
  match a, b with
  | Some x, Some y => Qltb y x
  | _, _ => false
  end.

Definition js_lt (a b : number) : bool := js_gt b a.

Definition js_sub (a b : number) : number :=
  match a, b with
  | Some x, Some y => Some (x - y)%Q
  | _, _ => None
  end.

Definition js_div (a b : number) : number :=
  match a, b with
  | Some x, Some y => Some (x / y)%Q
  | _, _ => None
  end.

Definition js_mul (a b : number) : number :=
  match a, b with
  | Some x, Some y => Some (x * y)%Q
  | _, _ => None
  end.

(** [Math.round]: nearest integer, halves towards plus infinity. *)
Definition Math_round (q : Q) : Z := Qfloor (q + (1 # 2))%Q.

(** A JavaScript string is a sequence of UTF-16 code units, and
    [length] and [substring] count those. The strings of this
    development hold the UTF-8 bytes of the text, as the source file
    does; [utf16] reads the code units off the bytes (a character
    outside the basic plane gives two, a surrogate pair) and [of_utf16]
    writes units back as bytes, a surrogate that [substring] has
    separated from its partner as the three bytes of its own value. *)
Fixpoint units_from (pending : N) (more : nat) (s : string) : list N :=
  match s with
  | EmptyString => []
  | String a rest =>
      let b := N_of_ascii a in
      match more with
      | O =>
          if (b <? 128)%N then b :: units_from 0 0 rest
          else if (b <? 224)%N then units_from (N.land b 31) 1 rest
          else if (b <? 240)%N then units_from (N.land b 15) 2 rest
          else units_from (N.land b 7) 3 rest
      | S k =>
          let cp := (N.shiftl pending 6 + N.land b 63)%N in
          match k with
          | O =>
              if (cp <? 65536)%N then cp :: units_from 0 0 rest
              else (55296 + N.shiftr (cp - 65536) 10)%N
                   :: (56320 + N.land (cp - 65536) 1023)%N
                   :: units_from 0 0 rest
          | S _ => units_from cp k rest
          end
      end
  end.

Definition utf16 (s : string) : list N := units_from 0 0 s.

Definition byte (n : N) : string := String (ascii_of_N n) EmptyString.

Definition utf8_of (cp : N) : string :=
  if (cp <? 128)%N then byte cp
  else if (cp <? 2048)%N then
    byte (192 + N.shiftr cp 6) ++ byte (128 + N.land cp 63)
  else if (cp <? 65536)%N then
    byte (224 + N.shiftr cp 12) ++ byte (128 + N.land (N.shiftr cp 6) 63)
    ++ byte (128 + N.land cp 63)
  else
    byte (240 + N.shiftr cp 18) ++ byte (128 + N.land (N.shiftr cp 12) 63)
    ++ byte (128 + N.land (N.shiftr cp 6) 63) ++ byte (128 + N.land cp 63).

Definition high_surrogate (u : N) : bool := (55296 <=? u)%N && (u <? 56320)%N.
Definition low_surrogate (u : N) : bool := (56320 <=? u)%N && (u <? 57344)%N.

Fixpoint of_utf16 (units : list N) : string :=
  match units with
  | [] => ""
  | u :: tl =>
      match tl with
      | v :: tl' =>
          if high_surrogate u && low_surrogate v
          then utf8_of (65536 + (u - 55296) * 1024 + (v - 56320)) ++ of_utf16 tl'
          else utf8_of u ++ of_utf16 tl
      | [] => utf8_of u
      end
  end.

(** [s.length] *)
Definition js_length (s : string) : nat := List.length (utf16 s).

(** [s.substring(start, stop)] for [start <= stop] *)
Definition js_substring (start stop : nat) (s : string) : string :=
  of_utf16 (firstn (stop - start) (skipn start (utf16 s))).

(** A thrown [Error] object. *)
Record Error : Type := mkError { message : string }.

(** ** Data model *)

(** The contest object the two adapters hand to the composer. The
    LeetCode adapter passes the API objects on as they are; the CodeChef
    adapter builds title, startTime, endTime, duration and url; the
    warning scan adds platform. *)
Record Contest : Type := mkContest {
  title : option string;
  startTime : number;
  endTime : number;
  duration : number;
  url : option string;
  description : option string;
  platform : option string
}.

(** An entry of [future_contests] in the CodeChef reply. *)
Record CodeChefEntry : Type := mkCodeChefEntry {
  contest_name : option string;
  contest_start_date : option string;
  contest_end_date : option string;
  contest_code : option string
}.

(** [response.data] of the two HTTP replies, each level possibly absent. *)
Record LeetCodeData : Type := mkLeetCodeData {
  allContests : option (list Contest)
}.

Record LeetCodeBody : Type := mkLeetCodeBody {
  data : option LeetCodeData
}.

Record CodeChefBody : Type := mkCodeChefBody {
  future_contests : option (list CodeChefEntry)
}.

Module Field.
Record t : Type := make { name : string; value : string }.
End Field.

(** What the program sets on an [EmbedBuilder]. *)
Record Embed : Type := mkEmbed {
  embed_title : string;
  embed_color : string;
  embed_timestamp : option Z;
  embed_footer : option string;
  fields : list Field.t
}.

(** Argument of [channel.send]: a bare string, or an options object
    with [content] and [embeds] (no [embeds] key is the empty list). *)
Inductive Payload : Type :=
| Plain (text : string)
| Options (content : option string) (embeds : list Embed).

Record Message : Type := mkMessage { message_id : nat }.
Record User : Type := mkUser { user_id : string }.

(** Observable effects, in the order they happen. [FetchCall] marks one
    invocation of the operation handed to fetchWithRetry. [LogLine]
    carries the message given to logToFile (the line written to the file
    and the console is that message behind an ISO timestamp). *)
Inductive Event : Type :=
| LogLine (text : string)
| FetchCall (label : string)
| Sleep (ms : Z)
| ChannelSend (channelId : string) (payload : Payload)
| UsersFetch (id : string)
| UserSend (id : string) (text : string)
| React (m : Message) (emoji : string)
| SetTimeout (delay : number) (c : Contest)
| CronSchedule (expression : string) (job : string).

(** ** Completions and the monad of asynchronous functions *)

Inductive Outcome (A : Type) : Type :=
| Return (a : A)
| Throw (e : Error).
Arguments Return {A} a.
Arguments Throw {A} e.

(** Environment values read from [process.env]. *)
Record Config : Type := mkConfig {
  CHANNEL_ID : string;
  BACKUP_CHANNEL_ID : option string;
  DISCORD_ADMIN_ID : option string
}.

Definition RETRY_DELAY : Z := 60000.
Definition MAX_RETRIES : nat := 3.

(** The libraries and built-ins the program calls, over a state of the
    outside world [W]: clock, Discord client, HTTP client, node-cron.
    [addFields_check] is the validation [EmbedBuilder.addFields] runs
    before it adds a field (discord.js checks the number of fields and
    the name and the value of the new one): given the fields already
    there and the name and value handed in, [Some error] is the error
    it throws, [None] means that the field is added. *)
Class Runtime (W : Type) : Type := {
  Date_now : W -> Z;
  toISOString : W -> string;
  Date_getTime : option string -> number;
  toLocaleString : number -> Outcome string;
  JSON_stringify : Contest -> string;
  error_stack : Error -> string;
  timer_wait : Z -> W -> W;
  channels_cache_has : W -> string -> bool;
  channel_send : string -> Payload -> W -> Outcome Message * W;
  users_fetch : string -> W -> Outcome User * W;
  user_send : User -> string -> W -> Outcome Message * W;
  message_react : Message -> string -> W -> Outcome unit * W;
  axios_post_leetcode : W -> Outcome (option LeetCodeBody) * W;
  axios_get_codechef : W -> Outcome (option CodeChefBody) * W;
  addFields_check : list Field.t -> option string -> string -> option Error;
  cron_validate : string -> Outcome bool;
  cron_schedule : string -> W -> Outcome unit * W
}.

Section Machine.
Context {W : Type}.

(** Program state: the outside world and [global.lastScheduledCheck]. *)
Record State : Type := mkState {
  world : W;
  lastScheduledCheck : option string
}.

Definition Async (A : Type) : Type := State -> Outcome A * State * list Event.

Definition ret {A} (a : A) : Async A := fun s => (Return a, s, []).

Definition throw {A} (e : Error) : Async A := fun s => (Throw e, s, []).

Definition bind {A B} (m : Async A) (k : A -> Async B) : Async B :=
  fun s =>
    match m s with
    | (Return a, s1, t1) => let '(r, s2, t2) := k a s1 in (r, s2, (t1 ++ t2)%list)
    | (Throw e, s1, t1) => (Throw e, s1, t1)
    end.

(** [try { body } catch (error) { handler }] *)
Definition try_catch {A} (body : Async A) (handler : Error -> Async A) : Async A :=
  fun s =>
    match body s with
    | (Return a, s1, t1) => (Return a, s1, t1)
    | (Throw e, s1, t1) => let '(r, s2, t2) := handler e s1 in (r, s2, (t1 ++ t2)%list)
    end.

Definition emit (ev : Event) : Async unit := fun s => (Return tt, s, [ev]).

(** A call into the outside world, recorded as [ev]. *)
Definition perform {A} (ev : Event) (f : W -> Outcome A * W) : Async A :=
  fun s =>
    let '(r, w) := f (world s) in
    (r, mkState w (lastScheduledCheck s), [ev]).

Definition observe {A} (f : W -> A) : Async A := fun s => (Return (f (world s)), s, []).

Definition set_lastScheduledCheck (v : string) : Async unit :=
  fun s => (Return tt, mkState (world s) (Some v), []).

(** A synchronous library call that returns or throws. *)
Definition lift {A} (r : Outcome A) : Async A := fun s => (r, s, []).

Definition result_of {A} (x : Outcome A * State * list Event) : Outcome A := fst (fst x).
Definition state_of {A} (x : Outcome A * State * list Event) : State := snd (fst x).
Definition events_of {A} (x : Outcome A * State * list Event) : list Event := snd x.
End Machine.

Arguments State W : clear implicits.
Arguments Async W A : clear implicits.

Declare Scope async_scope.
Delimit Scope async_scope with async.
Notation "x <- m ;; k" := (bind m (fun x => k))
  (at level 61, m at next level, right associativity) : async_scope.
Notation "m ;; k" := (bind m (fun _ => k))
  (at level 61, right associativity) : async_scope.
Open Scope async_scope.

Section Bot.
Context {W : Type} {RT : Runtime W}.
Variable cfg : Config.

(** logToFile never throws: the append is guarded by its own try. *)
Definition logToFile (text : string) : Async W unit := emit (LogLine text).

Definition attempt_line (label : string) (retries : nat) (error : Error) : string :=
  "Error fetching " ++ label ++ " contests (attempt " ++ string_of_nat (retries + 1)
    ++ "/" ++ string_of_nat MAX_RETRIES ++ "): " ++ message error.

Definition retrying_line (label : string) : string :=
  "Retrying " ++ label ++ " fetch in " ++ string_of_Z (RETRY_DELAY / 1000)%Z ++ " seconds...".

Definition giving_up_line (label : string) : string :=
  "All " ++ label ++ " fetch attempts failed. Giving up.".

(** [await new Promise(resolve => setTimeout(resolve, ms))] *)
Definition sleep (ms : Z) : Async W unit :=
  perform (Sleep ms) (fun w => (Return tt, timer_wait ms w)).

Equations? fetchWithRetry (fetchFunc : W -> Outcome (list Contest) * W)
    (label : string) (retries : nat) (s : State W)
    : Outcome (list Contest) * State W * list Event
    by wf (MAX_RETRIES - retries) lt :=
  fetchWithRetry fetchFunc label retries s :=
    try_catch (perform (FetchCall label) fetchFunc)
      (fun error =>
         logToFile (attempt_line label retries error) ;;
         match lt_dec retries MAX_RETRIES with
         | left _ =>
             logToFile (retrying_line label) ;;
             sleep RETRY_DELAY ;;
             (fun s' => fetchWithRetry fetchFunc label (retries + 1) s')
         | right _ =>
             logToFile (giving_up_line label) ;;
             ret []
         end) s.
Proof.
  unfold MAX_RETRIES in *.
  destruct retries as [|[|[|r]]]; simpl; lia.
Qed.

(** *** Contest source adapters *)

(** The operation fetchLeetCodeContests hands to fetchWithRetry. *)
Definition leetcode_operation (w : W) : Outcome (list Contest) * W :=
  match axios_post_leetcode w with
  | (Throw e, w1) => (Throw e, w1)
  | (Return body, w1) =>
      match body with
      | Some (mkLeetCodeBody (Some (mkLeetCodeData (Some contests)))) =>
          let now := (Date_now w1 / 1000)%Z in
          (Return (filter (fun contest => js_gt (startTime contest) (Some (inject_Z now)))
                          contests), w1)
      | _ => (Throw (mkError "Invalid response structure from LeetCode API"), w1)
      end
  end.

Definition fetchLeetCodeContests : Async W (list Contest) :=
  fetchWithRetry leetcode_operation "LeetCode" 0.

Definition render_string (v : option string) : string :=
  match v with
  | Some s => s
  | None => "undefined"
  end.

(** The object built for one entry of [future_contests]. *)
Definition codechef_contest (contest : CodeChefEntry) : Contest :=
  let start := Date_getTime (contest_start_date contest) in
  let stop := Date_getTime (contest_end_date contest) in
  {| title := Some (if truthy_string (contest_name contest)
                    then render_string (contest_name contest)
                    else "Unnamed Contest");
     startTime := js_div start (Some 1000%Q);
     endTime := js_div stop (Some 1000%Q);
     duration := js_div (js_sub stop start) (Some 60%Q);
     url := Some ("https://www.codechef.com/" ++ render_string (contest_code contest));
     description := None;
     platform := None |}.

Definition codechef_operation (w : W) : Outcome (list Contest) * W :=
  match axios_get_codechef w with
  | (Throw e, w1) => (Throw e, w1)
  | (Return body, w1) =>
      match body with
      | Some (mkCodeChefBody (Some futureContests)) =>
          (Return (map codechef_contest futureContests), w1)
      | _ => (Throw (mkError "Invalid response structure from CodeChef API"), w1)
      end
  end.

Definition fetchCodeChefContests : Async W (list Contest) :=
  fetchWithRetry codechef_operation "CodeChef" 0.

(** *** Time formatter *)

Definition formatContestTime (timestamp : number) : Async W string :=
  try_catch
    (text <- lift (toLocaleString (js_mul timestamp (Some 1000%Q))) ;;
     ret (text ++ " IST"))
    (fun error =>
       logToFile ("Error formatting contest time: " ++ message error) ;;
       ret "Invalid date").

(** *** Delivery with fallback *)

(** [content.content ? content.content : 'No content'] *)
Definition original_message (content : Payload) : string :=
  match content with
  | Options (Some text) _ => if truthy_string (Some text) then text else Text.no_content
  | _ => Text.no_content
  end.

Definition backup_payload (content : Payload) : Payload :=
  Options (Some (Text.backup_notice ++ original_message content)) [].

Definition admin_text (channelId : string) (error : Error) : string :=
  Text.admin_notice ++ channelId ++ ": " ++ message error.

(** The backup branch: [Some r] when the branch returns [r] from the
    function, [None] when control falls through to the admin branch. *)
Definition try_backup (channelId : string) (content : Payload)
  : Async W (option (option Message)) :=
  match BACKUP_CHANNEL_ID cfg with
  | Some backup =>
      if truthy_string (Some backup) && negb (channelId =? backup) then
        logToFile ("Attempting to send to backup channel: " ++ backup) ;;
        try_catch
          (found <- observe (fun w => channels_cache_has w backup) ;;
           if found then
             m <- perform (ChannelSend backup (backup_payload content))
                          (channel_send backup (backup_payload content)) ;;
             ret (Some (Some m))
           else ret None)
          (fun backupError =>
             logToFile ("Failed to send to backup channel: " ++ message backupError) ;;
             ret None)
      else ret None
  | None => ret None
  end.

Definition notify_admin (text : string) (failure_line : string) : Async W unit :=
  match DISCORD_ADMIN_ID cfg with
  | Some adminId =>
      if truthy_string (Some adminId) then
        try_catch
          (admin <- perform (UsersFetch adminId) (users_fetch adminId) ;;
           perform (UserSend adminId text) (user_send admin text) ;;
           ret tt)
          (fun adminError => logToFile (failure_line ++ message adminError))
      else ret tt
  | None => ret tt
  end.

(** The catch block of sendDiscordMessage. *)
Definition delivery_fallback (channelId : string) (content : Payload) (error : Error)
  : Async W (option Message) :=
  logToFile ("Error sending Discord message: " ++ message error) ;;
  returned <- try_backup channelId content ;;
  match returned with
  | Some r => ret r
  | None =>
      notify_admin (admin_text channelId error) "Failed to notify admin: " ;;
      ret None
  end.

(** The result is the delivered message, or [None] for [null]. *)
Definition sendDiscordMessage (channelId : string) (content : Payload)
  : Async W (option Message) :=
  try_catch
    (found <- observe (fun w => channels_cache_has w channelId) ;;
     if found then
       m <- perform (ChannelSend channelId content) (channel_send channelId content) ;;
       ret (Some m)
     else throw (mkError ("Channel not found: " ++ channelId)))
    (delivery_fallback channelId content).

(** *** Reminder composer *)

(** The labels the program passes as [platform]. *)
Definition platform_label (label : string) : Prop :=
  label = "LeetCode" \/ label = "CodeChef".

Definition no_contests_text (label : string) : string :=
  Text.none_head ++ label ++ Text.none_tail.

Definition incomplete (contest : Contest) : bool :=
  negb (truthy_string (title contest)) || negb (truthy_number (startTime contest)).

(** [Math.round((contest.duration || 0) / 60)]. Numbers are exact
    rationals here; on a duration that is an integer of magnitude at
    most 2^53 (the APIs deliver seconds and minutes) this is the number
    the program computes in double precision and prints: the quotient
    of such an integer by 60 is rounded by less than 1/60, the distance
    to the nearest half when it is not itself a half, and a half is
    exact. *)
Definition duration_hours (contest : Contest) : Z :=
  let d := if truthy_number (duration contest)
           then match duration contest with Some q => q | None => 0%Q end
           else 0%Q in
  Math_round (d / 60)%Q.

(** The durations on which [duration_hours] is the program's number. *)
Definition exact_duration (contest : Contest) : Prop :=
  match duration contest with
  | Some q => exists z : Z, (q == inject_Z z)%Q /\ (Z.abs z <= 2 ^ 53)%Z
  | None => True
  end.

Definition field_value (contest : Contest) (when : string) : string :=
  (Text.date_head ++ when ++ Text.nl)
  ++ (Text.duration_head ++ string_of_Z (duration_hours contest) ++ Text.duration_tail ++ Text.nl)
  ++ (if truthy_string (url contest)
      then Text.link_head ++ render_string (url contest) ++ Text.link_tail ++ Text.nl
      else "")
  ++ (if truthy_string (description contest)
      then Text.description_head ++ js_substring 0 1000 (render_string (description contest))
      else "").

Definition contest_field (contest : Contest) (when : string) : Field.t :=
  Field.make (Text.field_name_head ++ render_string (title contest))
             (field_value contest when).

(** The embed once [f] has been added to it. *)
Definition with_field (embed : Embed) (f : Field.t) : Embed :=
  mkEmbed (embed_title embed) (embed_color embed) (embed_timestamp embed)
          (embed_footer embed) (fields embed ++ [f])%list.

(** [embed.addFields({ name, value })]: the library throws when it
    rejects the field and adds it otherwise. The name is the value the
    program hands in, which is [undefined] when it is a missing
    property. *)
Definition addFields (embed : Embed) (name : option string) (value : string)
  : Outcome Embed :=
  match addFields_check (fields embed) name value with
  | Some error => Throw error
  | None => Return (with_field embed (Field.make (render_string name) value))
  end.

(** [contests.forEach(contest => ...)] over the embed under construction. *)
Fixpoint contests_forEach (label : string) (contests : list Contest) (embed : Embed)
  : Async W Embed :=
  match contests with
  | [] => ret embed
  | contest :: rest =>
      embed1 <- (if incomplete contest then
                   logToFile ("Warning: Incomplete contest data for " ++ label ++ ": "
                              ++ JSON_stringify contest) ;;
                   ret embed
                 else
                   when <- formatContestTime (startTime contest) ;;
                   lift (addFields embed
                           (Some (Text.field_name_head ++ render_string (title contest)))
                           (field_value contest when))) ;;
      contests_forEach label rest embed1
  end.

(** [new EmbedBuilder().setTitle(...).setColor(...).setTimestamp()
    .setFooter(...)]. The setters check their argument as addFields
    does (a title of 1 to 256 characters); the titles of the two
    platform labels, the colours and the footer of the program pass. *)
Definition new_reminder_embed (label : string) (timestamp : Z) : Embed :=
  mkEmbed (Text.embed_title_head ++ label ++ Text.embed_title_tail)
          (if label =? "LeetCode" then "#FFA500" else "#5B4638")
          (Some timestamp) (Some "Contest Reminder Bot") [].

Definition reminder_text (label : string) : string :=
  Text.reminder_head ++ label ++ Text.reminder_tail.

Definition add_reaction (msg : option Message) (failure_line : string) : Async W unit :=
  match msg with
  | Some m =>
      try_catch (perform (React m Text.check_mark) (message_react m Text.check_mark))
                (fun reactError => logToFile (failure_line ++ message reactError))
  | None => ret tt
  end.

(** The result is [None] for [undefined], else the returned boolean. *)
Definition sendContestsReminder (label : string) (contests : list Contest)
  : Async W (option bool) :=
  logToFile ("Sending " ++ label ++ " contest reminder, found "
             ++ string_of_nat (length contests) ++ " contests") ;;
  try_catch
    (if (length contests =? 0)%nat then
       sendDiscordMessage (CHANNEL_ID cfg) (Plain (no_contests_text label)) ;;
       ret None
     else
       stamp <- observe Date_now ;;
       embed <- contests_forEach label contests (new_reminder_embed label stamp) ;;
       msg <- sendDiscordMessage (CHANNEL_ID cfg)
                (Options (Some (reminder_text label)) [embed]) ;;
       add_reaction msg "Failed to add reaction to message: " ;;
       ret (Some true))
    (fun error =>
       logToFile ("Error in sendContestsReminder for " ++ label ++ ": " ++ message error) ;;
       ret (Some false)).

(** *** Reminder cycles *)

Definition render_result (r : option bool) : string :=
  match r with
  | Some true => "true"
  | Some false => "false"
  | None => "undefined"
  end.

Definition fetched_line (label : string) (contests : list Contest) : string :=
  "Fetched " ++ string_of_nat (length contests) ++ " " ++ label ++ " contests".

Definition mark_check (line : string) : Async W unit :=
  (started <- observe toISOString ;;
   logToFile (line ++ started)) ;;
  stamp <- observe toISOString ;;
  set_lastScheduledCheck stamp.

Definition sendCombinedReminder : Async W bool :=
  mark_check "Starting combined reminder function at: " ;;
  try_catch
    (leetcodeContests <- fetchLeetCodeContests ;;
     logToFile (fetched_line "LeetCode" leetcodeContests) ;;
     codechefContests <- fetchCodeChefContests ;;
     logToFile (fetched_line "CodeChef" codechefContests) ;;
     lcResult <- sendContestsReminder "LeetCode" leetcodeContests ;;
     ccResult <- sendContestsReminder "CodeChef" codechefContests ;;
     logToFile ("Combined reminder sent successfully. LeetCode: " ++ render_result lcResult
                ++ ", CodeChef: " ++ render_result ccResult) ;;
     ret true)
    (fun error =>
       logToFile ("Error in sendCombinedReminder: " ++ message error) ;;
       logToFile (error_stack error) ;;
       notify_admin (Text.combined_failed ++ message error)
                    "Failed to notify admin about combined reminder failure: " ;;
       ret false).

Definition sendLeetCodeReminder : Async W (option bool) :=
  mark_check "Starting LeetCode reminder function at: " ;;
  try_catch
    (leetcodeContests <- fetchLeetCodeContests ;;
     logToFile (fetched_line "LeetCode" leetcodeContests) ;;
     result <- sendContestsReminder "LeetCode" leetcodeContests ;;
     logToFile ("LeetCode reminder sent successfully: " ++ render_result result) ;;
     ret result)
    (fun error =>
       logToFile ("Error in sendLeetCodeReminder: " ++ message error) ;;
       ret (Some false)).

Definition sendCodeChefReminder : Async W (option bool) :=
  mark_check "Starting CodeChef reminder function at: " ;;
  try_catch
    (codechefContests <- fetchCodeChefContests ;;
     logToFile (fetched_line "CodeChef" codechefContests) ;;
     result <- sendContestsReminder "CodeChef" codechefContests ;;
     logToFile ("CodeChef reminder sent successfully: " ++ render_result result) ;;
     ret result)
    (fun error =>
       logToFile ("Error in sendCodeChefReminder: " ++ message error) ;;
       ret (Some false)).

(** *** Ten-minute warnings *)

(** [{ ...c, platform: label }] *)
Definition with_platform (label : string) (c : Contest) : Contest :=
  mkContest (title c) (startTime c) (endTime c) (duration c) (url c) (description c)
            (Some label).

Definition tenMinBefore (now : Z) (contest : Contest) : number :=
  let timeUntilStart := js_sub (startTime contest) (Some (inject_Z now)) in
  js_sub timeUntilStart (Some 600%Q).

(** [tenMinBefore > 0 && tenMinBefore < 1800] *)
Definition within_window (now : Z) (contest : Contest) : bool :=
  js_gt (tenMinBefore now contest) (Some 0%Q)
  && js_lt (tenMinBefore now contest) (Some 1800%Q).

(** [allContests.forEach(contest => ...)]; the counter is
    [warningsScheduled]. Arming the timer is the event [SetTimeout],
    with the delay in milliseconds and the contest the callback closes
    over. *)
Fixpoint allContests_forEach (now : Z) (contests : list Contest) (warningsScheduled : nat)
  : Async W nat :=
  match contests with
  | [] => ret warningsScheduled
  | contest :: rest =>
      count <- (if negb (truthy_number (startTime contest)) then
                  logToFile ("Warning: Contest missing startTime: " ++ JSON_stringify contest) ;;
                  ret warningsScheduled
                else if within_window now contest then
                  emit (SetTimeout (js_mul (tenMinBefore now contest) (Some 1000%Q)) contest) ;;
                  ret (S warningsScheduled)
                else ret warningsScheduled) ;;
      allContests_forEach now rest count
  end.

Definition scheduleTenMinuteWarnings : Async W bool :=
  mark_check "Scheduling ten-minute warnings at: " ;;
  try_catch
    (leetcodeContests <- fetchLeetCodeContests ;;
     codechefContests <- fetchCodeChefContests ;;
     let allContests := (map (with_platform "LeetCode") leetcodeContests
                         ++ map (with_platform "CodeChef") codechefContests)%list in
     now <- observe (fun w => (Date_now w / 1000)%Z) ;;
     warningsScheduled <- allContests_forEach now allContests 0 ;;
     logToFile ("Scheduled " ++ string_of_nat warningsScheduled ++ " ten-minute warnings") ;;
     ret true)
    (fun error =>
       logToFile ("Error scheduling ten-minute warnings: " ++ message error) ;;
       ret false).

(** [new EmbedBuilder().setTitle(...).setColor('#FF0000')], on a
    contest that the scan has tagged with its platform. *)
Definition new_warning_embed (contest : Contest) : Embed :=
  mkEmbed (Text.warning_title_head ++ render_string (platform contest)
           ++ Text.warning_title_tail)
          "#FF0000" None None [].

Definition warning_value (when : string) : string :=
  Text.starts_at ++ when ++ Text.nl ++ Text.gear_up.

(** The callback of an armed timer. The name of the field is
    [contest.title] as it is, not a template literal around it. *)
Definition tenMinuteWarning (contest : Contest) : Async W unit :=
  try_catch
    (logToFile ("Sending 10-minute warning for " ++ render_string (platform contest)
                ++ " contest: " ++ render_string (title contest)) ;;
     when <- formatContestTime (startTime contest) ;;
     reminderEmbed <- lift (addFields (new_warning_embed contest) (title contest)
                                      (warning_value when)) ;;
     msg <- sendDiscordMessage (CHANNEL_ID cfg) (Options (Some Text.countdown) [reminderEmbed]) ;;
     add_reaction msg "Failed to add reaction to 10-min warning: ")
    (fun error => logToFile ("Error sending 10-minute warning: " ++ message error)).

(** *** Cron table *)

Inductive Handler : Type :=
| HsendLeetCodeReminder
| HsendCodeChefReminder
| HsendCombinedReminder
| HscheduleTenMinuteWarnings.

Record CronJob : Type := mkCronJob {
  job_name : string;
  job_expression : string;
  job_handler : Handler;
  job_description : string
}.

Definition validateCronExpression (expr name : string) : Async W bool :=
  try_catch
    (lift (cron_validate expr) ;;
     ret true)
    (fun error =>
       logToFile ("Invalid cron expression for " ++ name ++ ": " ++ expr) ;;
       logToFile ("Error: " ++ message error) ;;
       ret false).

Definition cronJobs : list CronJob :=
  [ mkCronJob "LeetCode Saturday" "30 12 * * 6" HsendLeetCodeReminder
              "LeetCode on Saturdays at 6:00 PM IST (12:30 UTC)";
    mkCronJob "CodeChef Wednesday" "30 12 * * 3" HsendCodeChefReminder
              "CodeChef on Wednesdays at 6:00 PM IST (12:30 UTC)";
    mkCronJob "Combined Sunday" "0 10 * * 0" HsendCombinedReminder
              "Combined reminder on Sundays at 3:30 PM IST (10:00 UTC)";
    mkCronJob "Ten-minute warnings" "*/30 * * * *" HscheduleTenMinuteWarnings
              "Schedule ten-minute reminders every 30 mins" ].

(** [cronJobs.forEach(job => ...)]: registering with node-cron is the
    event [CronSchedule]; a throw of [cron.schedule] is not caught. *)
Fixpoint cronJobs_forEach (jobs : list CronJob) : Async W unit :=
  match jobs with
  | [] => ret tt
  | job :: rest =>
      (valid <- validateCronExpression (job_expression job) (job_name job) ;;
       if valid then
         perform (CronSchedule (job_expression job) (job_name job))
                 (cron_schedule (job_expression job)) ;;
         logToFile ("Scheduled: " ++ job_name job ++ " - " ++ job_description job)
       else
         logToFile ("Failed to schedule job: " ++ job_name job)) ;;
      cronJobs_forEach rest
  end.




(** *** Reading an event list *)

Definition is_fetch_call (ev : Event) : bool :=
  match ev with
  | FetchCall _ => true
  | _ => false
  end.

Definition sleeps (events : list Event) : list Z :=
  flat_map (fun ev => match ev with Sleep ms => [ms] | _ => [] end) events.

(** Payloads handed to [send] of channel [ch], oldest first. *)
Definition sends_to (ch : string) (events : list Event) : list Payload :=
  flat_map (fun ev => match ev with
                      | ChannelSend c p => if c =? ch then [p] else []
                      | _ => []
                      end) events.

(** Every channel send, whatever the channel. *)
Definition sends_of_any (events : list Event) : list (string * Payload) :=
  flat_map (fun ev => match ev with ChannelSend c p => [(c, p)] | _ => [] end) events.

Definition embeds_of (p : Payload) : list Embed :=
  match p with
  | Plain _ => []
  | Options _ embeds => embeds
  end.

Definition is_admin_event (ev : Event) : bool :=
  match ev with
  | UsersFetch _ | UserSend _ _ => true
  | _ => false
  end.

(** Timers armed, with their delay in milliseconds. *)
Definition timers (events : list Event) : list (number * Contest) :=
  flat_map (fun ev => match ev with SetTimeout d c => [(d, c)] | _ => [] end) events.

(** Expressions handed to [cron.schedule], in order. *)
Definition scheduled (events : list Event) : list string :=
  flat_map (fun ev => match ev with CronSchedule e _ => [e] | _ => [] end) events.

(** What formatContestTime returns and logs for a timestamp. *)
Definition formatted_time (timestamp : number) : string :=
  match toLocaleString (js_mul timestamp (Some 1000%Q)) with
  | Return text => text ++ " IST"
  | Throw _ => "Invalid date"
  end.

Definition format_events (timestamp : number) : list Event :=
  match toLocaleString (js_mul timestamp (Some 1000%Q)) with
  | Return _ => []
  | Throw error => [LogLine ("Error formatting contest time: " ++ message error)]
  end.

Definition incomplete_line (label : string) (contest : Contest) : string :=
  "Warning: Incomplete contest data for " ++ label ++ ": " ++ JSON_stringify contest.

(** The fields the composer is to produce: one per complete record, in
    input order. *)
Definition expected_fields (contests : list Contest) : list Field.t :=
  map (fun c => contest_field c (formatted_time (startTime c)))
      (filter (fun c => negb (incomplete c)) contests).

(** The error of the first field that addFields rejects when [fs] are
    added one after the other to an embed that holds [existing]; [None]
    when all of them are accepted. *)
Fixpoint rejected (existing fs : list Field.t) : option Error :=
  match fs with
  | [] => None
  | f :: rest =>
      match addFields_check existing (Some (Field.name f)) (Field.value f) with
      | Some error => Some error
      | None => rejected (existing ++ [f]) rest
      end
  end.

(** What the composer returns: nothing on the empty list, true when
    every field was accepted, false when addFields threw. *)
Definition composer_result (contests : list Contest) : option bool :=
  match contests with
  | [] => None
  | _ :: _ =>
      match rejected [] (expected_fields contests) with
      | None => Some true
      | Some _ => Some false
      end
  end.

(** An operation that rejects in every world. *)
Definition always_fails (fetchFunc : W -> Outcome (list Contest) * W) : Prop :=
  forall w, exists error, fst (fetchFunc w) = Throw error.

(** What the loop of the composer logs when it gets through the list:
    a warning per skipped record, and whatever the formatter logs for
    the others. *)
Definition forEach_events (label : string) (contests : list Contest) : list Event :=
  flat_map (fun c => if incomplete c
                     then [LogLine (incomplete_line label c)]
                     else format_events (startTime c)) contests.

(** What the loop logs until it is through the list or addFields
    throws, [existing] being the fields of the embed so far. *)
Fixpoint loop_events (label : string) (contests : list Contest) (existing : list Field.t)
  : list Event :=
  match contests with
  | [] => []
  | c :: rest =>
      if incomplete c then LogLine (incomplete_line label c) :: loop_events label rest existing
      else
        let f := contest_field c (formatted_time (startTime c)) in
        (format_events (startTime c)
         ++ match addFields_check existing (Some (Field.name f)) (Field.value f) with
            | Some _ => []
            | None => loop_events label rest (existing ++ [f])
            end)%list
  end.

(** The state in which a reminder cycle starts fetching: the stamp of
    the check has been recorded. *)
Definition checked (s : State W) : State W :=
  mkState (world s) (Some (toISOString (world s))).

(** A contest the warning scan arms a timer for. *)
Definition armed (now : Z) (contest : Contest) : bool :=
  truthy_number (startTime contest) && within_window now contest.

(** What the warning scan emits for its list of contests. *)
Definition scan_events (now : Z) (contests : list Contest) : list Event :=
  flat_map (fun c => if negb (truthy_number (startTime c))
                     then [LogLine ("Warning: Contest missing startTime: " ++ JSON_stringify c)]
                     else if within_window now c
                          then [SetTimeout (js_mul (tenMinBefore now c) (Some 1000%Q)) c]
                          else []) contests.

(** The world in which the fallback of sendDiscordMessage starts: the
    one the failed primary send left behind. *)
Definition after_primary (channelId : string) (content : Payload) (w : W) : W :=
  if channels_cache_has w channelId then snd (channel_send channelId content w) else w.

Definition primary_fails (channelId : string) (content : Payload) (w : W) : Prop :=
  channels_cache_has w channelId = false
  \/ exists e, fst (channel_send channelId content w) = Throw e.

(** The backup channel is configured, differs from the primary, is in
    the cache, and its send resolves with [m]. *)
Definition backup_delivers (channelId : string) (content : Payload) (w : W) (m : Message) : Prop :=
  exists backup,
    BACKUP_CHANNEL_ID cfg = Some backup
    /\ backup <> ""
    /\ backup <> channelId
    /\ channels_cache_has w backup = true
    /\ fst (channel_send backup (backup_payload content) w) = Return m.

(** No backup delivery: none configured, or the same channel as the
    primary, or not in the cache, or its send rejects. *)
Definition backup_unavailable (channelId : string) (content : Payload) (w : W) : Prop :=
  BACKUP_CHANNEL_ID cfg = None
  \/ exists backup,
       BACKUP_CHANNEL_ID cfg = Some backup
       /\ (backup = ""
           \/ backup = channelId
           \/ channels_cache_has w backup = false
           \/ exists e, fst (channel_send backup (backup_payload content) w) = Throw e).

Definition admin_configured (adminId : string) : Prop :=
  DISCORD_ADMIN_ID cfg = Some adminId /\ adminId <> "".

(** The error the catch block of sendDiscordMessage receives, when the
    primary send fails. *)
Definition primary_error (channelId : string) (content : Payload) (w : W) : option Error :=
  if channels_cache_has w channelId then
    match fst (channel_send channelId content w) with
    | Throw e => Some e
    | Return _ => None
    end
  else Some (mkError ("Channel not found: " ++ channelId)).

(** The world in which the admin is looked up: the one the backup
    branch left behind, [w] being the world it started in. *)
Definition after_backup (channelId : string) (content : Payload) (w : W) : W :=
  match BACKUP_CHANNEL_ID cfg with
  | Some backup =>
      if truthy_string (Some backup) && negb (channelId =? backup)
         && channels_cache_has w backup
      then snd (channel_send backup (backup_payload content) w)
      else w
  | None => w
  end.

End Bot.

(** ** A scripted runtime

    A small deterministic world used to run the model on concrete
    inputs: a clock, a counter for message ids, and a script that fixes
    the replies of the remote services. [cron.validate] answers with a
    boolean and does not throw, as node-cron documents it. *)

Module Sim.

Record World : Type := mkWorld {
  clock : Z;
  next_id : nat
}.

Record Script : Type := mkScript {
  cached : list string;
  rejecting : list string;
  admin_reachable : bool;
  leetcode_reply : Outcome (option LeetCodeBody);
  codechef_reply : Outcome (option CodeChefBody);
  valid_patterns : list string;
  strict_schedule : bool
}.

Definition mem (x : string) (l : list string) : bool := existsb (String.eqb x) l.

(** The two dates the examples use, as [getTime] reads them. *)
Definition getTime (v : option string) : number :=
  match v with
  | Some "2024-01-06T14:30:00Z" => Some (inject_Z 1704551400000)
  | Some "2024-01-06T16:30:00Z" => Some (inject_Z 1704558600000)
  | _ => None
  end.

Definition localeString (n : number) : Outcome string :=
  match n with
  | Some q => Return ("@" ++ string_of_Z (Qfloor q))
  | None => Return "Invalid Date"
  end.

Definition stringify (c : Contest) : string :=
  "{title:" ++ render_string (title c) ++ "}".

(** The checks of discord.js: at most 25 fields, a name that is a
    string of 1 to 256 characters, a value of 1 to 1024 characters. *)
Definition discord_check (existing : list Field.t) (name : option string) (value : string)
  : option Error :=
  if (25 <? List.length existing + 1)%nat then Some (mkError "Invalid number value")
  else
    match name with
    | None => Some (mkError "Received one or more errors")
    | Some n =>
        if (js_length n =? 0)%nat || (256 <? js_length n)%nat
           || (js_length value =? 0)%nat || (1024 <? js_length value)%nat
        then Some (mkError "Received one or more errors")
        else None
    end.

Definition send (script : Script) (ch : string) (p : Payload) (w : World)
    : Outcome Message * World :=
  if mem ch (rejecting script)
  then (Throw (mkError "Missing Access"), w)
  else (Return (mkMessage (next_id w)), mkWorld (clock w) (S (next_id w))).

Definition runtime (script : Script) : Runtime World := {|
    Date_now := clock;
    toISOString := fun w => "T+" ++ string_of_Z (clock w);
    Date_getTime := getTime;
    toLocaleString := localeString;
    JSON_stringify := stringify;
    error_stack := fun e => "Error: " ++ message e;
    timer_wait := fun ms w => mkWorld (clock w + ms) (next_id w);
    channels_cache_has := fun _ ch => mem ch (cached script);
    channel_send := send script;
    users_fetch := fun id w =>
      if admin_reachable script then (Return (mkUser id), w)
      else (Throw (mkError "Unknown User"), w);
    user_send := fun _ _ w => (Return (mkMessage (next_id w)), mkWorld (clock w) (S (next_id w)));
    message_react := fun _ _ w => (Return tt, w);
    axios_post_leetcode := fun w => (leetcode_reply script, w);
    axios_get_codechef := fun w => (codechef_reply script, w);
    addFields_check := discord_check;
    cron_validate := fun expr => Return (mem expr (valid_patterns script));
    cron_schedule := fun expr w =>
      if strict_schedule script && negb (mem expr (valid_patterns script))
      then (Throw (mkError (expr ++ " is a invalid expression for minute")), w)
      else (Return tt, w)
  |}.

Definition patterns : list string :=
  ["30 12 * * 6"; "30 12 * * 3"; "0 10 * * 0"; "*/30 * * * *"].

Definition outage : Script :=
  mkScript ["general"] [] true
           (Throw (mkError "timeout of 10000ms exceeded"))
           (Throw (mkError "Request failed with status code 503"))
           patterns false.

Definition start : State World := mkState (mkWorld 1704549000000 0) None.

Definition config : Config := mkConfig "general" (Some "backup") (Some "42").

(** Both APIs time out or answer 503. *)
Definition down : Runtime World := runtime outage.

(** A server where the primary channel rejects and the backup accepts. *)
Definition primary_down : Script :=
  mkScript ["general"; "backup"] ["general"] true
           (Return (Some (mkLeetCodeBody (Some (mkLeetCodeData (Some []))))))
           (Return (Some (mkCodeChefBody (Some []))))
           patterns false.

Definition notice : Payload := Options (Some "Reminder") [].

(** A quiet week-end: the clock reads 2024-01-06 13:50:00 UTC; LeetCode
    lists one contest that is over, one that starts in twenty minutes
    and one that starts in forty; CodeChef lists one contest, from 14:30
    to 16:30 UTC. *)
Definition weekly : Contest :=
  mkContest (Some "Weekly Contest 379") (Some (inject_Z 1704550200)) None
            (Some (inject_Z 5400)) None None None.

Definition finished : Contest :=
  mkContest (Some "Weekly Contest 378") (Some (inject_Z 1703946600)) None
            (Some (inject_Z 5400)) None None None.

Definition biweekly : Contest :=
  mkContest (Some "Biweekly Contest 121") (Some (inject_Z 1704551400)) None
            None None None None.

Definition untitled : Contest :=
  mkContest None (Some (inject_Z 1704550200)) None (Some (inject_Z 5400)) None None None.

(** More records than an embed takes fields. *)
Definition crowded : list Contest := repeat weekly 26.

(** A contest announced at length, and without a duration. *)
Definition filler (n : nat) : string := string_of_list_ascii (repeat "a"%char n).

Definition verbose : Contest :=
  mkContest (Some "Weekly Contest 380") (Some (inject_Z 1704551400)) None None None
            (Some (filler 1000)) None.

Definition starters : CodeChefEntry :=
  mkCodeChefEntry (Some "Starters 116") (Some "2024-01-06T14:30:00Z")
                  (Some "2024-01-06T16:30:00Z") (Some "START116").

Definition weekend : Script :=
  mkScript ["general"; "backup"] [] true
           (Return (Some (mkLeetCodeBody
                            (Some (mkLeetCodeData (Some [finished; weekly; biweekly]))))))
           (Return (Some (mkCodeChefBody (Some [starters]))))
           patterns false.

Definition up : Runtime World := runtime weekend.

(** The same week-end with a node-cron whose [schedule] checks the
    expression itself and throws on a bad one. *)
Definition strict : Script :=
  mkScript ["general"; "backup"] [] true
           (Return (Some (mkLeetCodeBody (Some (mkLeetCodeData (Some []))))))
           (Return (Some (mkCodeChefBody (Some []))))
           patterns true.

(** A table entry whose expression node-cron does not accept. *)
Definition broken : CronJob :=
  mkCronJob "Broken" "every day at noon" HsendCombinedReminder "not a cron expression".

End Sim.


(** ** More readers of a run *)

Section Readers.
Context {W : Type} {RT : Runtime W}.

Definition fetch_calls (events : list Event) : nat :=
  length (filter is_fetch_call events).

(** Labels of the operations called, in order. *)
Definition called (events : list Event) : list string :=
  flat_map (fun ev => match ev with FetchCall l => [l] | _ => [] end) events.

Definition log_lines (events : list Event) : list string :=
  flat_map (fun ev => match ev with LogLine t => [t] | _ => [] end) events.

Definition reactions (events : list Event) : list (Message * string) :=
  flat_map (fun ev => match ev with React m e => [(m, e)] | _ => [] end) events.

(** The operation fails [k] times in a row, each failure followed by
    the wait of RETRY_DELAY, and then returns [contests], leaving the
    world [w']. *)
Fixpoint succeeds_after (fetchFunc : W -> Outcome (list Contest) * W) (k : nat) (w : W)
    (contests : list Contest) (w' : W) : Prop :=
  match k with
  | 0 => fetchFunc w = (Return contests, w')
  | S k' => exists error w1,
              fetchFunc w = (Throw error, w1)
              /\ succeeds_after fetchFunc k' (timer_wait RETRY_DELAY w1) contests w'
  end.

(** What fetchWithRetry logs when every attempt from [retries] on fails
    with the same error and [budget] retries are left. *)
Fixpoint failure_log (label : string) (error : Error) (retries budget : nat) : list string :=
  match budget with
  | 0 => [attempt_line label retries error; giving_up_line label]
  | S b => attempt_line label retries error :: retrying_line label
           :: failure_log label error (S retries) b
  end.

(** A reply of the LeetCode API that lacks [data], [data.data] or
    [data.data.allContests]. *)
Definition malformed_leetcode (body : option LeetCodeBody) : Prop :=
  match body with
  | Some (mkLeetCodeBody (Some (mkLeetCodeData (Some _)))) => False
  | _ => True
  end.

(** A reply of the CodeChef API that lacks [data] or
    [data.future_contests]. *)
Definition malformed_codechef (body : option CodeChefBody) : Prop :=
  match body with
  | Some (mkCodeChefBody (Some _)) => False
  | _ => True
  end.

(** The kinds of event a delivery can produce. *)
Definition delivery_event (ev : Event) : Prop :=
  match ev with
  | LogLine _ | ChannelSend _ _ | UsersFetch _ | UserSend _ _ => True
  | _ => False
  end.

(** The kinds of event a reminder can produce: those of a delivery, and
    the reaction on the delivered message. *)
Definition reminder_event (ev : Event) : Prop :=
  match ev with
  | LogLine _ | ChannelSend _ _ | UsersFetch _ | UserSend _ _ | React _ _ => True
  | _ => False
  end.

(** An entry that validateCronExpression lets through. *)
Definition accepted (job : CronJob) : bool :=
  match cron_validate (job_expression job) with
  | Return _ => true
  | Throw _ => false
  end.

(** The clock reading a warning scan compares the start times with,
    in seconds: it is taken once both adapters have returned. *)
Definition scan_reading (s : State W) : Z :=
  (Date_now (world (state_of (fetchCodeChefContests
                                (state_of (fetchLeetCodeContests (checked s))))))
   / 1000)%Z.

(** The embed of a ten-minute warning that addFields has accepted. *)
Definition warning_embed (contest : Contest) : Embed :=
  mkEmbed (Text.warning_title_head ++ render_string (platform contest)
           ++ Text.warning_title_tail)
          "#FF0000" None None
          [Field.make (render_string (title contest))
                      (Text.starts_at ++ formatted_time (startTime contest)
                       ++ Text.nl ++ Text.gear_up)].

End Readers.

(** * The rest of the process: start-up, login, chat commands, daily messages *)

(** ** Start-up configuration *)

(** [process.env]: a name is absent or bound to a string. *)
Definition Env : Type := string -> option string.

Definition requiredEnvVars : list string := ["DISCORD_TOKEN"; "CHANNEL_ID"].

(** [requiredEnvVars.filter(varName => !process.env[varName])] *)
Definition missingEnvVars (env : Env) : list string :=
  filter (fun varName => negb (truthy_string (env varName))) requiredEnvVars.

(** [v || null] *)
Definition or_null (v : option string) : option string :=
  if truthy_string v then v else None.

Record Constants : Type := mkConstants {
  constants_config : Config;
  DISCORD_TOKEN : string;
  LOG_FILE : string
}.

(** The outcome of the first lines of index.js: [process.exit(1)] after
    a line on the error stream, or the constants. *)
Inductive Startup : Type :=
| ExitWith (code : Z) (stderr : string)
| Loaded (constants : Constants).

Definition load_constants (env : Env) : Startup :=
  if (0 <? length (missingEnvVars env))%nat then
    ExitWith 1 ("Error: Missing required environment variables: "
                ++ String.concat ", " (missingEnvVars env))
  else
    Loaded (mkConstants
              (mkConfig (render_string (env "CHANNEL_ID"))
                        (or_null (env "BACKUP_CHANNEL_ID"))
                        (or_null (env "DISCORD_ADMIN_ID")))
              (render_string (env "DISCORD_TOKEN"))
              (if truthy_string (env "LOG_FILE")
               then render_string (env "LOG_FILE")
               else "./bot-log.txt")).

(** ** Strings of the command parser *)

(** [s.split(sep)] for a one-character separator: every occurrence
    cuts, so that two separators in a row enclose an empty piece. *)
Fixpoint split (sep : ascii) (s : string) : list string :=
  match s with
  | EmptyString => [EmptyString]
  | String c rest =>
      if Ascii.eqb c sep then EmptyString :: split sep rest
      else match split sep rest with
           | [] => [String c EmptyString]
           | piece :: pieces => String c piece :: pieces
           end
  end.

Definition space : ascii := ascii_of_nat 32.


(** [arg === word], where [arg] may be [undefined]. *)
Definition arg_is (arg : option string) (word : string) : bool :=
  match arg with
  | Some a => a =? word
  | None => false
  end.

(** ** Text of daily-messages.js, byte for byte as in the source *)

Module DailyText.
Import Text.

Definition thanks (user response : string) : string :=
  "Thanks " ++ user ++ "! You selected: **" ++ response ++ "** ✅".

Definition responded (user response : string) : string :=
  user ++ " responded with: " ++ response.

Definition good_morning (randomQuote : string) : string :=
  "@everyone" ++ nl ++ nl ++ "**Good Morning Everyone!** ☀️" ++ nl ++ nl
  ++ "Here's your daily dose of motivation:" ++ nl ++ nl ++ "> " ++ randomQuote ++ nl ++ nl
  ++ "Let's make today count!".

Definition good_night : string :=
  "@everyone" ++ nl ++ nl ++ "**Good Night Everyone!** 🌙" ++ nl ++ nl
  ++ "Before you sign off for the day, please let us know how many questions you solved today:".

Definition reminder (year : string) : string :=
  "@everyone" ++ nl ++ nl ++ "📚 **Reminder for " ++ year ++ " students**" ++ nl ++ nl
  ++ "Please make sure to **revise today's notes** after reaching home! Consistency is key 🔑" ++ nl ++ nl ++ "✅ Please react to this message with a ✅ once you're done reading this message.".

Definition reminder_done (year : string) : string :=
  "Reminder message sent and reaction added for " ++ year ++ " students".

Definition reminder_failed (year : string) : string :=
  "Error sending reminder message for " ++ year ++ ":".

Definition check_mark : string := "✅".

Definition motivationalQuotes : list string :=
  [ "The only way to do great work is to love what you do. - Steve Jobs";
    "Success is not final, failure is not fatal: It is the courage to continue that counts. - Winston Churchill";
    "Your time is limited, don't waste it living someone else's life. - Steve Jobs";
    "Believe you can and you're halfway there. - Theodore Roosevelt";
    "It does not matter how slowly you go as long as you do not stop. - Confucius";
    "Everything you've ever wanted is on the other side of fear. - George Addair";
    "Success is walking from failure to failure with no loss of enthusiasm. - Winston Churchill";
    "The only limit to our realization of tomorrow will be our doubts of today. - Franklin D. Roosevelt";
    "The way to get started is to quit talking and begin doing. - Walt Disney";
    "If you are working on something that you really care about, you don't have to be pushed. The vision pulls you. - Steve Jobs" ].

End DailyText.

(** ** Effects beyond the reminder pipeline *)

Record Button : Type := mkButton {
  customId : string;
  label : string;
  style : string
}.

Inductive Effect : Type :=
| Core (ev : Event)
| ClientLogin
| TimerFires (delay : Z)
| Reply (text : string) (ephemeral : bool)
| ConsoleLog (text : string)
| ConsoleError (text : string) (detail : option Error)
| ChannelsFetch (id : option string)
| Post (id : option string) (content : string) (components : list Button).

(** The further library calls: login, replies, channel fetch, posting
    with components, the random source, the process clock.
    [Object_prototype] gives the properties every object inherits from
    [Object.prototype] ([toString], [constructor] and the like): for the
    name of one, the text a template literal prints for its value. *)
Class Host (W : Type) : Type := {
  client_login : W -> Outcome unit * W;
  message_reply : string -> W -> Outcome unit * W;
  interaction_reply : string -> W -> Outcome unit * W;
  channels_fetch : option string -> W -> Outcome bool * W;
  daily_send : option string -> string -> list Button -> W -> Outcome Message * W;
  Math_random : W -> Q * W;
  Object_prototype : string -> option string;
  process_uptime : W -> Q
}.

Record Incoming : Type := mkIncoming {
  author_bot : bool;
  incoming_content : string
}.

Record Interaction : Type := mkInteraction {
  isButton : bool;
  username : string;
  interaction_customId : string
}.

Inductive LoginStep : Type :=
| Connected
| Rearmed (delay : Z) (retries : nat)
| Exited (code : Z).


Declare Scope task_scope.
Delimit Scope task_scope with task.

Section Shell.
Context {W : Type} {RT : Runtime W} {HT : Host W}.
Variable cfg : Config.

Definition Task (A : Type) : Type := State W -> Outcome A * State W * list Effect.

Definition tret {A} (a : A) : Task A := fun s => (Return a, s, []).

Definition tbind {A B} (m : Task A) (k : A -> Task B) : Task B :=
  fun s =>
    match m s with
    | (Return a, s1, t1) => let '(r, s2, t2) := k a s1 in (r, s2, (t1 ++ t2)%list)
    | (Throw e, s1, t1) => (Throw e, s1, t1)
    end.

Definition ttry {A} (body : Task A) (handler : Error -> Task A) : Task A :=
  fun s =>
    match body s with
    | (Return a, s1, t1) => (Return a, s1, t1)
    | (Throw e, s1, t1) => let '(r, s2, t2) := handler e s1 in (r, s2, (t1 ++ t2)%list)
    end.

Definition temit (ef : Effect) : Task unit := fun s => (Return tt, s, [ef]).

Definition tperform {A} (ef : Effect) (f : W -> Outcome A * W) : Task A :=
  fun s =>
    let '(r, w) := f (world s) in
    (r, mkState w (lastScheduledCheck s), [ef]).

(** A function of the reminder pipeline, run from here. *)
Definition run {A} (m : Async W A) : Task A :=
  fun s => let '(r, s1, t) := m s in (r, s1, map Core t).

Notation "x <- m ;; k" := (tbind m (fun x => k))
  (at level 61, m at next level, right associativity) : task_scope.
Notation "m ;; k" := (tbind m (fun _ => k))
  (at level 61, right associativity) : task_scope.
Local Open Scope task_scope.

(** *** Login with retry *)

Definition login_failed_line (retries : nat) (error : Error) : string :=
  "Login failed (attempt " ++ string_of_nat (retries + 1) ++ "/" ++ string_of_nat MAX_RETRIES
  ++ "): " ++ message error.

(** One call of loginWithRetry. It ends connected, or with the timer
    armed that will call it again with the next count, or in
    [process.exit(1)]. *)
Definition loginWithRetry (retries : nat) : Task LoginStep :=
  ttry
    (run (logToFile "Attempting to log in to Discord...") ;;
     tperform ClientLogin client_login ;;
     tret Connected)
    (fun error =>
       run (logToFile (login_failed_line retries error)) ;;
       if (retries <? MAX_RETRIES)%nat then
         let delay := (RETRY_DELAY * Z.of_nat (retries + 1))%Z in
         run (logToFile ("Retrying login in " ++ string_of_Z (delay / 1000) ++ " seconds...")) ;;
         tret (Rearmed delay (retries + 1))
       else
         run (logToFile "All login attempts failed. Exiting...") ;;
         tret (Exited 1)).

(** The calls that follow one another as the armed timers fire. *)
Equations login_process (retries : nat) (s : State W)
    : Outcome LoginStep * State W * list Effect
    by wf (MAX_RETRIES - retries) lt :=
  login_process retries s :=
    match loginWithRetry retries s with
    | (Return (Rearmed delay next), s1, t) =>
        match lt_dec (MAX_RETRIES - next) (MAX_RETRIES - retries) with
        | left _ =>
            let '(r, s2, t2) :=
              login_process next
                (mkState (timer_wait delay (world s1)) (lastScheduledCheck s1)) in
            (r, s2, (t ++ TimerFires delay :: t2)%list)
        | right _ => (Return (Rearmed delay next), s1, t)
        end
    | other => other
    end.

(** *** Manual trigger *)

Definition help_text : string :=
  "Available commands: `!contest check`, `!contest leetcode`, `!contest codechef`, `!contest warn`, `!contest status`".

(** [global.lastScheduledCheck || 'No checks yet'] *)
Definition last_check (s : State W) : string :=
  if truthy_string (lastScheduledCheck s)
  then render_string (lastScheduledCheck s)
  else "No checks yet".

Definition reply (text : string) : Task unit :=
  tperform (Reply text false) (message_reply text).

(** The listener on [messageCreate]. *)
Definition messageCreate (message : Incoming) : Task unit :=
  if author_bot message then tret tt
  else if prefix "!contest" (incoming_content message) then
    let args := split space (incoming_content message) in
    let arg := nth_error args 1 in
    if arg_is arg "check" then
      reply "Running contest check..." ;;
      run (sendCombinedReminder cfg) ;;
      tret tt
    else if arg_is arg "leetcode" then
      reply "Checking LeetCode contests..." ;;
      run (sendLeetCodeReminder cfg) ;;
      tret tt
    else if arg_is arg "codechef" then
      reply "Checking CodeChef contests..." ;;
      run (sendCodeChefReminder cfg) ;;
      tret tt
    else if arg_is arg "warn" then
      reply "Scheduling 10-minute warnings..." ;;
      run scheduleTenMinuteWarnings ;;
      tret tt
    else if arg_is arg "status" then
      fun s => reply ("Bot is running. Last check: " ++ last_check s) s
    else
      reply help_text
  else tret tt.

(** The subcommands the listener acts on. *)
Definition subcommands : list string := ["check"; "leetcode"; "codechef"; "warn"; "status"].

(** *** Health endpoint *)


(** *** Daily messages *)

Variable MORNING_CHANNEL_ID : option string.

Definition responseMap : list (string * string) :=
  [ ("poll_1", "1 Question");
    ("poll_2", "2 Questions");
    ("poll_3", "3 Questions");
    ("poll_4", "4+ Questions") ].

(** The own property [key] of an object literal. *)
Fixpoint lookup (key : string) (map : list (string * string)) : option string :=
  match map with
  | [] => None
  | (k, v) :: rest => if k =? key then Some v else lookup key rest
  end.

(** The row of buttons under the good-night message. *)
Definition poll_row : list Button :=
  [ mkButton "poll_1" "1 Question" "Primary";
    mkButton "poll_2" "2 Questions" "Primary";
    mkButton "poll_3" "3 Questions" "Primary";
    mkButton "poll_4" "4+ Questions" "Primary" ].

(** [map[key]] on an object literal: an own property, which is one of
    its strings, or else a property inherited from [Object.prototype],
    which is a function or an object. *)
Inductive Property : Type :=
| Own (text : string)
| Inherited (rendering : string).

Definition get (key : string) (map : list (string * string)) : option Property :=
  match lookup key map with
  | Some text => Some (Own text)
  | None =>
      match Object_prototype key with
      | Some rendering => Some (Inherited rendering)
      | None => None
      end
  end.

(** [if (response)]: an object is truthy, a string unless it is empty. *)
Definition truthy_property (v : option Property) : bool :=
  match v with
  | Some (Own text) => negb (text =? "")
  | Some (Inherited _) => true
  | None => false
  end.

Definition render_property (v : option Property) : string :=
  match v with
  | Some (Own text) => text
  | Some (Inherited rendering) => rendering
  | None => "undefined"
  end.

(** The listener on [interactionCreate]. *)
Definition interactionCreate (interaction : Interaction) : Task unit :=
  if negb (isButton interaction) then tret tt
  else
    let user := username interaction in
    let response := get (interaction_customId interaction) responseMap in
    if truthy_property response then
      tperform (Reply (DailyText.thanks user (render_property response)) true)
               (interaction_reply (DailyText.thanks user (render_property response))) ;;
      temit (ConsoleLog (DailyText.responded user (render_property response)))
    else tret tt.

(** [motivationalQuotes[index]] in a template literal. *)
Definition quote_at (index : Z) : string :=
  if (index <? 0)%Z then "undefined"
  else nth (Z.to_nat index) DailyText.motivationalQuotes "undefined".

Definition fetch_channel : Task bool :=
  tperform (ChannelsFetch MORNING_CHANNEL_ID) (channels_fetch MORNING_CHANNEL_ID).

Definition post (content : string) (components : list Button) : Task Message :=
  tperform (Post MORNING_CHANNEL_ID content components)
           (daily_send MORNING_CHANNEL_ID content components).

Definition sendGoodMorningMessage : Task unit :=
  ttry
    (channel <- fetch_channel ;;
     if negb channel then temit (ConsoleError "Channel not found" None)
     else
       r <- (fun s => let '(x, w) := Math_random (world s) in
                      (Return x, mkState w (lastScheduledCheck s), [])) ;;
       let randomQuote :=
         quote_at (Qfloor (r * inject_Z (Z.of_nat (length DailyText.motivationalQuotes)))) in
       post (DailyText.good_morning randomQuote) [] ;;
       temit (ConsoleLog "Good morning message sent successfully"))
    (fun error => temit (ConsoleError "Error sending good morning message:" (Some error))).

Definition sendGoodNightMessage : Task unit :=
  ttry
    (channel <- fetch_channel ;;
     if negb channel then temit (ConsoleError "Channel not found" None)
     else
       post DailyText.good_night poll_row ;;
       temit (ConsoleLog "Good night message with poll sent successfully"))
    (fun error => temit (ConsoleError "Error sending good night message:" (Some error))).

Definition sendReminderMessage (year : string) : Task unit :=
  ttry
    (channel <- fetch_channel ;;
     if negb channel then temit (ConsoleError "Channel not found" None)
     else
       sentMessage <- post (DailyText.reminder year) [] ;;
       tperform (Core (React sentMessage DailyText.check_mark))
                (message_react sentMessage DailyText.check_mark) ;;
       temit (ConsoleLog (DailyText.reminder_done year)))
    (fun error => temit (ConsoleError (DailyText.reminder_failed year) (Some error))).

(** *** Reading a run and its list of effects *)

Definition outcome_of {A} (x : Outcome A * State W * list Effect) : Outcome A := fst (fst x).
Definition final_of {A} (x : Outcome A * State W * list Effect) : State W := snd (fst x).
Definition effects_of {A} (x : Outcome A * State W * list Effect) : list Effect := snd x.

Definition login_attempts (effects : list Effect) : nat :=
  length (filter (fun ef => match ef with ClientLogin => true | _ => false end) effects).

Definition timer_delays (effects : list Effect) : list Z :=
  flat_map (fun ef => match ef with TimerFires d => [d] | _ => [] end) effects.

Definition replies (effects : list Effect) : list string :=
  flat_map (fun ef => match ef with Reply t _ => [t] | _ => [] end) effects.

Definition core_events (effects : list Effect) : list Event :=
  flat_map (fun ef => match ef with Core ev => [ev] | _ => [] end) effects.

Definition posts (effects : list Effect) : list (string * list Button) :=
  flat_map (fun ef => match ef with Post _ c b => [(c, b)] | _ => [] end) effects.

Definition console_logs (effects : list Effect) : list string :=
  flat_map (fun ef => match ef with ConsoleLog t => [t] | _ => [] end) effects.

Definition console_errors (effects : list Effect) : list string :=
  flat_map (fun ef => match ef with ConsoleError t _ => [t] | _ => [] end) effects.

(** The login fails in every world. *)
Definition login_always_fails : Prop :=
  forall w, exists error, fst (client_login w) = Throw error.

End Shell.

(** ** A scripted host

    The further library calls over the scripted world: the login
    succeeds once the clock has reached a given time
    (or never, when no such time is given), and the script fixes
    whether replies, the channel fetch and posting succeed and
    what the random source yields. *)

Module Stage.

Import Sim.

Record HostScript : Type := mkHostScript {
  login_ok_from : option Z;
  replies_ok : bool;
  channel_known : bool;
  posting_ok : bool;
  random_value : Q
}.

(** The properties of [Object.prototype] as V8 prints them. *)
Definition inherited (key : string) : option string :=
  if key =? "__proto__" then Some "[object Object]"
  else if key =? "constructor" then Some "function Object() { [native code] }"
  else if existsb (String.eqb key)
            ["toString"; "toLocaleString"; "valueOf"; "hasOwnProperty"; "isPrototypeOf";
             "propertyIsEnumerable"; "__defineGetter__"; "__defineSetter__";
             "__lookupGetter__"; "__lookupSetter__"]
  then Some ("function " ++ key ++ "() { [native code] }")
  else None.

Definition host (h : HostScript) : Host World := {|
  client_login := fun w =>
    match login_ok_from h with
    | Some t => if (t <=? clock w)%Z then (Return tt, w)
                else (Throw (mkError "An invalid token was provided."), w)
    | None => (Throw (mkError "An invalid token was provided."), w)
    end;
  message_reply := fun _ w =>
    if replies_ok h then (Return tt, w)
    else (Throw (mkError "Missing Permissions"), w);
  interaction_reply := fun _ w =>
    if replies_ok h then (Return tt, w)
    else (Throw (mkError "Unknown interaction"), w);
  channels_fetch := fun _ w => (Return (channel_known h), w);
  daily_send := fun _ _ _ w =>
    if posting_ok h then (Return (mkMessage (next_id w)), mkWorld (clock w) (S (next_id w)))
    else (Throw (mkError "Missing Access"), w);
  Math_random := fun w => (random_value h, w);
  Object_prototype := inherited;
  process_uptime := fun w => inject_Z (clock w / 1000)
|}.

(** Discord accepts the token from the first attempt on. *)
Definition online : HostScript := mkHostScript (Some 0%Z) true true true (7 # 10)%Q.

(** Discord never accepts the token. *)
Definition locked_out : HostScript :=
  mkHostScript None true true true (7 # 10)%Q.

(** Discord accepts the token 100 seconds after the start. *)
Definition late : HostScript :=
  mkHostScript (Some (1704549000000 + 100000)%Z) true true true (7 # 10)%Q.

(** An operation that fails until the clock has passed a minute and a
    half from the start, and then returns one contest. *)
Definition flaky (w : World) : Outcome (list Contest) * World :=
  if (clock w <? 1704549000000 + 90000)%Z
  then (Throw (mkError "socket hang up"), w)
  else (Return [weekly], w).

(** An environment with the two required variables and nothing else. *)
Definition minimal_env : Env :=
  fun name =>
    if name =? "DISCORD_TOKEN" then Some "token"
    else if name =? "CHANNEL_ID" then Some "general"
    else None.

(** APIs that answer, but without the expected fields. *)
Definition garbled : Script :=
  mkScript ["general"] [] true
           (Return (Some (mkLeetCodeBody None)))
           (Return (Some (mkCodeChefBody None)))
           patterns false.

(** A table with one entry on which a throwing validator would trip. *)
Definition throwing_validator : Runtime World := {|
  Date_now := clock;
  toISOString := fun w => "T+" ++ string_of_Z (clock w);
  Date_getTime := getTime;
  toLocaleString := localeString;
  JSON_stringify := stringify;
  error_stack := fun e => "Error: " ++ message e;
  timer_wait := fun ms w => mkWorld (clock w + ms) (next_id w);
  channels_cache_has := fun _ ch => mem ch ["general"];
  channel_send := send weekend;
  users_fetch := fun id w => (Return (mkUser id), w);
  user_send := fun _ _ w => (Return (mkMessage (next_id w)), w);
  message_react := fun _ _ w => (Return tt, w);
  axios_post_leetcode := fun w => (leetcode_reply weekend, w);
  axios_get_codechef := fun w => (codechef_reply weekend, w);
  addFields_check := discord_check;
  cron_validate := fun expr =>
    if mem expr patterns then Return true
    else Throw (mkError (expr ++ " is a invalid expression for minute"));
  cron_schedule := fun _ w => (Return tt, w)
|}.

(** A contest that starts 2500 seconds after the start of the script. *)
Definition ahead : Contest :=
  mkContest (Some "Weekly Contest 380") (Some (inject_Z (1704549000 + 2500))) None
            (Some (inject_Z 5400)) None None None.

(** LeetCode times out during the first 170 seconds of the script and
    lists that contest afterwards; CodeChef lists nothing. *)
Definition recovering : Runtime World := {|
  Date_now := clock;
  toISOString := fun w => "T+" ++ string_of_Z (clock w);
  Date_getTime := getTime;
  toLocaleString := localeString;
  JSON_stringify := stringify;
  error_stack := fun e => "Error: " ++ message e;
  timer_wait := fun ms w => mkWorld (clock w + ms) (next_id w);
  channels_cache_has := fun _ ch => mem ch ["general"];
  channel_send := send weekend;
  users_fetch := fun id w => (Return (mkUser id), w);
  user_send := fun _ _ w => (Return (mkMessage (next_id w)), w);
  message_react := fun _ _ w => (Return tt, w);
  axios_post_leetcode := fun w =>
    if (clock w <? 1704549000000 + 170000)%Z
    then (Throw (mkError "timeout of 10000ms exceeded"), w)
    else (Return (Some (mkLeetCodeBody (Some (mkLeetCodeData (Some [ahead]))))), w);
  axios_get_codechef := fun w => (Return (Some (mkCodeChefBody (Some []))), w);
  addFields_check := discord_check;
  cron_validate := fun expr => Return (mem expr patterns);
  cron_schedule := fun _ w => (Return tt, w)
|}.

(** Half an hour after [start]. *)
Definition half_hour_later : State World :=
  mkState (mkWorld (1704549000000 + 1800000) 0) None.

End Stage.
(** * Properties *)

Section Properties.
Context {W : Type} {RT : Runtime W}.
Variable cfg : Config.

Lemma fetchWithRetry_step (fetchFunc : W -> Outcome (list Contest) * W)
    (label : string) (retries : nat) (s : State W) :
  fetchWithRetry fetchFunc label retries s =
  match fetchFunc (world s) with
  | (Return contests, w) => (Return contests, mkState w (lastScheduledCheck s), [FetchCall label])
  | (Throw error, w) =>
      let s1 := mkState w (lastScheduledCheck s) in
      if lt_dec retries MAX_RETRIES then
        let '(r, s2, t) := fetchWithRetry fetchFunc label (retries + 1)
                             (mkState (timer_wait RETRY_DELAY w) (lastScheduledCheck s)) in
        (r, s2, [FetchCall label; LogLine (attempt_line label retries error);
                 LogLine (retrying_line label); Sleep RETRY_DELAY] ++ t)%list
      else
        (Return [], s1, [FetchCall label; LogLine (attempt_line label retries error);
                         LogLine (giving_up_line label)])
  end.
Proof.
  rewrite fetchWithRetry_equation_1.
  unfold try_catch, perform, bind, logToFile, emit, sleep, ret. simpl.
  destruct (fetchFunc (world s)) as [[contests | error] w]; simpl; [reflexivity |].
  destruct (lt_dec retries MAX_RETRIES); simpl; [| reflexivity].
  destruct (fetchWithRetry fetchFunc label (retries + 1) _) as [[r s2] t].
  reflexivity.
Qed.

(** From any retry count within the budget, an operation that keeps
    failing is called once per remaining attempt, with one wait of
    RETRY_DELAY between two calls, and the result is the empty list. *)
Lemma fetchWithRetry_failing_from (fetchFunc : W -> Outcome (list Contest) * W)
    (label : string) (budget retries : nat) (s : State W) :
  always_fails fetchFunc ->
  retries + budget = MAX_RETRIES ->
  let out := fetchWithRetry fetchFunc label retries s in
  result_of out = Return []
  /\ length (filter is_fetch_call (events_of out)) = S budget
  /\ sleeps (events_of out) = repeat RETRY_DELAY budget.
Proof.
  intros Hfail. revert retries s.
  induction budget as [| budget IH]; intros retries s Hsum out; subst out;
    rewrite fetchWithRetry_step;
    destruct (Hfail (world s)) as [error Herr];
    destruct (fetchFunc (world s)) as [[contests | e] w]; simpl in Herr; try discriminate.
  - destruct (lt_dec retries MAX_RETRIES) as [Hlt | _]; [lia |].
    repeat split.
  - destruct (lt_dec retries MAX_RETRIES) as [_ | Hge]; [| lia].
    specialize (IH (retries + 1)
                   (mkState (timer_wait RETRY_DELAY w) (lastScheduledCheck s))
                   ltac:(lia)).
    cbv zeta in IH.
    destruct (fetchWithRetry fetchFunc label (retries + 1) _) as [[r s2] t].
    unfold result_of, events_of in *. simpl in *.
    destruct IH as (Hr & Hcalls & Hsleeps).
    repeat split; [assumption | now rewrite Hcalls | now rewrite Hsleeps].
Qed.

(** ** Retry wrapper *)

(** C1. If the operation fails on every attempt, fetchWithRetry calls it
    exactly MAX_RETRIES + 1 = 4 times, waits the constant RETRY_DELAY
    between two consecutive calls, logs each failure under its attempt
    number 1 to 4, logs that it gives up, and returns the empty list
    instead of throwing. *)
Theorem fetchWithRetry_exhausted (fetchFunc : W -> Outcome (list Contest) * W)
    (label : string) (s : State W) :
  always_fails fetchFunc ->
  let out := fetchWithRetry fetchFunc label 0 s in
  result_of out = Return []
  /\ length (filter is_fetch_call (events_of out)) = MAX_RETRIES + 1
  /\ MAX_RETRIES + 1 = 4
  /\ sleeps (events_of out) = repeat RETRY_DELAY MAX_RETRIES
  /\ exists e1 e2 e3 e4,
       events_of out =
       [ FetchCall label; LogLine (attempt_line label 0 e1);
         LogLine (retrying_line label); Sleep RETRY_DELAY;
         FetchCall label; LogLine (attempt_line label 1 e2);
         LogLine (retrying_line label); Sleep RETRY_DELAY;
         FetchCall label; LogLine (attempt_line label 2 e3);
         LogLine (retrying_line label); Sleep RETRY_DELAY;
         FetchCall label; LogLine (attempt_line label 3 e4);
         LogLine (giving_up_line label) ].
Proof.
  intros Hfail out.
  destruct (fetchWithRetry_failing_from fetchFunc label MAX_RETRIES 0 s Hfail eq_refl)
    as (Hr & Hcalls & Hsleeps).
  fold out in Hr, Hcalls, Hsleeps.
  split; [exact Hr |].
  split; [rewrite Hcalls; reflexivity |].
  split; [reflexivity |].
  split; [exact Hsleeps |].
  subst out. clear Hr Hcalls Hsleeps.
  pose proof (fun w => Hfail w) as H.
  rewrite fetchWithRetry_step.
  destruct (H (world s)) as [e1 H1].
  destruct (fetchFunc (world s)) as [[c1 | x1] w1]; simpl in H1; [discriminate |].
  injection H1 as ->.
  destruct (lt_dec 0 MAX_RETRIES) as [_ | Hn]; [| unfold MAX_RETRIES in Hn; lia].
  rewrite fetchWithRetry_step. cbn [world lastScheduledCheck].
  destruct (H (timer_wait RETRY_DELAY w1)) as [e2 H2].
  destruct (fetchFunc (timer_wait RETRY_DELAY w1)) as [[c2 | x2] w2]; simpl in H2; [discriminate |].
  injection H2 as ->.
  destruct (lt_dec (0 + 1) MAX_RETRIES) as [_ | Hn]; [| unfold MAX_RETRIES in Hn; lia].
  rewrite fetchWithRetry_step. cbn [world lastScheduledCheck].
  destruct (H (timer_wait RETRY_DELAY w2)) as [e3 H3].
  destruct (fetchFunc (timer_wait RETRY_DELAY w2)) as [[c3 | x3] w3]; simpl in H3; [discriminate |].
  injection H3 as ->.
  destruct (lt_dec (0 + 1 + 1) MAX_RETRIES) as [_ | Hn]; [| unfold MAX_RETRIES in Hn; lia].
  rewrite fetchWithRetry_step. cbn [world lastScheduledCheck].
  destruct (H (timer_wait RETRY_DELAY w3)) as [e4 H4].
  destruct (fetchFunc (timer_wait RETRY_DELAY w3)) as [[c4 | x4] w4]; simpl in H4; [discriminate |].
  injection H4 as ->.
  destruct (lt_dec (0 + 1 + 1 + 1) MAX_RETRIES) as [Hlt | _]; [unfold MAX_RETRIES in Hlt; lia |].
  exists e1, e2, e3, e4. reflexivity.
Qed.

(** ** Delivery *)

Ltac run_async :=
  unfold bind, try_catch, logToFile, emit, perform, observe, ret, throw, lift,
    result_of, events_of, state_of in *;
  cbn [fst snd world lastScheduledCheck] in *.

Lemma truthy_string_Some (s : string) : truthy_string (Some s) = true <-> s <> "".
Proof.
  unfold truthy_string. destruct (String.eqb_spec s ""); simpl; split; intro; congruence.
Qed.

(** notify_admin never throws; it starts by fetching the admin when one
    is configured and produces no channel send. *)
Lemma notify_admin_run (text line : string) (s : State W) :
  let out := notify_admin cfg text line s in
  result_of out = Return tt
  /\ sends_of_any (events_of out) = []
  /\ (forall adminId, admin_configured cfg adminId -> In (UsersFetch adminId) (events_of out))
  /\ (forall a t, In (UserSend a t) (events_of out) -> t = text).
Proof.
  unfold notify_admin.
  destruct (DISCORD_ADMIN_ID cfg) as [adminId |] eqn:Hcfg; cbn zeta.
  - assert (Hsame : forall a, admin_configured cfg a -> a = adminId /\ adminId <> "").
    { intros a [Ha Hne]. rewrite Hcfg in Ha. injection Ha as <-. now split. }
    destruct (truthy_string (Some adminId)) eqn:Ht.
    + run_async.
      destruct (users_fetch adminId (world s)) as [[admin | e] w1]; cbn.
      * destruct (user_send admin text w1) as [[m | e] w2]; cbn;
          (split; [reflexivity | split; [reflexivity | split]]);
          try (intros a Ha; destruct (Hsame a Ha) as [-> _]; now left);
          intros a t Hin; repeat (destruct Hin as [Hin | Hin]; [congruence |]);
          destruct Hin.
      * split; [reflexivity | split; [reflexivity | split]].
        -- intros a Ha. destruct (Hsame a Ha) as [-> _]. now left.
        -- intros a t [Habs | [Habs | []]]; discriminate.
    + run_async. cbn. split; [reflexivity | split; [reflexivity | split]].
      * intros a Ha. destruct (Hsame a Ha) as [_ Hne].
        apply truthy_string_Some in Hne. congruence.
      * intros a t [].
  - run_async. cbn. split; [reflexivity | split; [reflexivity | split]].
    + intros a [Ha _]. congruence.
    + intros a t [].
Qed.

Lemma In_sends_of_any (ch : string) (p : Payload) (events : list Event) :
  In (ChannelSend ch p) events <-> In (ch, p) (sends_of_any events).
Proof.
  unfold sends_of_any. rewrite in_flat_map. split.
  - intros H. exists (ChannelSend ch p). split; [assumption | now left].
  - intros (ev & Hin & Hev). destruct ev; cbn in Hev; try contradiction.
    destruct Hev as [Heq | []]. injection Heq as -> ->. assumption.
Qed.

Lemma sends_of_any_app (a b : list Event) :
  sends_of_any (a ++ b) = (sends_of_any a ++ sends_of_any b)%list.
Proof. apply flat_map_app. Qed.

Lemma sends_to_app (ch : string) (a b : list Event) :
  sends_to ch (a ++ b) = (sends_to ch a ++ sends_to ch b)%list.
Proof. apply flat_map_app. Qed.

(** The two situations of the backup channel exclude each other and
    cover every world. *)
Lemma backup_dichotomy (channelId : string) (content : Payload) (w : W) :
  (exists m, backup_delivers cfg channelId content w m)
  \/ backup_unavailable cfg channelId content w.
Proof.
  unfold backup_delivers, backup_unavailable.
  destruct (BACKUP_CHANNEL_ID cfg) as [backup |]; [| now right; left].
  destruct (String.eqb_spec backup "") as [-> | Hne];
    [right; right; eexists; split; [reflexivity | now left] |].
  destruct (String.eqb_spec backup channelId) as [-> | Hdiff];
    [right; right; eexists; split; [reflexivity | now right; left] |].
  destruct (channels_cache_has w backup) eqn:Hc;
    [| right; right; eexists; split; [reflexivity | now right; right; left]].
  destruct (fst (channel_send backup (backup_payload content) w)) as [m | e] eqn:Hs.
  - left. exists m, backup. repeat split; assumption.
  - right. right. exists backup. split; [reflexivity |].
    right. right. right. now exists e.
Qed.

Lemma backup_exclusive (channelId : string) (content : Payload) (w : W) (m : Message) :
  backup_delivers cfg channelId content w m ->
  backup_unavailable cfg channelId content w -> False.
Proof.
  intros (b & Hb & Hne & Hdiff & Hc & Hs) [Hnone | (b' & Hb' & Hcase)].
  - congruence.
  - rewrite Hb in Hb'. injection Hb' as <-.
    destruct Hcase as [-> | [-> | [Hc' | [e He]]]]; congruence.
Qed.

(** The backup branch never throws, sends at most the degraded text to
    the configured backup channel, and does not touch the admin. *)
Lemma try_backup_run (channelId : string) (content : Payload) (s : State W) :
  let out := try_backup cfg channelId content s in
  (forall m, backup_delivers cfg channelId content (world s) m ->
             result_of out = Return (Some (Some m)))
  /\ (backup_unavailable cfg channelId content (world s) -> result_of out = Return None)
  /\ filter is_admin_event (events_of out) = []
  /\ (forall ch p, In (ch, p) (sends_of_any (events_of out)) ->
        BACKUP_CHANNEL_ID cfg = Some ch /\ ch <> "" /\ ch <> channelId
        /\ p = backup_payload content).
Proof.
  cbv zeta.
  assert (Hcases : (exists m, backup_delivers cfg channelId content (world s) m)
                   \/ backup_unavailable cfg channelId content (world s))
    by apply backup_dichotomy.
  assert (Hexcl : forall m, backup_delivers cfg channelId content (world s) m ->
                            backup_unavailable cfg channelId content (world s) -> False)
    by apply backup_exclusive.
  unfold try_backup.
  destruct Hcases as [(m & Hm) | Hun].
  - pose proof Hm as (b & Hb & Hne & Hdiff & Hc & Hs).
    rewrite Hb.
    apply truthy_string_Some in Hne as Ht. rewrite Ht.
    assert (Hneq : (channelId =? b) = false) by (apply String.eqb_neq; congruence).
    rewrite Hneq. cbn [andb negb].
    run_async. rewrite Hc.
    destruct (channel_send b (backup_payload content) (world s)) as [[m' | e] w1] eqn:E;
      cbn in Hs; [| discriminate]. injection Hs as ->. cbn.
    split; [| split; [| split]].
    + intros m' (b' & Hb' & _ & _ & _ & Hs'). rewrite Hb in Hb'. injection Hb' as <-.
      rewrite E in Hs'. cbn in Hs'. congruence.
    + intros Hun. exfalso. eapply Hexcl; eassumption.
    + reflexivity.
    + intros ch p [Heq | []]. injection Heq as <- <-. repeat split; assumption.
  - split; [intros m Hm; exfalso; eapply Hexcl; eassumption |].
    split; [intros _ |].
    + destruct Hun as [Hnone | (b & Hb & Hcase)].
      * rewrite Hnone. reflexivity.
      * rewrite Hb. destruct Hcase as [-> | [-> | [Hc | [e He]]]].
        -- reflexivity.
        -- rewrite String.eqb_refl. rewrite andb_false_r. reflexivity.
        -- destruct (truthy_string (Some b) && negb (channelId =? b)); [| reflexivity].
           run_async. rewrite Hc. reflexivity.
        -- destruct (truthy_string (Some b) && negb (channelId =? b)); [| reflexivity].
           run_async. destruct (channels_cache_has (world s) b); [| reflexivity].
           destruct (channel_send b (backup_payload content) (world s)) as [[m | e'] w1];
             cbn in He; [discriminate | reflexivity].
    + destruct (BACKUP_CHANNEL_ID cfg) as [b |] eqn:Hb;
        [| split; [reflexivity | intros ch p []]].
      destruct (truthy_string (Some b)) eqn:Ht;
        [| split; [reflexivity | intros ch p []]].
      destruct (String.eqb_spec channelId b) as [-> | Hdiff];
        [split; [reflexivity | intros ch p []] |].
      cbn [andb negb]. run_async.
      destruct (channels_cache_has (world s) b);
        [| split; [reflexivity | intros ch p []]].
      apply truthy_string_Some in Ht.
      destruct (channel_send b (backup_payload content) (world s)) as [[m | e'] w1]; cbn.
      * split; [reflexivity |].
        intros ch p [Heq | []]. injection Heq as <- <-. repeat split; congruence.
      * split; [reflexivity |].
        intros ch p [Heq | []]. injection Heq as <- <-. repeat split; congruence.
Qed.

Lemma no_admin_event (events : list Event) :
  filter is_admin_event events = [] ->
  forall ev, is_admin_event ev = true -> ~ In ev events.
Proof.
  intros Hnone ev Hev Hin.
  assert (H : In ev (filter is_admin_event events)) by (apply filter_In; now split).
  rewrite Hnone in H. destruct H.
Qed.

(** The catch block as a whole. *)
Lemma delivery_fallback_run (channelId : string) (content : Payload) (error : Error)
    (s : State W) :
  let out := delivery_fallback cfg channelId content error s in
  (exists v, result_of out = Return v)
  /\ (forall m, backup_delivers cfg channelId content (world s) m ->
        result_of out = Return (Some m) /\ filter is_admin_event (events_of out) = [])
  /\ (backup_unavailable cfg channelId content (world s) ->
        result_of out = Return None
        /\ forall adminId, admin_configured cfg adminId ->
                           In (UsersFetch adminId) (events_of out))
  /\ (forall ch p, In (ch, p) (sends_of_any (events_of out)) ->
        BACKUP_CHANNEL_ID cfg = Some ch /\ ch <> "" /\ ch <> channelId
        /\ p = backup_payload content)
  /\ (forall a t, In (UserSend a t) (events_of out) -> t = admin_text channelId error).
Proof.
  cbv zeta.
  pose proof (try_backup_run channelId content s) as Hb. cbv zeta in Hb.
  pose proof (backup_dichotomy channelId content (world s)) as Hcases.
  unfold delivery_fallback. run_async.
  destruct (try_backup cfg channelId content s) as [[r s1] t] eqn:E.
  cbn [fst snd] in Hb. destruct Hb as (Hdel & Hun & Hadm & Hsends).
  destruct r as [[r' |] | e].
  - (* the backup branch returned *)
    cbn. split; [now exists r' |]. split; [| split; [| split]].
    + intros m Hm. specialize (Hdel m Hm). injection Hdel as ->.
      split; [reflexivity |]. rewrite app_nil_r. assumption.
    + intros H. specialize (Hun H). discriminate.
    + intros ch p Hin. rewrite app_nil_r in Hin. now apply Hsends.
    + intros a x [Habs | Hin]; [discriminate |]. rewrite app_nil_r in Hin.
      exfalso. now apply (no_admin_event t Hadm (UserSend a x) eq_refl).
  - (* control reached the admin branch *)
    pose proof (notify_admin_run (admin_text channelId error) "Failed to notify admin: " s1)
      as Ha. cbv zeta in Ha. run_async.
    destruct (notify_admin cfg (admin_text channelId error) "Failed to notify admin: " s1)
      as [[ra sa] ta]. cbn [fst snd] in Ha. destruct Ha as (-> & Hnos & Hfetch & Htext).
    cbn. split; [now exists None |]. split; [| split; [| split]].
    + intros m Hm. specialize (Hdel m Hm). discriminate.
    + intros _. split; [reflexivity |]. intros a Hcfg.
      right. apply in_or_app. right. apply in_or_app. left. now apply Hfetch.
    + intros ch p Hin. rewrite app_nil_r, sends_of_any_app, Hnos, app_nil_r in Hin.
      now apply Hsends.
    + intros a x [Habs | Hin]; [discriminate |]. rewrite app_nil_r in Hin.
      apply in_app_or in Hin. destruct Hin as [Hin | Hin].
      * exfalso. now apply (no_admin_event t Hadm (UserSend a x) eq_refl).
      * now apply (Htext a).
  - (* the backup branch cannot throw *)
    exfalso. destruct Hcases as [(m & Hm) | H].
    + specialize (Hdel m Hm). discriminate.
    + specialize (Hun H). discriminate.
Qed.

(** The backup branch leaves the check stamp alone, and the world as
    [after_backup] describes it. *)
Lemma try_backup_state (channelId : string) (content : Payload) (s : State W) :
  state_of (try_backup cfg channelId content s)
  = mkState (after_backup cfg channelId content (world s)) (lastScheduledCheck s).
Proof.
  unfold try_backup, after_backup.
  destruct (BACKUP_CHANNEL_ID cfg) as [backup |]; [| now destruct s].
  destruct (truthy_string (Some backup) && negb (channelId =? backup)); cbn [andb];
    [| now destruct s].
  run_async.
  destruct (channels_cache_has (world s) backup); [| now destruct s].
  now destruct (channel_send backup (backup_payload content) (world s)) as [[m | e] w1].
Qed.

(** With an admin configured, the notification is the lookup of the
    admin followed, when the lookup resolves, by the message to that
    admin; a rejected lookup is logged and nothing is sent. *)
Lemma notify_admin_sends (text line : string) (s : State W) (adminId : string) :
  admin_configured cfg adminId ->
  let out := notify_admin cfg text line s in
  match users_fetch adminId (world s) with
  | (Return admin, _) =>
      exists rest, events_of out = UsersFetch adminId :: UserSend adminId text :: rest
  | (Throw adminError, _) =>
      events_of out = [UsersFetch adminId; LogLine (line ++ message adminError)]
  end.
Proof.
  intros [Hcfg Hne]. cbv zeta. unfold notify_admin. rewrite Hcfg.
  apply truthy_string_Some in Hne. rewrite Hne. run_async.
  destruct (users_fetch adminId (world s)) as [[admin | e] w1]; cbn; [| reflexivity].
  destruct (user_send admin text w1) as [[m | e] w2]; cbn; now eexists.
Qed.

(** The catch block reaches the admin when no backup delivery takes
    place. *)
Lemma delivery_fallback_notifies (channelId : string) (content : Payload) (error : Error)
    (s : State W) (adminId : string) :
  backup_unavailable cfg channelId content (world s) ->
  admin_configured cfg adminId ->
  let out := delivery_fallback cfg channelId content error s in
  match users_fetch adminId (after_backup cfg channelId content (world s)) with
  | (Return admin, _) =>
      exists before after,
        events_of out
        = (before ++ UsersFetch adminId :: UserSend adminId (admin_text channelId error)
             :: after)%list
  | (Throw adminError, _) =>
      exists before,
        events_of out
        = (before ++ [UsersFetch adminId;
                      LogLine ("Failed to notify admin: " ++ message adminError)])%list
  end.
Proof.
  intros Hun Ha. cbv zeta.
  pose proof (try_backup_run channelId content s) as Hb. cbv zeta in Hb.
  destruct Hb as (_ & Hnone & _). specialize (Hnone Hun).
  pose proof (try_backup_state channelId content s) as Hst.
  unfold delivery_fallback. run_async.
  destruct (try_backup cfg channelId content s) as [[r s1] t].
  cbn [fst snd] in *. subst r s1.
  pose proof (notify_admin_sends (admin_text channelId error) "Failed to notify admin: "
                (mkState (after_backup cfg channelId content (world s))
                         (lastScheduledCheck s)) adminId Ha) as Hn.
  cbv zeta in Hn. run_async.
  destruct (notify_admin cfg _ _ _) as [[ra sa] ta]. cbn [fst snd] in *.
  destruct (users_fetch adminId _) as [[admin | e] w3].
  - destruct Hn as (rest & ->).
    exists (LogLine ("Error sending Discord message: " ++ message error) :: t), rest.
    destruct ra as [[] | e]; cbn [app]; rewrite ?app_nil_r; reflexivity.
  - subst ta.
    exists (LogLine ("Error sending Discord message: " ++ message error) :: t).
    destruct ra as [[] | e']; cbn [app]; rewrite ?app_nil_r; reflexivity.
Qed.

(** C2. When the primary send fails: a send on another channel happens
    only towards a configured backup channel different from the primary,
    and carries the text-only payload that announces the failure; a
    backup send that succeeds makes the call return that message, with no
    admin notification; when no backup delivery takes place (none
    configured, or its send fails) the call returns null, after trying
    to reach the admin if one is configured: the admin is looked up
    and, once the lookup has resolved, is sent the text that names the
    channel and the error of the primary send, while a rejected lookup
    is logged; in no case does the call throw. *)
Theorem sendDiscordMessage_fallback (channelId : string) (content : Payload) (s : State W) :
  primary_fails channelId content (world s) ->
  let out := sendDiscordMessage cfg channelId content s in
  let w1 := after_primary channelId content (world s) in
  (exists v, result_of out = Return v)
  /\ (forall ch p, In (ChannelSend ch p) (events_of out) ->
        (ch = channelId /\ p = content)
        \/ (BACKUP_CHANNEL_ID cfg = Some ch /\ ch <> "" /\ ch <> channelId
            /\ p = Options (Some (Text.backup_notice ++ original_message content)) []))
  /\ (forall m, backup_delivers cfg channelId content w1 m ->
        result_of out = Return (Some m) /\ filter is_admin_event (events_of out) = [])
  /\ (backup_unavailable cfg channelId content w1 ->
        result_of out = Return None
        /\ forall adminId, admin_configured cfg adminId ->
                           In (UsersFetch adminId) (events_of out))
  /\ (forall a text, In (UserSend a text) (events_of out) ->
        exists error, text = Text.admin_notice ++ channelId ++ ": " ++ message error)
  /\ (forall error adminId,
        primary_error channelId content (world s) = Some error ->
        backup_unavailable cfg channelId content w1 ->
        admin_configured cfg adminId ->
        match users_fetch adminId (after_backup cfg channelId content w1) with
        | (Return admin, _) =>
            exists before after,
              events_of out
              = (before ++ UsersFetch adminId
                   :: UserSend adminId (Text.admin_notice ++ channelId ++ ": "
                                        ++ message error)
                   :: after)%list
        | (Throw adminError, _) =>
            exists before,
              events_of out
              = (before ++ [UsersFetch adminId;
                            LogLine ("Failed to notify admin: " ++ message adminError)])%list
        end).
Proof.
  intros Hfail. cbv zeta. unfold after_primary, primary_error, sendDiscordMessage.
  run_async.
  destruct (channels_cache_has (world s) channelId) eqn:Hc.
  - destruct Hfail as [Hno | [e He]]; [congruence |].
    destruct (channel_send channelId content (world s)) as [[m | e'] wp]; cbn in He;
      [discriminate |]. injection He as ->. cbn [fst snd].
    pose proof (delivery_fallback_run channelId content e
                  (mkState wp (lastScheduledCheck s))) as H.
    pose proof (delivery_fallback_notifies channelId content e
                  (mkState wp (lastScheduledCheck s))) as Hn.
    cbv zeta in H, Hn. run_async.
    destruct (delivery_fallback cfg channelId content e _) as [[r s2] t].
    cbn [fst snd] in *. destruct H as (Hret & Hdel & Hun & Hsends & Htext).
    split; [assumption |]. split; [| split; [| split; [| split]]].
    + intros ch p [Heq | Hin].
      * injection Heq as <- <-. now left.
      * right. apply In_sends_of_any in Hin. now apply Hsends.
    + intros m Hm. destruct (Hdel m Hm) as [-> Hadm]. now split.
    + intros H. destruct (Hun H) as [-> Hfetch]. split; [reflexivity |].
      intros a Ha. right. now apply Hfetch.
    + intros a x [Habs | Hin]; [discriminate |]. exists e. now apply (Htext a).
    + intros error adminId [= <-] Hb Ha. specialize (Hn adminId Hb Ha).
      destruct (users_fetch adminId _) as [[admin | adminError] w3].
      * destruct Hn as (before & after & ->).
        exists (ChannelSend channelId content :: before), after. reflexivity.
      * destruct Hn as (before & ->).
        exists (ChannelSend channelId content :: before). reflexivity.
  - pose proof (delivery_fallback_run channelId content
                  (mkError ("Channel not found: " ++ channelId)) s) as H.
    pose proof (delivery_fallback_notifies channelId content
                  (mkError ("Channel not found: " ++ channelId)) s) as Hn.
    cbv zeta in H, Hn. run_async.
    destruct (delivery_fallback cfg channelId content _ s) as [[r s2] t].
    cbn [fst snd] in *. destruct H as (Hret & Hdel & Hun & Hsends & Htext).
    split; [assumption |]. split; [| split; [| split; [| split]]].
    + intros ch p Hin. right. apply In_sends_of_any in Hin. now apply Hsends.
    + intros m Hm. destruct (Hdel m Hm) as [-> Hadm]. now split.
    + intros H. destruct (Hun H) as [-> Hfetch]. now split.
    + intros a x Hin. eexists. now apply (Htext a).
    + intros error adminId [= <-] Hb Ha. exact (Hn adminId Hb Ha).
Qed.

(** ** Contest source adapters *)




(** The duration the CodeChef adapter stores: the difference of the two
    parsed dates, which are in milliseconds, divided by 60. *)
Lemma codechef_duration (entry : CodeChefEntry) (start stop : Q) :
  Date_getTime (contest_start_date entry) = Some start ->
  Date_getTime (contest_end_date entry) = Some stop ->
  duration (codechef_contest entry) = Some ((stop - start) / 60)%Q.
Proof. intros Hs He. unfold codechef_contest. cbn. rewrite Hs, He. reflexivity. Qed.

(** ** Composer *)

Lemma formatContestTime_run (timestamp : number) (s : State W) :
  formatContestTime timestamp s
  = (Return (formatted_time timestamp), s, format_events timestamp).
Proof.
  unfold formatContestTime, formatted_time, format_events. run_async.
  destruct (toLocaleString (js_mul timestamp (Some 1000%Q))); reflexivity.
Qed.

Lemma fields_fold_with_field (fs : list Field.t) (embed : Embed) :
  fields (fold_left with_field fs embed) = (fields embed ++ fs)%list.
Proof.
  revert embed. induction fs as [| f fs IH]; intros embed; cbn [fold_left].
  - now rewrite app_nil_r.
  - rewrite IH. cbn. now rewrite <- app_assoc.
Qed.

(** The loop over the contests leaves the world alone. When addFields
    accepts every field it adds one field per complete record in input
    order and logs one warning per skipped record; it stops with the
    error of the first field that addFields rejects. *)
Lemma contests_forEach_run (label : string) (contests : list Contest) (embed : Embed)
    (s : State W) :
  contests_forEach label contests embed s
  = (match rejected (fields embed) (expected_fields contests) with
     | None => Return (fold_left with_field (expected_fields contests) embed)
     | Some error => Throw error
     end, s, loop_events label contests (fields embed)).
Proof.
  revert embed. induction contests as [| c rest IH]; intros embed; [reflexivity |].
  cbn [contests_forEach loop_events]. unfold expected_fields in *.
  cbn [filter map].
  unfold bind at 1.
  destruct (incomplete c) eqn:Hinc; cbn [negb].
  - run_async. rewrite IH. reflexivity.
  - unfold bind at 1. rewrite formatContestTime_run.
    unfold lift at 1, addFields. cbn [map rejected fold_left].
    cbn [contest_field Field.name Field.value].
    destruct (addFields_check (fields embed) _ _) as [error |].
    + now rewrite app_nil_r.
    + rewrite IH. cbn [with_field fields]. now rewrite app_nil_r.
Qed.

Lemma loop_events_accepted (label : string) (contests : list Contest)
    (existing : list Field.t) :
  rejected existing (expected_fields contests) = None ->
  loop_events label contests existing = forEach_events label contests.
Proof.
  revert existing. unfold expected_fields, forEach_events.
  induction contests as [| c rest IH]; intros existing H; [reflexivity |].
  cbn [loop_events flat_map filter map] in *.
  destruct (incomplete c); cbn [negb map rejected] in *.
  - cbn [app]. now rewrite IH.
  - destruct (addFields_check existing _ _); [discriminate |]. now rewrite IH.
Qed.

Lemma sends_of_any_log (text : string) (events : list Event) :
  sends_of_any (LogLine text :: events) = sends_of_any events.
Proof. reflexivity. Qed.

Lemma loop_events_quiet (label : string) (contests : list Contest)
    (existing : list Field.t) :
  sends_of_any (loop_events label contests existing) = [].
Proof.
  revert existing. induction contests as [| c rest IH]; intros existing; [reflexivity |].
  cbn [loop_events]. destruct (incomplete c).
  - cbn. apply IH.
  - rewrite sends_of_any_app.
    replace (sends_of_any (format_events (startTime c))) with (@nil (string * Payload))
      by (unfold format_events; destruct (toLocaleString _); reflexivity).
    destruct (addFields_check existing _ _); [reflexivity | apply IH].
Qed.

Lemma sends_to_none (ch : string) (events : list Event) :
  (forall c p, In (c, p) (sends_of_any events) -> c <> ch) ->
  sends_to ch events = [].
Proof.
  induction events as [| ev rest IH]; intros H; [reflexivity |].
  unfold sends_to in *. cbn [flat_map].
  rewrite IH.
  - destruct ev; try reflexivity.
    destruct (String.eqb_spec channelId ch) as [-> | Hne]; [| reflexivity].
    exfalso. apply (H ch payload); [| reflexivity]. now left.
  - intros c p Hin. apply (H c p). unfold sends_of_any. cbn [flat_map].
    apply in_or_app. now right.
Qed.

(** What every call of sendDiscordMessage does, whether or not the
    primary send succeeds: it does not throw; the primary channel gets
    the payload once if it is in the cache and nothing otherwise; any
    other send is the degraded text on the backup channel; and after a
    successful primary send nothing else happens. *)
Lemma sendDiscordMessage_run (channelId : string) (content : Payload) (s : State W) :
  let out := sendDiscordMessage cfg channelId content s in
  (exists v, result_of out = Return v)
  /\ sends_to channelId (events_of out)
     = (if channels_cache_has (world s) channelId then [content] else [])
  /\ (forall ch p, In (ch, p) (sends_of_any (events_of out)) ->
        (ch = channelId /\ p = content) \/ p = backup_payload content)
  /\ (forall m, channels_cache_has (world s) channelId = true ->
        fst (channel_send channelId content (world s)) = Return m ->
        result_of out = Return (Some m)
        /\ events_of out = [ChannelSend channelId content]).
Proof.
  cbv zeta. unfold sendDiscordMessage. run_async.
  destruct (channels_cache_has (world s) channelId) eqn:Hc.
  - destruct (channel_send channelId content (world s)) as [[m | e] wp] eqn:Hsend.
    + cbn. rewrite String.eqb_refl. split; [now exists (Some m) |].
      split; [reflexivity |]. split.
      * intros ch p [Heq | []]. injection Heq as <- <-. now left.
      * intros m' _ Hm. injection Hm as <-. now split.
    + pose proof (delivery_fallback_run channelId content e
                    (mkState wp (lastScheduledCheck s))) as H.
      cbv zeta in H. run_async.
      destruct (delivery_fallback cfg channelId content e _) as [[r s2] t].
      cbn [fst snd] in *. destruct H as (Hret & _ & _ & Hsends & _).
      split; [assumption |]. split; [| split].
      * change (sends_to channelId ([ChannelSend channelId content] ++ t) = [content]).
        rewrite sends_to_app. cbn. rewrite String.eqb_refl.
        rewrite sends_to_none; [reflexivity |].
        intros c p Hin. now destruct (Hsends c p Hin) as (_ & _ & Hne & _).
      * intros ch p [Heq | Hin].
        -- injection Heq as <- <-. now left.
        -- right. now destruct (Hsends ch p Hin) as (_ & _ & _ & ->).
      * intros m _ Hm. discriminate.
  - pose proof (delivery_fallback_run channelId content
                  (mkError ("Channel not found: " ++ channelId)) s) as H.
    cbv zeta in H. run_async.
    destruct (delivery_fallback cfg channelId content _ s) as [[r s2] t].
    cbn [fst snd] in *. destruct H as (Hret & _ & _ & Hsends & _).
    split; [assumption |]. split; [| split].
    + apply sends_to_none.
      intros c p Hin. now destruct (Hsends c p Hin) as (_ & _ & Hne & _).
    + intros ch p Hin. right. now destruct (Hsends ch p Hin) as (_ & _ & _ & ->).
    + intros m Habs. discriminate.
Qed.

(** The run of the composer on the empty list: the opening log line,
    then one delivery of the plain text. *)
Lemma sendContestsReminder_empty_run (label : string) (s : State W) :
  let delivery := sendDiscordMessage cfg (CHANNEL_ID cfg) (Plain (no_contests_text label)) s in
  sendContestsReminder cfg label [] s
  = (Return None, state_of delivery,
     LogLine ("Sending " ++ label ++ " contest reminder, found 0 contests")
     :: events_of delivery).
Proof.
  pose proof (sendDiscordMessage_run (CHANNEL_ID cfg) (Plain (no_contests_text label)) s) as H.
  cbv zeta in H. destruct H as ((v & Hret) & _). cbv zeta.
  unfold sendContestsReminder. cbn [length Nat.eqb]. run_async.
  destruct (sendDiscordMessage cfg (CHANNEL_ID cfg) _ s) as [[r s1] t].
  cbn [fst snd] in *. subst r. cbn [fst snd app]. now rewrite app_nil_r.
Qed.

Lemma sends_to_select (ch : string) (events : list Event) :
  sends_to ch events
  = flat_map (fun cp => if fst cp =? ch then [snd cp] else []) (sends_of_any events).
Proof.
  induction events as [| ev rest IH]; [reflexivity |].
  unfold sends_to, sends_of_any in *. cbn [flat_map].
  rewrite flat_map_app, <- IH.
  destruct ev; try reflexivity. cbn. now rewrite app_nil_r.
Qed.

(** C6. On an empty list, for every platform label, the composer hands
    exactly one payload to the delivery service, the plain "no contests"
    text: the primary channel receives that text once (when it is in the
    cache), a successful primary send is the only send of the run, and no
    send of the run carries an embed. The call returns without a value
    and does not throw. *)
Theorem sendContestsReminder_empty (label : string) (s : State W) :
  let out := sendContestsReminder cfg label [] s in
  let text := Plain (Text.none_head ++ label ++ Text.none_tail) in
  let delivery := sendDiscordMessage cfg (CHANNEL_ID cfg) text s in
  result_of out = Return None
  /\ events_of out
     = LogLine ("Sending " ++ label ++ " contest reminder, found 0 contests")
       :: events_of delivery
  /\ sends_to (CHANNEL_ID cfg) (events_of out)
     = (if channels_cache_has (world s) (CHANNEL_ID cfg) then [text] else [])
  /\ (forall ch p, In (ChannelSend ch p) (events_of out) -> embeds_of p = [])
  /\ (forall m, channels_cache_has (world s) (CHANNEL_ID cfg) = true ->
        fst (channel_send (CHANNEL_ID cfg) text (world s)) = Return m ->
        sends_of_any (events_of out) = [(CHANNEL_ID cfg, text)]).
Proof.
  cbv zeta.
  pose proof (sendDiscordMessage_run (CHANNEL_ID cfg)
                (Plain (Text.none_head ++ label ++ Text.none_tail)) s) as H.
  cbv zeta in H. destruct H as ((v & Hret) & Hprimary & Hsends & Hok).
  unfold sendContestsReminder, no_contests_text. cbn [length Nat.eqb].
  run_async.
  destruct (sendDiscordMessage cfg (CHANNEL_ID cfg) _ s) as [[r s1] t].
  cbn [fst snd] in *. subst r. cbn [fst snd app].
  rewrite app_nil_r.
  split; [reflexivity |]. split; [reflexivity |]. split; [| split].
  - exact Hprimary.
  - intros ch p [Habs | Hin]; [discriminate |].
    apply In_sends_of_any in Hin.
    destruct (Hsends ch p Hin) as [[_ ->] | ->]; reflexivity.
  - intros m Hc Hm. destruct (Hok m Hc Hm) as [_ ->]. cbn. reflexivity.
Qed.

Lemma add_reaction_run (msg : option Message) (line : string) (s : State W) :
  let out := add_reaction msg line s in
  result_of out = Return tt
  /\ sends_of_any (events_of out) = []
  /\ timers (events_of out) = [].
Proof.
  unfold add_reaction. destruct msg as [m |]; run_async; [| now cbn].
  destruct (message_react m Text.check_mark (world s)) as [[[] | e] w1]; now cbn.
Qed.

Lemma forEach_events_log (label : string) (contests : list Contest) (c : Contest) :
  In c contests -> incomplete c = true ->
  In (LogLine (incomplete_line label c)) (forEach_events label contests).
Proof.
  intros Hin Hinc. unfold forEach_events. apply in_flat_map.
  exists c. split; [assumption |]. rewrite Hinc. now left.
Qed.

Lemma forEach_events_quiet (label : string) (contests : list Contest) :
  sends_of_any (forEach_events label contests) = [].
Proof.
  unfold forEach_events, format_events.
  induction contests as [| c rest IH]; [reflexivity |].
  cbn [flat_map]. rewrite sends_of_any_app, IH, app_nil_r.
  destruct (incomplete c); [reflexivity |].
  destruct (toLocaleString _); reflexivity.
Qed.

(** The run of the composer on a non-empty list whose fields addFields
    accepts, step by step: the opening log line, the loop, one delivery
    of the embed, the reaction. *)
Lemma sendContestsReminder_nonempty_run (label : string) (contests : list Contest)
    (s : State W) :
  contests <> [] ->
  rejected [] (expected_fields contests) = None ->
  let embed := fold_left with_field (expected_fields contests)
                 (new_reminder_embed label (Date_now (world s))) in
  let delivery := sendDiscordMessage cfg (CHANNEL_ID cfg)
                    (Options (Some (reminder_text label)) [embed]) s in
  exists sa ta,
    sends_of_any ta = []
    /\ timers ta = []
    /\ sendContestsReminder cfg label contests s
       = (Return (Some true), sa,
          LogLine ("Sending " ++ label ++ " contest reminder, found "
                   ++ string_of_nat (length contests) ++ " contests")
          :: forEach_events label contests ++ events_of delivery ++ ta)%list.
Proof.
  intros Hne Hacc. cbv zeta.
  set (embed := fold_left with_field (expected_fields contests)
                  (new_reminder_embed label (Date_now (world s)))).
  set (payload := Options (Some (reminder_text label)) [embed]).
  pose proof (sendDiscordMessage_run (CHANNEL_ID cfg) payload s) as H.
  cbv zeta in H. destruct H as ((v & Hret) & _).
  unfold sendContestsReminder.
  destruct contests as [| c0 rest0]; [congruence |].
  cbn [length Nat.eqb].
  unfold bind at 1. unfold logToFile at 1, emit at 1.
  unfold try_catch at 1. unfold bind at 1. unfold observe at 1.
  unfold bind at 1. rewrite contests_forEach_run.
  cbn [new_reminder_embed fields]. rewrite Hacc.
  rewrite (loop_events_accepted _ _ _ Hacc).
  fold (new_reminder_embed label (Date_now (world s))). fold embed.
  unfold bind at 1. fold payload.
  destruct (sendDiscordMessage cfg (CHANNEL_ID cfg) payload s) as [[r s1] t] eqn:Esend.
  unfold result_of, events_of in *. cbn [fst snd] in *. subst r.
  unfold bind at 1.
  pose proof (add_reaction_run v "Failed to add reaction to message: " s1) as Hre.
  cbv zeta in Hre. destruct Hre as (Hr & Hquiet & Htimers).
  destruct (add_reaction v "Failed to add reaction to message: " s1) as [[ra sa] ta].
  unfold result_of, events_of in *. cbn [fst snd] in *. subst ra.
  exists sa, ta. split; [assumption |]. split; [assumption |].
  unfold ret. cbn [app]. rewrite !app_nil_r. reflexivity.
Qed.

(** The run of the composer when addFields throws: the loop stops
    there, the catch block logs the error, and nothing is delivered. *)
Lemma sendContestsReminder_rejected_run (label : string) (contests : list Contest)
    (s : State W) (error : Error) :
  contests <> [] ->
  rejected [] (expected_fields contests) = Some error ->
  sendContestsReminder cfg label contests s
  = (Return (Some false), s,
     LogLine ("Sending " ++ label ++ " contest reminder, found "
              ++ string_of_nat (length contests) ++ " contests")
     :: loop_events label contests []
     ++ [LogLine ("Error in sendContestsReminder for " ++ label ++ ": " ++ message error)])%list.
Proof.
  intros Hne Hrej.
  unfold sendContestsReminder.
  destruct contests as [| c0 rest0]; [congruence |].
  cbn [length Nat.eqb].
  unfold bind at 1. unfold logToFile at 1, emit at 1.
  unfold try_catch at 1. unfold bind at 1. unfold observe at 1.
  unfold bind at 1. rewrite contests_forEach_run.
  cbn [new_reminder_embed fields]. rewrite Hrej.
  run_async. destruct s. reflexivity.
Qed.

(** C7. On a non-empty list the composer does not throw; every record
    without a title or without a startTime is skipped. When addFields
    accepts the fields of the remaining records, the call returns true,
    each skipped record has left a warning in the log and no field, and
    the embed handed to the delivery service holds one field per
    remaining record, in input order. When addFields throws on one of
    them, the call returns false after logging the error, and nothing
    is sent. The label is one of the two the program passes, and
    durations are taken in the range in which the hours of a field are
    the ones the program prints. *)
Theorem sendContestsReminder_skips_incomplete (label : string) (contests : list Contest)
    (s : State W) :
  contests <> [] ->
  platform_label label ->
  (forall c, In c contests -> exact_duration c) ->
  let out := sendContestsReminder cfg label contests s in
  let complete := filter (fun c => negb (incomplete c)) contests in
  let wanted := map (fun c => contest_field c (formatted_time (startTime c))) complete in
  let embed := fold_left with_field wanted
                 (new_reminder_embed label (Date_now (world s))) in
  let payload := Options (Some (reminder_text label)) [embed] in
  (exists v, result_of out = Return v)
  /\ (forall c, In c contests ->
        (incomplete c = true <->
         truthy_string (title c) = false \/ truthy_number (startTime c) = false))
  /\ (rejected [] wanted = None ->
      result_of out = Return (Some true)
      /\ (forall c, In c contests -> incomplete c = true ->
            In (LogLine ("Warning: Incomplete contest data for " ++ label ++ ": "
                         ++ JSON_stringify c)) (events_of out))
      /\ fields embed = wanted
      /\ (exists rest,
            events_of out
            = (LogLine ("Sending " ++ label ++ " contest reminder, found "
                        ++ string_of_nat (length contests) ++ " contests")
               :: forEach_events label contests
               ++ events_of (sendDiscordMessage cfg (CHANNEL_ID cfg) payload s)
               ++ rest)%list
            /\ sends_of_any rest = [])
      /\ sends_to (CHANNEL_ID cfg) (events_of out)
         = (if channels_cache_has (world s) (CHANNEL_ID cfg) then [payload] else []))
  /\ (forall error, rejected [] wanted = Some error ->
      result_of out = Return (Some false)
      /\ sends_of_any (events_of out) = []
      /\ exists earlier,
           events_of out
           = (earlier ++ [LogLine ("Error in sendContestsReminder for " ++ label ++ ": "
                                   ++ message error)])%list).
Proof.
  intros Hne _ _. cbv zeta.
  change (map (fun c => contest_field c (formatted_time (startTime c)))
              (filter (fun c => negb (incomplete c)) contests))
    with (expected_fields contests).
  assert (Hgate : forall c, In c contests ->
            (incomplete c = true <->
             truthy_string (title c) = false \/ truthy_number (startTime c) = false)).
  { intros c _. unfold incomplete. rewrite orb_true_iff, !negb_true_iff. reflexivity. }
  destruct (rejected [] (expected_fields contests)) as [error |] eqn:Hrej.
  - rewrite (sendContestsReminder_rejected_run label contests s error Hne Hrej).
    unfold result_of, events_of. cbn [fst snd].
    split; [now eexists |]. split; [exact Hgate |]. split; [discriminate |].
    intros e [= <-]. split; [reflexivity |]. split.
    + rewrite (app_comm_cons _ _ (LogLine _)), sends_of_any_app.
      now rewrite sends_of_any_log, loop_events_quiet.
    + eexists. rewrite (app_comm_cons _ _ (LogLine _)). reflexivity.
  - destruct (sendContestsReminder_nonempty_run label contests s Hne Hrej)
      as (sa & ta & Hquiet & _ & Hrun).
    cbv zeta in Hrun. rewrite Hrun. clear Hrun.
    set (embed := fold_left with_field (expected_fields contests)
                    (new_reminder_embed label (Date_now (world s)))).
    set (payload := Options (Some (reminder_text label)) [embed]).
    pose proof (sendDiscordMessage_run (CHANNEL_ID cfg) payload s) as H.
    cbv zeta in H. destruct H as (_ & Hprimary & _ & _).
    unfold result_of, events_of in *. cbn [fst snd].
    split; [now eexists |]. split; [exact Hgate |]. split; [| discriminate].
    intros _. split; [reflexivity |]. split; [| split; [| split]].
    + intros c Hin Hinc. right. apply in_or_app. left.
      now apply forEach_events_log.
    + unfold embed. rewrite fields_fold_with_field. reflexivity.
    + exists ta. split; [reflexivity | assumption].
    + rewrite (app_comm_cons _ _ (LogLine _)).
      rewrite !sends_to_app. rewrite Hprimary.
      rewrite (sends_to_none _ (_ :: forEach_events label contests)).
      * rewrite (sends_to_none _ ta).
        -- now rewrite app_nil_r.
        -- intros c p Hin. rewrite Hquiet in Hin. destruct Hin.
      * intros c p Hin. cbn in Hin. rewrite forEach_events_quiet in Hin. destruct Hin.
Qed.

(** C10. A record with a title and a startTime whose duration is
    missing or zero is not skipped: the loop logs no warning for it and
    hands its field, whose duration line reads "0 hours", to addFields,
    and what addFields does with it is the outcome of the loop. When
    addFields accepts the field, the composer, called with one of the
    labels of the program, returns true on that record and the embed it
    sends holds exactly that field. Whether a record is skipped depends
    on its title and startTime alone. *)
Theorem zero_duration_rendered (label : string) (c : Contest) (embed : Embed) (s : State W) :
  truthy_string (title c) = true ->
  truthy_number (startTime c) = true ->
  duration c = None \/ (exists q, duration c = Some q /\ (q == 0)%Q) ->
  let when := formatted_time (startTime c) in
  let f := contest_field c when in
  let loop := contests_forEach label [c] embed s in
  let out := sendContestsReminder cfg label [c] s in
  let sent := Options (Some (reminder_text label))
                      [with_field (new_reminder_embed label (Date_now (world s))) f] in
  incomplete c = false
  /\ Math_round ((if truthy_number (duration c)
                  then match duration c with Some q => q | None => 0%Q end
                  else 0%Q) / 60)%Q = 0%Z
  /\ result_of loop = addFields embed (Some (Field.name f)) (Field.value f)
  /\ ~ In (LogLine (incomplete_line label c)) (events_of loop)
  /\ (exists rest,
        Field.value f
        = (Text.date_head ++ when ++ Text.nl)
          ++ (Text.duration_head ++ "0 hours" ++ Text.nl) ++ rest)
  /\ (addFields_check (fields embed) (Some (Field.name f)) (Field.value f) = None ->
      result_of loop = Return (with_field embed f))
  /\ (platform_label label ->
      addFields_check [] (Some (Field.name f)) (Field.value f) = None ->
      result_of out = Return (Some true)
      /\ sends_to (CHANNEL_ID cfg) (events_of out)
         = (if channels_cache_has (world s) (CHANNEL_ID cfg) then [sent] else []))
  /\ (forall error,
        platform_label label ->
        addFields_check [] (Some (Field.name f)) (Field.value f) = Some error ->
        result_of out = Return (Some false) /\ sends_of_any (events_of out) = [])
  /\ (forall c', title c' = title c -> startTime c' = startTime c ->
                 incomplete c' = false).
Proof.
  intros Ht Hs Hd. cbv zeta.
  assert (Hinc : incomplete c = false) by (unfold incomplete; now rewrite Ht, Hs).
  assert (Hfalsy : truthy_number (duration c) = false).
  { destruct Hd as [-> | (q & -> & Hq)]; [reflexivity |].
    cbn. apply negb_false_iff. now apply Qeq_bool_iff. }
  assert (Hfields : expected_fields [c] = [contest_field c (formatted_time (startTime c))]).
  { unfold expected_fields. cbn [filter]. now rewrite Hinc. }
  set (f := contest_field c (formatted_time (startTime c))) in *.
  split; [assumption |]. split; [now rewrite Hfalsy |].
  rewrite contests_forEach_run, Hfields. unfold result_of, events_of. cbn [fst snd rejected].
  split; [| split; [| split; [| split; [| split; [| split]]]]].
  - unfold addFields. fold f.
    now destruct (addFields_check (fields embed) _ _).
  - cbn [loop_events]. rewrite Hinc. fold f. rewrite in_app_iff. intros [Hin | Hin].
    + unfold format_events in Hin. destruct (toLocaleString _); [destruct Hin |].
      destruct Hin as [Heq | []]. unfold incomplete_line in Heq. cbn in Heq. discriminate.
    + destruct (addFields_check (fields embed) _ _); destruct Hin.
  - eexists. unfold f, contest_field, field_value, duration_hours. cbn [Field.value].
    rewrite Hfalsy. reflexivity.
  - intros Hacc. now rewrite Hacc.
  - intros _ Hacc.
    assert (Hrej : rejected [] (expected_fields [c]) = None)
      by (rewrite Hfields; cbn [rejected]; now rewrite Hacc).
    destruct (sendContestsReminder_nonempty_run label [c] s ltac:(discriminate) Hrej)
      as (sa & ta & Hquiet & _ & Hrun).
    cbv zeta in Hrun. rewrite Hrun. clear Hrun. rewrite Hfields. cbn [fold_left fst snd].
    set (payload := Options (Some (reminder_text label)) _).
    pose proof (sendDiscordMessage_run (CHANNEL_ID cfg) payload s) as H.
    cbv zeta in H. destruct H as (_ & Hprimary & _ & _).
    unfold events_of in *. split; [reflexivity |].
    rewrite (app_comm_cons _ _ (LogLine _)).
    rewrite !sends_to_app. rewrite Hprimary.
    rewrite (sends_to_none _ (_ :: forEach_events label [c])).
    + rewrite (sends_to_none _ ta).
      * now rewrite app_nil_r.
      * intros c1 p Hin. rewrite Hquiet in Hin. destruct Hin.
    + intros c1 p Hin.
      match type of Hin with
      | In _ (sends_of_any (LogLine ?x :: ?l)) =>
          change (sends_of_any (LogLine x :: l)) with (sends_of_any l) in Hin
      end.
      rewrite forEach_events_quiet in Hin. destruct Hin.
  - intros error _ Hc.
    assert (Hrej : rejected [] (expected_fields [c]) = Some error)
      by (rewrite Hfields; cbn [rejected]; now rewrite Hc).
    rewrite (sendContestsReminder_rejected_run label [c] s error ltac:(discriminate) Hrej).
    cbn [fst snd]. split; [reflexivity |].
    rewrite (app_comm_cons _ _ (LogLine _)), sends_of_any_app.
    now rewrite sends_of_any_log, loop_events_quiet.
  - intros c' Ht' Hs'. unfold incomplete. now rewrite Ht', Hs', Ht, Hs.
Qed.

(** ** Reminder cycles *)

(** fetchWithRetry never throws and neither sends nor arms a timer. *)
Lemma fetchWithRetry_quiet (fetchFunc : W -> Outcome (list Contest) * W) (label : string)
    (n retries : nat) (s : State W) :
  MAX_RETRIES - retries <= n ->
  let out := fetchWithRetry fetchFunc label retries s in
  (exists contests, result_of out = Return contests)
  /\ sends_of_any (events_of out) = []
  /\ timers (events_of out) = [].
Proof.
  revert retries s. induction n as [| n IH]; intros retries s Hle; cbv zeta;
    rewrite fetchWithRetry_step;
    destruct (fetchFunc (world s)) as [[contests | e] w]; cbn zeta;
    try (split; [now exists contests | now split]).
  - destruct (lt_dec retries MAX_RETRIES) as [Hlt | _]; [lia |].
    split; [now exists [] | now split].
  - destruct (lt_dec retries MAX_RETRIES) as [Hlt | _].
    + specialize (IH (retries + 1)
                     (mkState (timer_wait RETRY_DELAY w) (lastScheduledCheck s))
                     ltac:(lia)).
      cbv zeta in IH.
      destruct (fetchWithRetry fetchFunc label (retries + 1) _) as [[r s2] t].
      unfold result_of, events_of in *. cbn [fst snd] in *.
      destruct IH as (Hr & Hsends & Htimers).
      split; [assumption |]. cbn. now split.
    + split; [now exists [] | now split].
Qed.

(** The effects of a cycle that finds both lists empty. *)
Lemma sendCombinedReminder_empty_run (s : State W) :
  let fetchA := fetchLeetCodeContests (checked s) in
  let fetchB := fetchCodeChefContests (state_of fetchA) in
  result_of fetchA = Return [] ->
  result_of fetchB = Return [] ->
  let first := sendDiscordMessage cfg (CHANNEL_ID cfg)
                 (Plain (no_contests_text "LeetCode")) (state_of fetchB) in
  let second := sendDiscordMessage cfg (CHANNEL_ID cfg)
                  (Plain (no_contests_text "CodeChef")) (state_of first) in
  exists s' events,
    sendCombinedReminder cfg s = (Return true, s', events)
    /\ sends_of_any events
       = (sends_of_any (events_of first) ++ sends_of_any (events_of second))%list.
Proof.
  cbv zeta. unfold checked. intros HA HB.
  pose proof (fetchWithRetry_quiet leetcode_operation "LeetCode" MAX_RETRIES 0 (checked s)
                ltac:(lia)) as QA.
  pose proof (fetchWithRetry_quiet codechef_operation "CodeChef" MAX_RETRIES 0
                (state_of (fetchLeetCodeContests (checked s))) ltac:(lia)) as QB.
  cbv zeta in QA, QB. fold fetchLeetCodeContests in QA. fold fetchCodeChefContests in QB.
  destruct QA as (_ & QA & _). destruct QB as (_ & QB & _). unfold checked in QA, QB.
  unfold sendCombinedReminder, mark_check, set_lastScheduledCheck. run_async.
  destruct (fetchLeetCodeContests _) as [[rA sA] tA].
  cbn [fst snd] in *. subst rA.
  destruct (fetchCodeChefContests sA) as [[rB sB] tB].
  cbn [fst snd] in *. subst rB.
  rewrite (sendContestsReminder_empty_run "LeetCode" sB). cbv zeta.
  unfold state_of, events_of. cbn [fst snd].
  destruct (sendDiscordMessage cfg (CHANNEL_ID cfg) (Plain (no_contests_text "LeetCode")) sB)
    as [[r1 s1] t1]. cbn [fst snd].
  rewrite (sendContestsReminder_empty_run "CodeChef" s1). cbv zeta.
  unfold state_of, events_of. cbn [fst snd].
  destruct (sendDiscordMessage cfg (CHANNEL_ID cfg) (Plain (no_contests_text "CodeChef")) s1)
    as [[r2 s2] t2]. cbn [fst snd].
  do 2 eexists. split; [reflexivity |].
  rewrite !sends_of_any_app. rewrite QA, QB.
  cbn [sends_of_any flat_map app]. now rewrite !app_nil_r.
Qed.

(** C8. When both adapters return the empty list, the combined cycle
    returns true and its channel traffic is that of two deliveries in a
    row, the plain "no contests" text for LeetCode and then the one for
    CodeChef: no send carries an embed, and with the primary channel in
    the cache it receives exactly these two texts. *)
Theorem sendCombinedReminder_both_empty (s : State W) :
  let fetchA := fetchLeetCodeContests (checked s) in
  let fetchB := fetchCodeChefContests (state_of fetchA) in
  result_of fetchA = Return [] ->
  result_of fetchB = Return [] ->
  let out := sendCombinedReminder cfg s in
  let textA := Plain (Text.none_head ++ "LeetCode" ++ Text.none_tail) in
  let textB := Plain (Text.none_head ++ "CodeChef" ++ Text.none_tail) in
  let first := sendDiscordMessage cfg (CHANNEL_ID cfg) textA (state_of fetchB) in
  let second := sendDiscordMessage cfg (CHANNEL_ID cfg) textB (state_of first) in
  result_of out = Return true
  /\ sends_of_any (events_of out)
     = (sends_of_any (events_of first) ++ sends_of_any (events_of second))%list
  /\ (forall ch p, In (ChannelSend ch p) (events_of out) -> embeds_of p = [])
  /\ ((forall w, channels_cache_has w (CHANNEL_ID cfg) = true) ->
        sends_to (CHANNEL_ID cfg) (events_of out) = [textA; textB]).
Proof.
  intros fetchA fetchB HA HB. cbv zeta.
  destruct (sendCombinedReminder_empty_run s HA HB) as (s' & events & Hrun & Hsends).
  cbv zeta in Hsends. fold fetchA fetchB in Hsends.
  unfold no_contests_text in Hsends.
  rewrite Hrun. unfold result_of at 1. unfold events_of at 1 4 5. cbn [fst snd].
  set (textA := Plain (Text.none_head ++ "LeetCode" ++ Text.none_tail)) in *.
  set (textB := Plain (Text.none_head ++ "CodeChef" ++ Text.none_tail)) in *.
  set (first := sendDiscordMessage cfg (CHANNEL_ID cfg) textA (state_of fetchB)) in *.
  set (second := sendDiscordMessage cfg (CHANNEL_ID cfg) textB (state_of first)) in *.
  pose proof (sendDiscordMessage_run (CHANNEL_ID cfg) textA (state_of fetchB)) as H1.
  pose proof (sendDiscordMessage_run (CHANNEL_ID cfg) textB (state_of first)) as H2.
  cbv zeta in H1, H2. fold first in H1. fold second in H2.
  destruct H1 as (_ & P1 & S1 & _). destruct H2 as (_ & P2 & S2 & _).
  split; [reflexivity |]. split; [assumption |]. split.
  - intros ch p Hin. apply In_sends_of_any in Hin. rewrite Hsends in Hin.
    apply in_app_or in Hin. destruct Hin as [Hin | Hin].
    + destruct (S1 ch p Hin) as [[_ ->] | ->]; reflexivity.
    + destruct (S2 ch p Hin) as [[_ ->] | ->]; reflexivity.
  - intros Hcached.
    rewrite sends_to_select, Hsends, flat_map_app, <- !sends_to_select.
    rewrite P1, P2, !Hcached. reflexivity.
Qed.

(** ** Ten-minute warnings *)

Lemma Qltb_spec (a b : Q) : Qltb a b = true <-> (a < b)%Q.
Proof.
  unfold Qltb. rewrite negb_true_iff. split.
  - intros H. apply Qnot_le_lt. intros Hle. apply Qle_bool_iff in Hle. congruence.
  - intros Hlt. destruct (Qle_bool b a) eqn:E; [| reflexivity].
    apply Qle_bool_iff in E. exfalso. now apply (Qlt_not_le a b).
Qed.

(** The test of the scan, for a contest that has a start time: more
    than 600 and less than 2400 seconds to go. *)
Lemma within_window_spec (now : Z) (c : Contest) (start : Q) :
  startTime c = Some start ->
  within_window now c = true
  <-> (600 < start - inject_Z now)%Q /\ (start - inject_Z now < 2400)%Q.
Proof.
  intros Hs. unfold within_window, tenMinBefore, js_lt, js_gt, js_sub. rewrite Hs.
  rewrite andb_true_iff, !Qltb_spec. split; intros [H1 H2]; split; lra.
Qed.

Lemma In_timers (d : number) (c : Contest) (events : list Event) :
  In (SetTimeout d c) events <-> In (d, c) (timers events).
Proof.
  unfold timers. rewrite in_flat_map. split.
  - intros H. exists (SetTimeout d c). split; [assumption | now left].
  - intros (ev & Hin & Hev). destruct ev; cbn in Hev; try contradiction.
    destruct Hev as [Heq | []]. injection Heq as -> ->. assumption.
Qed.

Lemma timers_app (a b : list Event) : timers (a ++ b) = (timers a ++ timers b)%list.
Proof. apply flat_map_app. Qed.

Lemma allContests_forEach_run (now : Z) (contests : list Contest) (n : nat) (s : State W) :
  allContests_forEach now contests n s
  = (Return (n + length (filter (armed now) contests)), s, scan_events now contests).
Proof.
  revert n. induction contests as [| c rest IH]; intros n.
  - cbn. now rewrite Nat.add_0_r.
  - cbn [allContests_forEach]. unfold scan_events, armed in *. cbn [filter flat_map].
    unfold bind at 1.
    destruct (truthy_number (startTime c)); cbn [negb andb].
    + destruct (within_window now c).
      * run_async. rewrite IH. cbn [length app]. f_equal. f_equal. f_equal. lia.
      * run_async. rewrite IH. reflexivity.
    + run_async. rewrite IH. reflexivity.
Qed.

Lemma timers_scan_events (now : Z) (contests : list Contest) :
  timers (scan_events now contests)
  = map (fun c => (js_mul (tenMinBefore now c) (Some 1000%Q), c))
        (filter (armed now) contests).
Proof.
  unfold scan_events, armed. induction contests as [| c rest IH]; [reflexivity |].
  cbn [flat_map filter]. rewrite timers_app, IH.
  destruct (truthy_number (startTime c)); cbn [negb andb]; [| reflexivity].
  destruct (within_window now c); reflexivity.
Qed.

(** One scan: the timers armed are those of the contests that pass the
    test, read at the time the fetches are done. *)
Lemma scheduleTenMinuteWarnings_run (s : State W) (leetcode codechef : list Contest) :
  let fetchA := fetchLeetCodeContests (checked s) in
  let fetchB := fetchCodeChefContests (state_of fetchA) in
  result_of fetchA = Return leetcode ->
  result_of fetchB = Return codechef ->
  let now := (Date_now (world (state_of fetchB)) / 1000)%Z in
  let allContests := (map (with_platform "LeetCode") leetcode
                      ++ map (with_platform "CodeChef") codechef)%list in
  exists s' events,
    scheduleTenMinuteWarnings s = (Return true, s', events)
    /\ timers events
       = map (fun c => (js_mul (tenMinBefore now c) (Some 1000%Q), c))
             (filter (armed now) allContests).
Proof.
  cbv zeta. unfold checked. intros HA HB.
  pose proof (fetchWithRetry_quiet leetcode_operation "LeetCode" MAX_RETRIES 0 (checked s)
                ltac:(lia)) as QA.
  pose proof (fetchWithRetry_quiet codechef_operation "CodeChef" MAX_RETRIES 0
                (state_of (fetchLeetCodeContests (checked s))) ltac:(lia)) as QB.
  cbv zeta in QA, QB. fold fetchLeetCodeContests in QA. fold fetchCodeChefContests in QB.
  destruct QA as (_ & _ & QA). destruct QB as (_ & _ & QB). unfold checked in QA, QB.
  unfold scheduleTenMinuteWarnings, mark_check, set_lastScheduledCheck. run_async.
  destruct (fetchLeetCodeContests _) as [[rA sA] tA].
  cbn [fst snd] in *. subst rA.
  destruct (fetchCodeChefContests sA) as [[rB sB] tB].
  cbn [fst snd] in *. subst rB.
  rewrite allContests_forEach_run.
  do 2 eexists. split; [reflexivity |].
  rewrite !timers_app. rewrite QA, QB, timers_scan_events.
  cbn [timers flat_map app]. now rewrite !app_nil_r.
Qed.

(** C9. For a contest of the scan that has a start time, a deferred
    warning is armed if and only if the start lies strictly more than
    600 and strictly less than 2400 seconds after the time of the scan;
    the timer then waits the remaining time minus ten minutes. A contest
    that starts in exactly 600 seconds, or in 2400 seconds or more, or
    that has no start time, gets no warning. *)
Theorem scheduleTenMinuteWarnings_window (s : State W) (leetcode codechef : list Contest) :
  let fetchA := fetchLeetCodeContests (checked s) in
  let fetchB := fetchCodeChefContests (state_of fetchA) in
  result_of fetchA = Return leetcode ->
  result_of fetchB = Return codechef ->
  let now := inject_Z (Date_now (world (state_of fetchB)) / 1000) in
  let allContests := (map (with_platform "LeetCode") leetcode
                      ++ map (with_platform "CodeChef") codechef)%list in
  let out := scheduleTenMinuteWarnings s in
  let warned c := exists delay, In (SetTimeout delay c) (events_of out) in
  result_of out = Return true
  /\ (forall c start,
        In c allContests -> startTime c = Some start -> ~ (start == 0)%Q ->
        (warned c <-> (600 < start - now)%Q /\ (start - now < 2400)%Q)
        /\ (forall delay, In (SetTimeout delay c) (events_of out) ->
                          delay = Some ((start - now - 600) * 1000)%Q)
        /\ ((start - now == 600)%Q -> ~ warned c)
        /\ ((2400 <= start - now)%Q -> ~ warned c))
  /\ (forall c, truthy_number (startTime c) = false -> ~ warned c).
Proof.
  intros fetchA fetchB HA HB. cbv zeta.
  destruct (scheduleTenMinuteWarnings_run s leetcode codechef HA HB)
    as (s' & events & Hrun & Htimers).
  cbv zeta in Htimers. fold fetchA fetchB in Htimers.
  rewrite Hrun. unfold result_of, events_of. cbn [fst snd].
  set (now := (Date_now (world (state_of fetchB)) / 1000)%Z) in *.
  set (allContests := (map (with_platform "LeetCode") leetcode
                       ++ map (with_platform "CodeChef") codechef)%list) in *.
  assert (Harmed : forall d c, In (SetTimeout d c) events <->
                     In c allContests /\ armed now c = true
                     /\ d = js_mul (tenMinBefore now c) (Some 1000%Q)).
  { intros d c. rewrite In_timers, Htimers, in_map_iff. split.
    - intros (c' & Heq & Hin). injection Heq as <- <-.
      apply filter_In in Hin. destruct Hin. now repeat split.
    - intros (Hin & Harm & ->). exists c. split; [reflexivity |].
      apply filter_In. now split. }
  split; [reflexivity |]. split.
  - intros c start Hin Hs Hnz.
    assert (Htruthy : truthy_number (startTime c) = true).
    { rewrite Hs. cbn. apply negb_true_iff.
      destruct (Qeq_bool start 0) eqn:E; [| reflexivity].
      apply Qeq_bool_iff in E. contradiction. }
    assert (Hiff : (exists delay, In (SetTimeout delay c) events)
                   <-> (600 < start - inject_Z now)%Q /\ (start - inject_Z now < 2400)%Q).
    { rewrite <- (within_window_spec now c start Hs). split.
      - intros (d & Hd). apply Harmed in Hd. destruct Hd as (_ & Harm & _).
        unfold armed in Harm. rewrite Htruthy in Harm. exact Harm.
      - intros Hw. eexists. apply Harmed. split; [assumption |].
        split; [| reflexivity]. unfold armed. now rewrite Htruthy. }
    split; [exact Hiff |]. split; [| split].
    + intros d Hd. apply Harmed in Hd. destruct Hd as (_ & _ & ->).
      unfold tenMinBefore, js_sub, js_mul. rewrite Hs. reflexivity.
    + intros Heq Hw. apply Hiff in Hw. destruct Hw as [Hlt _].
      rewrite Heq in Hlt. now apply Qlt_irrefl in Hlt.
    + intros Hge Hw. apply Hiff in Hw. destruct Hw as [_ Hlt].
      now apply (Qlt_not_le _ _ Hlt).
  - intros c Hfalsy (d & Hd). apply Harmed in Hd. destruct Hd as (_ & Harm & _).
    unfold armed in Harm. rewrite Hfalsy in Harm. discriminate.
Qed.

(** ** Cron table *)

(** validateCronExpression looks only at whether [cron.validate]
    throws: the boolean it returns is dropped. *)
Lemma validateCronExpression_returns (expr name : string) (b : bool) (s : State W) :
  cron_validate expr = Return b ->
  validateCronExpression expr name s = (Return true, s, []).
Proof. intros H. unfold validateCronExpression. run_async. now rewrite H. Qed.

Lemma validateCronExpression_throws (expr name : string) (e : Error) (s : State W) :
  cron_validate expr = Throw e ->
  validateCronExpression expr name s
  = (Return false, s,
     [LogLine ("Invalid cron expression for " ++ name ++ ": " ++ expr);
      LogLine ("Error: " ++ message e)]).
Proof. intros H. unfold validateCronExpression. run_async. now rewrite H. Qed.

(** An entry whose expression makes [cron.validate] return, be it
    [false], is handed to [cron.schedule]. *)
Lemma cronJobs_forEach_registers (job : CronJob) (rest : list CronJob) (b : bool)
    (s : State W) :
  cron_validate (job_expression job) = Return b ->
  exists tail,
    events_of (cronJobs_forEach (job :: rest) s)
    = CronSchedule (job_expression job) (job_name job) :: tail.
Proof.
  intros H. cbn [cronJobs_forEach]. unfold bind at 1. unfold bind at 1.
  rewrite (validateCronExpression_returns _ _ b s H).
  run_async.
  destruct (cron_schedule (job_expression job) (world s)) as [[[] | e] w1]; cbn [fst snd].
  - destruct (cronJobs_forEach rest _) as [[r s2] t]. cbn. now eexists.
  - cbn. now eexists.
Qed.

(** * Further properties of the pipeline *)

(** ** Retry wrapper, for any operation *)

Lemma fetchWithRetry_bounds (fetchFunc : W -> Outcome (list Contest) * W) (label : string)
    (budget retries : nat) (s : State W) :
  retries + budget = MAX_RETRIES ->
  let out := fetchWithRetry fetchFunc label retries s in
  (exists contests, result_of out = Return contests)
  /\ 1 <= fetch_calls (events_of out) <= S budget
  /\ sleeps (events_of out) = repeat RETRY_DELAY (fetch_calls (events_of out) - 1)
  /\ called (events_of out) = repeat label (fetch_calls (events_of out)).
Proof.
  revert retries s. unfold fetch_calls.
  induction budget as [| budget IH]; intros retries s Hsum; cbv zeta;
    rewrite fetchWithRetry_step;
    destruct (fetchFunc (world s)) as [[contests | e] w]; cbn zeta.
  - cbn. split; [now exists contests |]. repeat split; lia.
  - destruct (lt_dec retries MAX_RETRIES) as [Hlt | _]; [lia |].
    cbn. split; [now exists [] |]. repeat split; lia.
  - cbn. split; [now exists contests |]. repeat split; lia.
  - destruct (lt_dec retries MAX_RETRIES) as [_ | Hge]; [| lia].
    specialize (IH (retries + 1)
                   (mkState (timer_wait RETRY_DELAY w) (lastScheduledCheck s))
                   ltac:(lia)).
    cbv zeta in IH.
    destruct (fetchWithRetry fetchFunc label (retries + 1) _) as [[r s2] t].
    unfold result_of, events_of in *. cbn [fst snd] in *.
    destruct IH as (Hr & Hcalls & Hsleeps & Hcalled).
    split; [assumption |]. cbn [app filter is_fetch_call length sleeps called flat_map].
    fold (sleeps t). fold (called t). rewrite Hsleeps, Hcalled.
    split; [lia |]. split.
    + destruct (length (filter is_fetch_call t)) as [| n]; [lia |].
      cbn. now rewrite Nat.sub_0_r.
    + reflexivity.
Qed.

Lemma sum_repeat (d : Z) (n : nat) :
  fold_right Z.add 0%Z (repeat d n) = (d * Z.of_nat n)%Z.
Proof.
  induction n as [| n IH]; [cbn; lia |].
  cbn [repeat fold_right]. rewrite IH. lia.
Qed.

(** X1. Whatever the operation does, fetchWithRetry does not throw,
    calls it at least once and at most MAX_RETRIES + 1 times, waits
    RETRY_DELAY after every call but the last, and so never waits more
    than three minutes in all. *)
Theorem fetchWithRetry_bounded (fetchFunc : W -> Outcome (list Contest) * W) (label : string)
    (s : State W) :
  let out := fetchWithRetry fetchFunc label 0 s in
  let calls := fetch_calls (events_of out) in
  (exists contests, result_of out = Return contests)
  /\ 1 <= calls <= MAX_RETRIES + 1
  /\ called (events_of out) = repeat label calls
  /\ sleeps (events_of out) = repeat RETRY_DELAY (calls - 1)
  /\ (fold_right Z.add 0 (sleeps (events_of out)) <= 180000)%Z.
Proof.
  cbv zeta.
  destruct (fetchWithRetry_bounds fetchFunc label MAX_RETRIES 0 s eq_refl)
    as (Hr & Hcalls & Hsleeps & Hcalled).
  split; [assumption |]. split; [lia |]. split; [assumption |]. split; [assumption |].
  rewrite Hsleeps, sum_repeat. unfold RETRY_DELAY, MAX_RETRIES in *. lia.
Qed.

Lemma fetchWithRetry_recovers_from (fetchFunc : W -> Outcome (list Contest) * W)
    (label : string) (k retries : nat) (s : State W) (contests : list Contest) (w' : W) :
  succeeds_after fetchFunc k (world s) contests w' ->
  retries + k <= MAX_RETRIES ->
  let out := fetchWithRetry fetchFunc label retries s in
  result_of out = Return contests
  /\ world (state_of out) = w'
  /\ lastScheduledCheck (state_of out) = lastScheduledCheck s
  /\ fetch_calls (events_of out) = S k
  /\ sleeps (events_of out) = repeat RETRY_DELAY k
  /\ ~ In (giving_up_line label) (log_lines (events_of out)).
Proof.
  revert retries s. unfold fetch_calls.
  induction k as [| k IH]; intros retries s Hk Hle; cbv zeta; rewrite fetchWithRetry_step.
  - cbn in Hk. rewrite Hk. cbn. repeat split. intros [].
  - destruct Hk as (error & w1 & Hfail & Hnext). rewrite Hfail. cbn zeta.
    destruct (lt_dec retries MAX_RETRIES) as [_ | Hge]; [| lia].
    specialize (IH (retries + 1)
                   (mkState (timer_wait RETRY_DELAY w1) (lastScheduledCheck s))
                   Hnext ltac:(lia)).
    cbv zeta in IH.
    destruct (fetchWithRetry fetchFunc label (retries + 1) _) as [[r s2] t].
    unfold result_of, state_of, events_of in *. cbn [fst snd world lastScheduledCheck] in *.
    destruct IH as (Hr & Hw & Hl & Hcalls & Hsleeps & Hlog).
    split; [assumption |]. split; [assumption |]. split; [assumption |].
    cbn [app filter is_fetch_call length sleeps log_lines flat_map].
    fold (sleeps t). fold (log_lines t). rewrite Hsleeps.
    split; [lia |]. split; [reflexivity |].
    intros [Habs | [Habs | Hin]]; [| | contradiction].
    + unfold attempt_line, giving_up_line in Habs. discriminate.
    + unfold retrying_line, giving_up_line in Habs. discriminate.
Qed.

(** X2. If the operation fails k times in a row (k at most MAX_RETRIES)
    and then returns a list, fetchWithRetry returns that list after
    exactly k + 1 calls and k waits, and does not log that it gives up. *)
Theorem fetchWithRetry_recovers (fetchFunc : W -> Outcome (list Contest) * W)
    (label : string) (k : nat) (s : State W) (contests : list Contest) (w' : W) :
  succeeds_after fetchFunc k (world s) contests w' ->
  k <= MAX_RETRIES ->
  let out := fetchWithRetry fetchFunc label 0 s in
  result_of out = Return contests
  /\ world (state_of out) = w'
  /\ fetch_calls (events_of out) = k + 1
  /\ sleeps (events_of out) = repeat RETRY_DELAY k
  /\ ~ In (giving_up_line label) (log_lines (events_of out)).
Proof.
  intros Hk Hle. cbv zeta.
  destruct (fetchWithRetry_recovers_from fetchFunc label k 0 s contests w' Hk Hle)
    as (Hr & Hw & _ & Hcalls & Hsleeps & Hlog).
  rewrite Hcalls. repeat split; try assumption. lia.
Qed.

(** ** Contest source adapters *)

Lemma fetchWithRetry_failing_log (fetchFunc : W -> Outcome (list Contest) * W)
    (label : string) (error : Error) (budget retries : nat) (s : State W) :
  (forall w, exists w1, fetchFunc w = (Throw error, w1)) ->
  retries + budget = MAX_RETRIES ->
  let out := fetchWithRetry fetchFunc label retries s in
  result_of out = Return []
  /\ fetch_calls (events_of out) = S budget
  /\ log_lines (events_of out) = failure_log label error retries budget.
Proof.
  intros Hfail. revert retries s. unfold fetch_calls.
  induction budget as [| budget IH]; intros retries s Hsum; cbv zeta;
    rewrite fetchWithRetry_step;
    destruct (Hfail (world s)) as [w1 Hw]; rewrite Hw; cbn zeta.
  - destruct (lt_dec retries MAX_RETRIES) as [Hlt | _]; [lia |].
    repeat split.
  - destruct (lt_dec retries MAX_RETRIES) as [_ | Hge]; [| lia].
    specialize (IH (retries + 1)
                   (mkState (timer_wait RETRY_DELAY w1) (lastScheduledCheck s))
                   ltac:(lia)).
    cbv zeta in IH. replace (retries + 1) with (S retries) in * by lia.
    destruct (fetchWithRetry fetchFunc label (S retries) _) as [[r s2] t].
    unfold result_of, events_of in *. cbn [fst snd] in *.
    destruct IH as (Hr & Hcalls & Hlog).
    split; [assumption |].
    cbn [app filter is_fetch_call length log_lines flat_map failure_log].
    fold (log_lines t). rewrite Hlog. split; [lia | reflexivity].
Qed.

(** X3. A reply without the expected field is a failure, not an empty
    result: when the API keeps answering with such a reply, each adapter
    calls it MAX_RETRIES + 1 times, logs every attempt with the message
    "Invalid response structure from ... API", gives up and returns the
    empty list. For CodeChef this makes the default [|| []] behind the
    test dead code. *)
Theorem malformed_reply_is_retried (s : State W) :
  ((forall w, exists body w1, axios_post_leetcode w = (Return body, w1)
                              /\ malformed_leetcode body) ->
   let out := fetchLeetCodeContests s in
   result_of out = Return []
   /\ fetch_calls (events_of out) = MAX_RETRIES + 1
   /\ log_lines (events_of out)
      = failure_log "LeetCode" (mkError "Invalid response structure from LeetCode API")
                    0 MAX_RETRIES)
  /\ ((forall w, exists body w1, axios_get_codechef w = (Return body, w1)
                                 /\ malformed_codechef body) ->
      let out := fetchCodeChefContests s in
      result_of out = Return []
      /\ fetch_calls (events_of out) = MAX_RETRIES + 1
      /\ log_lines (events_of out)
         = failure_log "CodeChef" (mkError "Invalid response structure from CodeChef API")
                       0 MAX_RETRIES).
Proof.
  split; intros Hbad; cbv zeta.
  - unfold fetchLeetCodeContests.
    apply (fetchWithRetry_failing_log leetcode_operation "LeetCode"
             (mkError "Invalid response structure from LeetCode API") MAX_RETRIES 0 s);
      [| reflexivity].
    intros w. destruct (Hbad w) as (body & w1 & Hreply & Hmal). exists w1.
    unfold leetcode_operation. rewrite Hreply.
    destruct body as [[[[[contests |]] |]] |]; cbn in Hmal; [contradiction | | |]; reflexivity.
  - unfold fetchCodeChefContests.
    apply (fetchWithRetry_failing_log codechef_operation "CodeChef"
             (mkError "Invalid response structure from CodeChef API") MAX_RETRIES 0 s);
      [| reflexivity].
    intros w. destruct (Hbad w) as (body & w1 & Hreply & Hmal). exists w1.
    unfold codechef_operation. rewrite Hreply.
    destruct body as [[[entries |]] |]; cbn in Hmal; [contradiction | |]; reflexivity.
Qed.

Lemma admin_events_app (a b : list Event) :
  filter is_admin_event (a ++ b)
  = (filter is_admin_event a ++ filter is_admin_event b)%list.
Proof. apply filter_app. Qed.

Lemma fetchWithRetry_only_fetches (fetchFunc : W -> Outcome (list Contest) * W)
    (label : string) (n retries : nat) (s : State W) :
  MAX_RETRIES - retries <= n ->
  let out := fetchWithRetry fetchFunc label retries s in
  filter is_admin_event (events_of out) = []
  /\ reactions (events_of out) = []
  /\ scheduled (events_of out) = []
  /\ lastScheduledCheck (state_of out) = lastScheduledCheck s.
Proof.
  revert retries s. induction n as [| n IH]; intros retries s Hle; cbv zeta;
    rewrite fetchWithRetry_step;
    destruct (fetchFunc (world s)) as [[contests | e] w]; cbn zeta;
    try (repeat split; reflexivity).
  - destruct (lt_dec retries MAX_RETRIES) as [Hlt | _]; [lia |]. repeat split.
  - destruct (lt_dec retries MAX_RETRIES) as [Hlt | _]; [| repeat split].
    specialize (IH (retries + 1)
                   (mkState (timer_wait RETRY_DELAY w) (lastScheduledCheck s))
                   ltac:(lia)).
    cbv zeta in IH.
    destruct (fetchWithRetry fetchFunc label (retries + 1) _) as [[r s2] t].
    unfold state_of, events_of in *. cbn [fst snd lastScheduledCheck] in *.
    destruct IH as (Ha & Hr & Hs & Hl). cbn. now repeat split.
Qed.

(** X4. The two adapters keep their contract for every behaviour of
    the remote APIs: they return a list and never throw, they call only
    their own API, and they send no channel message, contact no admin,
    add no reaction and arm no timer. *)
Theorem adapters_never_throw (s : State W) :
  let a := fetchLeetCodeContests s in
  let b := fetchCodeChefContests s in
  ((exists contests, result_of a = Return contests)
   /\ called (events_of a) = repeat "LeetCode" (fetch_calls (events_of a))
   /\ sends_of_any (events_of a) = []
   /\ filter is_admin_event (events_of a) = []
   /\ reactions (events_of a) = []
   /\ timers (events_of a) = [])
  /\ ((exists contests, result_of b = Return contests)
      /\ called (events_of b) = repeat "CodeChef" (fetch_calls (events_of b))
      /\ sends_of_any (events_of b) = []
      /\ filter is_admin_event (events_of b) = []
      /\ reactions (events_of b) = []
      /\ timers (events_of b) = []).
Proof.
  cbv zeta. unfold fetchLeetCodeContests, fetchCodeChefContests. split.
  - destruct (fetchWithRetry_bounds leetcode_operation "LeetCode" MAX_RETRIES 0 s eq_refl)
      as (Hr & _ & _ & Hcalled).
    destruct (fetchWithRetry_quiet leetcode_operation "LeetCode" MAX_RETRIES 0 s
                ltac:(lia)) as (_ & Hsends & Htimers).
    destruct (fetchWithRetry_only_fetches leetcode_operation "LeetCode" MAX_RETRIES 0 s
                ltac:(lia)) as (Hadm & Hreact & _).
    now repeat split.
  - destruct (fetchWithRetry_bounds codechef_operation "CodeChef" MAX_RETRIES 0 s eq_refl)
      as (Hr & _ & _ & Hcalled).
    destruct (fetchWithRetry_quiet codechef_operation "CodeChef" MAX_RETRIES 0 s
                ltac:(lia)) as (_ & Hsends & Htimers).
    destruct (fetchWithRetry_only_fetches codechef_operation "CodeChef" MAX_RETRIES 0 s
                ltac:(lia)) as (Hadm & Hreact & _).
    now repeat split.
Qed.

(** ** Delivery *)

Lemma try_backup_kinds (channelId : string) (content : Payload) (s : State W) :
  Forall delivery_event (events_of (try_backup cfg channelId content s))
  /\ lastScheduledCheck (state_of (try_backup cfg channelId content s)) = lastScheduledCheck s.
Proof.
  unfold try_backup.
  destruct (BACKUP_CHANNEL_ID cfg) as [backup |]; [| now split; [constructor |]].
  destruct (truthy_string (Some backup) && negb (channelId =? backup));
    [| now split; [constructor |]].
  run_async.
  destruct (channels_cache_has (world s) backup); [| cbn; split; repeat constructor].
  destruct (channel_send backup (backup_payload content) (world s)) as [[m | e] w1];
    cbn; split; repeat constructor.
Qed.

Lemma notify_admin_kinds (text line : string) (s : State W) :
  Forall delivery_event (events_of (notify_admin cfg text line s))
  /\ lastScheduledCheck (state_of (notify_admin cfg text line s)) = lastScheduledCheck s.
Proof.
  unfold notify_admin.
  destruct (DISCORD_ADMIN_ID cfg) as [adminId |]; [| now split; [constructor |]].
  destruct (truthy_string (Some adminId)); [| now split; [constructor |]].
  run_async.
  destruct (users_fetch adminId (world s)) as [[admin | e] w1]; cbn;
    [| split; repeat constructor].
  destruct (user_send admin text w1) as [[m | e] w2]; cbn; split; repeat constructor.
Qed.

Lemma delivery_fallback_kinds (channelId : string) (content : Payload) (error : Error)
    (s : State W) :
  Forall delivery_event (events_of (delivery_fallback cfg channelId content error s))
  /\ lastScheduledCheck (state_of (delivery_fallback cfg channelId content error s))
     = lastScheduledCheck s.
Proof.
  pose proof (try_backup_kinds channelId content s) as [Hb Hbl].
  unfold delivery_fallback. run_async.
  destruct (try_backup cfg channelId content s) as [[r s1] t]. cbn [fst snd] in *.
  destruct r as [[r' |] | e]; cbn.
  - rewrite app_nil_r. split; [constructor; [exact I | assumption] | assumption].
  - pose proof (notify_admin_kinds (admin_text channelId error)
                  "Failed to notify admin: " s1) as [Ha Hal].
    run_async.
    destruct (notify_admin cfg _ _ s1) as [[ra sa] ta]. cbn [fst snd] in *.
    destruct ra; cbn; (split; [| congruence]);
      constructor; try exact I; rewrite ?app_nil_r; apply Forall_app; now split.
  - split; [constructor; [exact I | assumption] | assumption].
Qed.

Lemma sendDiscordMessage_kinds (channelId : string) (content : Payload) (s : State W) :
  Forall delivery_event (events_of (sendDiscordMessage cfg channelId content s))
  /\ lastScheduledCheck (state_of (sendDiscordMessage cfg channelId content s))
     = lastScheduledCheck s.
Proof.
  unfold sendDiscordMessage. run_async.
  destruct (channels_cache_has (world s) channelId).
  - destruct (channel_send channelId content (world s)) as [[m | e] wp]; cbn [fst snd].
    + split; [repeat constructor | reflexivity].
    + pose proof (delivery_fallback_kinds channelId content e
                    (mkState wp (lastScheduledCheck s))) as [H Hl].
      run_async.
      destruct (delivery_fallback cfg channelId content e _) as [[r s2] t].
      cbn [fst snd] in *. split; [constructor; [exact I | assumption] | assumption].
  - pose proof (delivery_fallback_kinds channelId content
                  (mkError ("Channel not found: " ++ channelId)) s) as [H Hl].
    run_async.
    destruct (delivery_fallback cfg channelId content _ s) as [[r s2] t].
    cbn [fst snd] in *. now split.
Qed.

(** X5. The result of sendDiscordMessage tells whether something was
    delivered: it is a message exactly when the primary send returned
    that message, or the primary send failed and the backup send
    returned it; in every other case it is null. The call never throws
    and never touches [lastScheduledCheck]. *)
Theorem sendDiscordMessage_result (channelId : string) (content : Payload) (s : State W)
    (m : Message) :
  let out := sendDiscordMessage cfg channelId content s in
  let w1 := after_primary channelId content (world s) in
  (exists v, result_of out = Return v)
  /\ (result_of out = Return (Some m) <->
      (channels_cache_has (world s) channelId = true
       /\ fst (channel_send channelId content (world s)) = Return m)
      \/ (primary_fails channelId content (world s)
          /\ backup_delivers cfg channelId content w1 m))
  /\ lastScheduledCheck (state_of out) = lastScheduledCheck s.
Proof.
  cbv zeta.
  destruct (sendDiscordMessage_kinds channelId content s) as [_ Hstamp].
  split; [| split; [| exact Hstamp]]; clear Hstamp.
  - now destruct (sendDiscordMessage_run channelId content s) as (Hr & _).
  - unfold after_primary, primary_fails, sendDiscordMessage. run_async.
    destruct (channels_cache_has (world s) channelId) eqn:Hc.
    + destruct (channel_send channelId content (world s)) as [[m' | e] wp] eqn:Hsend;
        cbn [fst snd].
      * split.
        -- intros H. injection H as ->. left. now split.
        -- intros [[_ H] | [[Habs | [e He]] _]]; congruence.
      * pose proof (delivery_fallback_run channelId content e
                      (mkState wp (lastScheduledCheck s))) as H.
        pose proof (backup_dichotomy channelId content wp) as Hcases.
        pose proof (backup_exclusive channelId content wp) as Hexcl.
        cbv zeta in H. run_async.
        destruct (delivery_fallback cfg channelId content e _) as [[r s2] t].
        cbn [fst snd] in *. destruct H as (_ & Hdel & Hun & _).
        split.
        -- intros ->. right. split; [right; now exists e |].
           destruct Hcases as [(m' & Hm') | Hno].
           ++ destruct (Hdel m' Hm') as [Heq _]. injection Heq as ->. assumption.
           ++ destruct (Hun Hno) as [Heq _]. discriminate.
        -- intros [[_ Habs] | [_ Hm]]; [discriminate |]. now destruct (Hdel m Hm).
    + pose proof (delivery_fallback_run channelId content
                    (mkError ("Channel not found: " ++ channelId)) s) as H.
      pose proof (backup_dichotomy channelId content (world s)) as Hcases.
      cbv zeta in H. run_async.
      destruct (delivery_fallback cfg channelId content _ s) as [[r s2] t].
      cbn [fst snd] in *. destruct H as (_ & Hdel & Hun & _).
      split.
      * intros ->. right. split; [now left |].
        destruct Hcases as [(m' & Hm') | Hno].
        -- destruct (Hdel m' Hm') as [Heq _]. injection Heq as ->. assumption.
        -- destruct (Hun Hno) as [Heq _]. discriminate.
      * intros [[Habs _] | [_ Hm]]; [discriminate |]. now destruct (Hdel m Hm).
Qed.

(** ** Composer *)

Lemma delivery_is_reminder_event (events : list Event) :
  Forall delivery_event events -> Forall reminder_event events.
Proof.
  apply Forall_impl. intros ev. destruct ev; cbn; auto.
Qed.

Lemma delivery_events_quiet (events : list Event) :
  Forall delivery_event events ->
  reactions events = [] /\ timers events = [] /\ called events = []
  /\ scheduled events = [] /\ sleeps events = [].
Proof.
  induction 1 as [| ev rest Hev _ IH]; [now repeat split |].
  destruct IH as (Hr & Ht & Hc & Hs & Hw).
  unfold reactions, timers, called, scheduled, sleeps in *. cbn [flat_map].
  rewrite Hr, Ht, Hc, Hs, Hw. destruct ev; cbn in Hev; try contradiction; now repeat split.
Qed.

Lemma reminder_events_quiet (events : list Event) :
  Forall reminder_event events ->
  timers events = [] /\ called events = [] /\ scheduled events = [] /\ sleeps events = [].
Proof.
  induction 1 as [| ev rest Hev _ IH]; [now repeat split |].
  destruct IH as (Ht & Hc & Hs & Hw).
  unfold timers, called, scheduled, sleeps in *. cbn [flat_map].
  rewrite Ht, Hc, Hs, Hw. destruct ev; cbn in Hev; try contradiction; now repeat split.
Qed.

Lemma reactions_app (a b : list Event) :
  reactions (a ++ b) = (reactions a ++ reactions b)%list.
Proof. apply flat_map_app. Qed.

Lemma forEach_events_logs (label : string) (contests : list Contest) :
  Forall delivery_event (forEach_events label contests).
Proof.
  unfold forEach_events, format_events.
  induction contests as [| c rest IH]; [constructor |].
  cbn [flat_map]. apply Forall_app. split; [| assumption].
  destruct (incomplete c); [repeat constructor |].
  destruct (toLocaleString _); repeat constructor.
Qed.

(** The reaction step: one reaction on the delivered message, none
    without a message; a rejected reaction is logged. *)
Lemma add_reaction_exact (msg : option Message) (line : string) (s : State W) :
  let out := add_reaction msg line s in
  result_of out = Return tt
  /\ reactions (events_of out)
     = match msg with Some m => [(m, Text.check_mark)] | None => [] end
  /\ Forall reminder_event (events_of out)
  /\ lastScheduledCheck (state_of out) = lastScheduledCheck s.
Proof.
  unfold add_reaction. destruct msg as [m |]; run_async; [| now cbn; repeat split].
  destruct (message_react m Text.check_mark (world s)) as [[[] | e] w1]; cbn;
    repeat split; repeat constructor.
Qed.

Lemma loop_events_logs (label : string) (contests : list Contest)
    (existing : list Field.t) :
  Forall delivery_event (loop_events label contests existing).
Proof.
  revert existing. induction contests as [| c rest IH]; intros existing; [constructor |].
  cbn [loop_events]. destruct (incomplete c).
  - constructor; [exact I | apply IH].
  - apply Forall_app. split.
    + unfold format_events. destruct (toLocaleString _); repeat constructor.
    + destruct (addFields_check existing _ _); [constructor | apply IH].
Qed.

(** The run of the composer on a non-empty list whose fields addFields
    accepts, with the reaction step spelled out. *)
Lemma sendContestsReminder_nonempty_exact (label : string) (contests : list Contest)
    (s : State W) :
  contests <> [] ->
  rejected [] (expected_fields contests) = None ->
  let embed := fold_left with_field (expected_fields contests)
                 (new_reminder_embed label (Date_now (world s))) in
  let delivery := sendDiscordMessage cfg (CHANNEL_ID cfg)
                    (Options (Some (reminder_text label)) [embed]) s in
  exists v,
    result_of delivery = Return v
    /\ let react := add_reaction v "Failed to add reaction to message: " (state_of delivery) in
       sendContestsReminder cfg label contests s
       = (Return (Some true), state_of react,
          LogLine ("Sending " ++ label ++ " contest reminder, found "
                   ++ string_of_nat (length contests) ++ " contests")
          :: forEach_events label contests ++ events_of delivery ++ events_of react)%list.
Proof.
  intros Hne Hacc. cbv zeta.
  set (embed := fold_left with_field (expected_fields contests)
                  (new_reminder_embed label (Date_now (world s)))).
  set (payload := Options (Some (reminder_text label)) [embed]).
  pose proof (sendDiscordMessage_run (CHANNEL_ID cfg) payload s) as H.
  cbv zeta in H. destruct H as ((v & Hret) & _).
  exists v. split; [assumption |].
  unfold sendContestsReminder.
  destruct contests as [| c0 rest0]; [congruence |].
  cbn [length Nat.eqb].
  unfold bind at 1. unfold logToFile at 1, emit at 1.
  unfold try_catch at 1. unfold bind at 1. unfold observe at 1.
  unfold bind at 1. rewrite contests_forEach_run.
  cbn [new_reminder_embed fields]. rewrite Hacc.
  rewrite (loop_events_accepted _ _ _ Hacc).
  fold (new_reminder_embed label (Date_now (world s))). fold embed.
  unfold bind at 1. fold payload.
  destruct (sendDiscordMessage cfg (CHANNEL_ID cfg) payload s) as [[r s1] t] eqn:Esend.
  unfold result_of, state_of, events_of in *. cbn [fst snd] in *. subst r.
  unfold bind at 1.
  pose proof (add_reaction_exact v "Failed to add reaction to message: " s1) as Hre.
  cbv zeta in Hre. destruct Hre as (Hr & _).
  destruct (add_reaction v "Failed to add reaction to message: " s1) as [[ra sa] ta].
  unfold result_of in Hr. cbn [fst snd] in *. subst ra.
  unfold ret. cbn [app]. rewrite !app_nil_r. reflexivity.
Qed.

(** The composer is total. *)
Lemma sendContestsReminder_total (label : string) (contests : list Contest) (s : State W) :
  let out := sendContestsReminder cfg label contests s in
  result_of out = Return (composer_result contests)
  /\ Forall reminder_event (events_of out)
  /\ lastScheduledCheck (state_of out) = lastScheduledCheck s.
Proof.
  cbv zeta. destruct contests as [| c rest].
  - rewrite sendContestsReminder_empty_run. cbv zeta.
    destruct (sendDiscordMessage_kinds (CHANNEL_ID cfg) (Plain (no_contests_text label)) s)
      as [Hk Hl].
    unfold result_of, state_of, events_of in *. cbn [fst snd].
    split; [reflexivity |]. split; [| assumption].
    constructor; [exact I | now apply delivery_is_reminder_event].
  - unfold composer_result.
    destruct (rejected [] (expected_fields (c :: rest))) as [error |] eqn:Hrej.
    + rewrite (sendContestsReminder_rejected_run label (c :: rest) s error
                 ltac:(discriminate) Hrej).
      unfold result_of, state_of, events_of. cbn [fst snd].
      split; [reflexivity |]. split; [| reflexivity].
      constructor; [exact I |]. apply Forall_app. split.
      * apply delivery_is_reminder_event, loop_events_logs.
      * repeat constructor.
    + destruct (sendContestsReminder_nonempty_exact label (c :: rest) s
                  ltac:(discriminate) Hrej) as (v & Hv & Hrun).
      cbv zeta in Hrun. rewrite Hrun. clear Hrun.
      set (payload := Options _ _) in *.
      destruct (sendDiscordMessage_kinds (CHANNEL_ID cfg) payload s) as [Hk Hl].
      destruct (add_reaction_exact v "Failed to add reaction to message: "
                  (state_of (sendDiscordMessage cfg (CHANNEL_ID cfg) payload s)))
        as (_ & _ & Hrk & Hrl).
      unfold result_of, state_of, events_of in *. cbn [fst snd].
      split; [reflexivity |]. split; [| congruence].
      constructor; [exact I |]. apply Forall_app. split.
      * apply delivery_is_reminder_event, forEach_events_logs.
      * apply Forall_app. split; [now apply delivery_is_reminder_event | assumption].
Qed.

(** X6. sendContestsReminder never throws, whatever Discord does: it
    returns undefined on the empty list, false when addFields threw on
    a field of a non-empty list, and true otherwise, whether or not
    anything was delivered. When it returns false nothing was sent and
    no reaction was attempted. Its run consists of log lines, channel
    sends, admin contacts and reactions only, and it leaves
    [lastScheduledCheck] alone. The label is one of the two the
    program passes, and durations are taken in the range in which the
    hours of a field are the ones the program prints. *)
Theorem sendContestsReminder_result (label : string) (contests : list Contest) (s : State W) :
  platform_label label ->
  (forall c, In c contests -> exact_duration c) ->
  let out := sendContestsReminder cfg label contests s in
  (result_of out = Return None \/ result_of out = Return (Some true)
   \/ result_of out = Return (Some false))
  /\ (result_of out = Return None <-> contests = [])
  /\ (result_of out = Return (Some false)
      <-> contests <> [] /\ exists error, rejected [] (expected_fields contests) = Some error)
  /\ (result_of out = Return (Some false) ->
      sends_of_any (events_of out) = [] /\ reactions (events_of out) = [])
  /\ Forall reminder_event (events_of out)
  /\ lastScheduledCheck (state_of out) = lastScheduledCheck s.
Proof.
  intros _ _. cbv zeta.
  destruct (sendContestsReminder_total label contests s) as (Hres & Hk & Hl).
  rewrite Hres. unfold composer_result.
  destruct contests as [| c rest].
  - split; [now left |]. split; [now split |].
    split; [split; [discriminate | intros [H _]; congruence] |].
    split; [discriminate |]. now split.
  - destruct (rejected [] (expected_fields (c :: rest))) as [error |] eqn:Hrej.
    + split; [now right; right |]. split; [split; discriminate |].
      split; [split; [intros _; split; [discriminate | now exists error] | reflexivity] |].
      split; [| now split]. intros _.
      rewrite (sendContestsReminder_rejected_run label (c :: rest) s error
                 ltac:(discriminate) Hrej).
      unfold events_of. cbn [snd].
      pose proof (loop_events_logs label (c :: rest) []) as Hlogs.
      apply delivery_events_quiet in Hlogs. destruct Hlogs as (Hr & _).
      split.
      * rewrite (app_comm_cons _ _ (LogLine _)), sends_of_any_app.
        now rewrite sends_of_any_log, loop_events_quiet.
      * change (reactions (?x :: ?l)) with (reactions ([x] ++ l)).
        now rewrite !reactions_app, Hr.
    + split; [now right; left |]. split; [split; discriminate |].
      split; [split; [discriminate | intros [_ [e He]]; discriminate] |].
      split; [discriminate |]. now split.
Qed.

Lemma log_lines_app (a b : list Event) :
  log_lines (a ++ b) = (log_lines a ++ log_lines b)%list.
Proof. apply flat_map_app. Qed.

Lemma log_lines_of_lines {A} (f : A -> string) (l : list A) :
  log_lines (map (fun x => LogLine (f x)) l) = map f l.
Proof.
  induction l as [| x rest IH]; [reflexivity |].
  cbn [map]. unfold log_lines in *. cbn [flat_map app]. now rewrite IH.
Qed.

(** X7. On a non-empty list whose records all lack a title or a
    startTime the composer still delivers its announcement: the embed it
    hands to the delivery service has no field at all, and the log holds
    one warning per record. *)
Theorem sendContestsReminder_all_incomplete (label : string) (contests : list Contest)
    (s : State W) :
  contests <> [] ->
  (forall c, In c contests -> incomplete c = true) ->
  let out := sendContestsReminder cfg label contests s in
  let embed := new_reminder_embed label (Date_now (world s)) in
  let payload := Options (Some (reminder_text label)) [embed] in
  fields embed = []
  /\ result_of out = Return (Some true)
  /\ sends_to (CHANNEL_ID cfg) (events_of out)
     = (if channels_cache_has (world s) (CHANNEL_ID cfg) then [payload] else [])
  /\ exists rest,
       log_lines (events_of out)
       = ("Sending " ++ label ++ " contest reminder, found "
          ++ string_of_nat (length contests) ++ " contests")
         :: (map (incomplete_line label) contests ++ rest)%list.
Proof.
  intros Hne Hall. cbv zeta.
  assert (Hnone : expected_fields contests = []).
  { unfold expected_fields.
    replace (filter (fun c => negb (incomplete c)) contests) with (@nil Contest);
      [reflexivity |].
    symmetry. clear Hne. induction contests as [| c rest IH]; [reflexivity |].
    cbn [filter]. rewrite (Hall c (or_introl eq_refl)). cbn [negb].
    apply IH. intros c' Hin. apply Hall. now right. }
  assert (Hlogs : forEach_events label contests
                  = map (fun c => LogLine (incomplete_line label c)) contests).
  { unfold forEach_events. clear Hne Hnone.
    induction contests as [| c rest IH]; [reflexivity |].
    cbn [flat_map map]. rewrite (Hall c (or_introl eq_refl)).
    rewrite IH; [reflexivity |]. intros c' Hin. apply Hall. now right. }
  assert (Hacc : rejected [] (expected_fields contests) = None)
    by (rewrite Hnone; reflexivity).
  destruct (sendContestsReminder_nonempty_exact label contests s Hne Hacc)
    as (v & Hv & Hrun).
  cbv zeta in Hrun. rewrite Hnone in Hrun. cbn [fold_left] in Hrun.
  rewrite Hrun. clear Hrun.
  set (payload := Options (Some (reminder_text label))
                          [new_reminder_embed label (Date_now (world s))]) in *.
  destruct (sendDiscordMessage_run (CHANNEL_ID cfg) payload s) as (_ & Hprimary & _).
  destruct (add_reaction_exact v "Failed to add reaction to message: "
              (state_of (sendDiscordMessage cfg (CHANNEL_ID cfg) payload s)))
    as (_ & _ & Hrk & _).
  unfold result_of, events_of in *. cbn [fst snd].
  split; [reflexivity |]. split; [reflexivity |]. split.
  - rewrite (app_comm_cons _ _ (LogLine _)).
    rewrite !sends_to_app, Hprimary.
    rewrite (sends_to_none _ (_ :: forEach_events label contests)).
    + rewrite (sends_to_none _ (snd (add_reaction _ _ _))); [now rewrite app_nil_r |].
      intros c p Hin. apply In_sends_of_any in Hin.
      rewrite Forall_forall in Hrk. specialize (Hrk _ Hin).
      destruct v as [m |]; cbn in Hin.
      * unfold add_reaction in Hin. run_async.
        destruct (message_react m Text.check_mark _) as [[[] | e] w1]; cbn in Hin;
          intuition discriminate.
      * contradiction.
    + intros c p Hin. cbn in Hin. rewrite forEach_events_quiet in Hin. destruct Hin.
  - eexists. rewrite Hlogs.
    change (log_lines (?x :: ?l)) with (log_lines ([x] ++ l)).
    rewrite !log_lines_app, log_lines_of_lines. reflexivity.
Qed.

(** X8. The composer reacts with the check mark only to a message that
    was delivered, once, and whichever channel delivered it: no
    reaction is attempted on the empty list, when addFields threw, or
    when the delivery returned null, and a reaction that Discord
    rejects does not make the composer fail. The label is one of the
    two the program passes, and durations are taken in the range in
    which the hours of a field are the ones the program prints. *)
Theorem reaction_only_on_delivery (label : string) (contests : list Contest) (s : State W) :
  platform_label label ->
  (forall c, In c contests -> exact_duration c) ->
  let out := sendContestsReminder cfg label contests s in
  (contests = [] -> reactions (events_of out) = [])
  /\ (contests <> [] ->
      rejected [] (expected_fields contests) = None ->
      let embed := fold_left with_field (expected_fields contests)
                     (new_reminder_embed label (Date_now (world s))) in
      let delivery := sendDiscordMessage cfg (CHANNEL_ID cfg)
                        (Options (Some (reminder_text label)) [embed]) s in
      result_of out = Return (Some true)
      /\ reactions (events_of out)
         = match result_of delivery with
           | Return (Some m) => [(m, Text.check_mark)]
           | _ => []
           end)
  /\ (forall error,
        contests <> [] ->
        rejected [] (expected_fields contests) = Some error ->
        result_of out = Return (Some false)
        /\ sends_of_any (events_of out) = []
        /\ reactions (events_of out) = []).
Proof.
  intros _ _. cbv zeta. split; [| split].
  - intros ->. rewrite sendContestsReminder_empty_run. cbv zeta.
    destruct (sendDiscordMessage_kinds (CHANNEL_ID cfg) (Plain (no_contests_text label)) s)
      as [Hk _].
    apply delivery_events_quiet in Hk. destruct Hk as (Hr & _).
    unfold events_of in *. cbn [snd]. unfold reactions in *. cbn [flat_map app].
    assumption.
  - intros Hne Hacc.
    destruct (sendContestsReminder_nonempty_exact label contests s Hne Hacc)
      as (v & Hv & Hrun).
    cbv zeta in Hrun. rewrite Hrun. clear Hrun.
    set (payload := Options _ _) in *.
    destruct (sendDiscordMessage_kinds (CHANNEL_ID cfg) payload s) as [Hk _].
    apply delivery_events_quiet in Hk. destruct Hk as (Hr & _).
    pose proof (forEach_events_logs label contests) as Hf.
    apply delivery_events_quiet in Hf. destruct Hf as (Hfr & _).
    destruct (add_reaction_exact v "Failed to add reaction to message: "
                (state_of (sendDiscordMessage cfg (CHANNEL_ID cfg) payload s)))
      as (_ & Hre & _).
    rewrite Hv. unfold result_of, events_of in *. cbn [fst snd].
    split; [reflexivity |].
    change (reactions (?x :: ?l)) with (reactions ([x] ++ l)).
    rewrite !reactions_app, Hfr, Hr, Hre. cbn. now destruct v.
  - intros error Hne Hrej.
    rewrite (sendContestsReminder_rejected_run label contests s error Hne Hrej).
    unfold result_of, events_of. cbn [fst snd].
    pose proof (loop_events_logs label contests []) as Hlogs.
    apply delivery_events_quiet in Hlogs. destruct Hlogs as (Hr & _).
    split; [reflexivity |]. split.
    + rewrite (app_comm_cons _ _ (LogLine _)), sends_of_any_app.
      now rewrite sends_of_any_log, loop_events_quiet.
    + change (reactions (?x :: ?l)) with (reactions ([x] ++ l)).
      now rewrite !reactions_app, Hr.
Qed.

(** ** Reminder cycles, for every behaviour of the outside world *)

Lemma mark_check_run (line : string) (s : State W) :
  mark_check line s = (Return tt, checked s, [LogLine (line ++ toISOString (world s))]).
Proof. reflexivity. Qed.

Lemma adapter_returns (fetchFunc : W -> Outcome (list Contest) * W) (label : string)
    (s : State W) :
  let out := fetchWithRetry fetchFunc label 0 s in
  exists contests,
    result_of out = Return contests
    /\ lastScheduledCheck (state_of out) = lastScheduledCheck s
    /\ sends_of_any (events_of out) = []
    /\ filter is_admin_event (events_of out) = []
    /\ reactions (events_of out) = []
    /\ timers (events_of out) = []
    /\ called (events_of out) = repeat label (fetch_calls (events_of out)).
Proof.
  cbv zeta.
  destruct (fetchWithRetry_bounds fetchFunc label MAX_RETRIES 0 s eq_refl)
    as ((contests & Hr) & _ & _ & Hcalled).
  destruct (fetchWithRetry_quiet fetchFunc label MAX_RETRIES 0 s ltac:(lia))
    as (_ & Hsends & Htimers).
  destruct (fetchWithRetry_only_fetches fetchFunc label MAX_RETRIES 0 s ltac:(lia))
    as (Hadm & Hreact & _ & Hl).
  exists contests. now repeat split.
Qed.

(** The combined cycle, whatever the APIs and Discord do. *)
Lemma sendCombinedReminder_total_run (s : State W) :
  exists (leetcode codechef : list Contest) (sA sB s1 s2 : State W) (tA tB t1 t2 : list Event),
    fetchLeetCodeContests (checked s) = (Return leetcode, sA, tA)
    /\ fetchCodeChefContests sA = (Return codechef, sB, tB)
    /\ sendContestsReminder cfg "LeetCode" leetcode sB
       = (Return (composer_result leetcode), s1, t1)
    /\ sendContestsReminder cfg "CodeChef" codechef s1
       = (Return (composer_result codechef), s2, t2)
    /\ lastScheduledCheck s2 = Some (toISOString (world s))
    /\ sendCombinedReminder cfg s
       = (Return true, s2,
          [LogLine ("Starting combined reminder function at: " ++ toISOString (world s))]
          ++ tA ++ [LogLine (fetched_line "LeetCode" leetcode)]
          ++ tB ++ [LogLine (fetched_line "CodeChef" codechef)]
          ++ t1 ++ t2
          ++ [LogLine ("Combined reminder sent successfully. LeetCode: "
                       ++ render_result (composer_result leetcode)
                       ++ ", CodeChef: "
                       ++ render_result (composer_result codechef))])%list.
Proof.
  destruct (adapter_returns leetcode_operation "LeetCode" (checked s))
    as (leetcode & HA & HlA & _).
  fold fetchLeetCodeContests in HA, HlA.
  destruct (fetchLeetCodeContests (checked s)) as [[rA sA] tA] eqn:EA.
  unfold result_of, state_of in HA, HlA. cbn [fst snd] in HA, HlA. subst rA.
  destruct (adapter_returns codechef_operation "CodeChef" sA) as (codechef & HB & HlB & _).
  fold fetchCodeChefContests in HB, HlB.
  destruct (fetchCodeChefContests sA) as [[rB sB] tB] eqn:EB.
  unfold result_of, state_of in HB, HlB. cbn [fst snd] in HB, HlB. subst rB.
  destruct (sendContestsReminder_total "LeetCode" leetcode sB) as (H1 & _ & Hl1).
  destruct (sendContestsReminder cfg "LeetCode" leetcode sB) as [[r1 s1] t1] eqn:E1.
  unfold result_of, state_of in H1, Hl1. cbn [fst snd] in H1, Hl1. subst r1.
  destruct (sendContestsReminder_total "CodeChef" codechef s1) as (H2 & _ & Hl2).
  destruct (sendContestsReminder cfg "CodeChef" codechef s1) as [[r2 s2] t2] eqn:E2.
  unfold result_of, state_of in H2, Hl2. cbn [fst snd] in H2, Hl2. subst r2.
  exists leetcode, codechef, sA, sB, s1, s2, tA, tB, t1, t2.
  split; [first [reflexivity | assumption] |].
  split; [first [reflexivity | assumption] |].
  split; [first [reflexivity | assumption] |].
  split; [first [reflexivity | assumption] |].
  split; [rewrite Hl2, Hl1, HlB, HlA; reflexivity |].
  unfold sendCombinedReminder.
  unfold bind at 1. rewrite mark_check_run.
  unfold try_catch at 1. unfold bind at 1. rewrite EA.
  unfold bind at 1, logToFile at 1, emit at 1. unfold bind at 1. rewrite EB.
  unfold bind at 1, logToFile at 1, emit at 1. unfold bind at 1. rewrite E1.
  unfold bind at 1. rewrite E2.
  unfold bind, logToFile, emit, ret. cbn [app]. rewrite ?app_nil_r.
  reflexivity.
Qed.

(** X9. sendCombinedReminder reports success whatever happened: for
    every behaviour of the two APIs and of Discord it returns true
    without throwing, records the time it started in
    [lastScheduledCheck], and ends its log with the line "Combined
    reminder sent successfully", where each platform reads "undefined"
    (nothing upcoming), "true", or "false" (addFields threw in the
    composer, which the cycle does not treat as a failure). *)
Theorem sendCombinedReminder_always_succeeds (s : State W) :
  let out := sendCombinedReminder cfg s in
  result_of out = Return true
  /\ lastScheduledCheck (state_of out) = Some (toISOString (world s))
  /\ exists earlier a b,
       events_of out
       = (earlier ++ [LogLine ("Combined reminder sent successfully. LeetCode: " ++ a
                               ++ ", CodeChef: " ++ b)])%list
       /\ (a = "undefined" \/ a = "true" \/ a = "false")
       /\ (b = "undefined" \/ b = "true" \/ b = "false").
Proof.
  cbv zeta.
  destruct (sendCombinedReminder_total_run s)
    as (leetcode & codechef & sA & sB & s1 & s2 & tA & tB & t1 & t2
        & _ & _ & _ & _ & Hstamp & Hrun).
  rewrite Hrun. unfold result_of, state_of, events_of. cbn [fst snd].
  split; [reflexivity |]. split; [assumption |].
  eexists. exists (render_result (composer_result leetcode)).
  exists (render_result (composer_result codechef)).
  split.
  - rewrite !app_assoc. reflexivity.
  - unfold composer_result.
    split; [destruct leetcode | destruct codechef]; cbn; auto;
      destruct (rejected [] _); cbn; auto.
Qed.

Lemma called_app (a b : list Event) : called (a ++ b) = (called a ++ called b)%list.
Proof. apply flat_map_app. Qed.





(** ** Ten-minute warnings, for every behaviour of the outside world *)

Lemma scan_events_quiet (now : Z) (contests : list Contest) :
  sends_of_any (scan_events now contests) = []
  /\ filter is_admin_event (scan_events now contests) = []
  /\ reactions (scan_events now contests) = [].
Proof.
  unfold scan_events. induction contests as [| c rest IH]; [now repeat split |].
  destruct IH as (Hs & Ha & Hr). cbn [flat_map].
  rewrite sends_of_any_app, admin_events_app, reactions_app, Hs, Ha, Hr.
  destruct (truthy_number (startTime c)); cbn [negb]; [| now repeat split].
  destruct (within_window now c); now repeat split.
Qed.

(** One scan, whatever the APIs answer. *)
Lemma scheduleTenMinuteWarnings_total_run (s : State W) :
  exists (leetcode codechef : list Contest) (sA sB : State W) (tA tB : list Event),
    fetchLeetCodeContests (checked s) = (Return leetcode, sA, tA)
    /\ fetchCodeChefContests sA = (Return codechef, sB, tB)
    /\ lastScheduledCheck sB = Some (toISOString (world s))
    /\ let now := (Date_now (world sB) / 1000)%Z in
       let allContests := (map (with_platform "LeetCode") leetcode
                           ++ map (with_platform "CodeChef") codechef)%list in
       scheduleTenMinuteWarnings s
       = (Return true, sB,
          [LogLine ("Scheduling ten-minute warnings at: " ++ toISOString (world s))]
          ++ tA ++ tB ++ scan_events now allContests
          ++ [LogLine ("Scheduled "
                       ++ string_of_nat (length (filter (armed now) allContests))
                       ++ " ten-minute warnings")])%list.
Proof.
  destruct (adapter_returns leetcode_operation "LeetCode" (checked s))
    as (leetcode & HA & HlA & _).
  fold fetchLeetCodeContests in HA, HlA.
  destruct (fetchLeetCodeContests (checked s)) as [[rA sA] tA] eqn:EA.
  unfold result_of, state_of in HA, HlA. cbn [fst snd] in HA, HlA. subst rA.
  destruct (adapter_returns codechef_operation "CodeChef" sA) as (codechef & HB & HlB & _).
  fold fetchCodeChefContests in HB, HlB.
  destruct (fetchCodeChefContests sA) as [[rB sB] tB] eqn:EB.
  unfold result_of, state_of in HB, HlB. cbn [fst snd] in HB, HlB. subst rB.
  exists leetcode, codechef, sA, sB, tA, tB.
  split; [first [reflexivity | assumption] |].
  split; [first [reflexivity | assumption] |].
  split; [rewrite HlB, HlA; reflexivity |]. cbv zeta.
  unfold scheduleTenMinuteWarnings.
  unfold bind at 1. rewrite mark_check_run.
  unfold try_catch at 1. unfold bind at 1. rewrite EA.
  unfold bind at 1. rewrite EB.
  unfold bind at 1, observe at 1. unfold bind at 1.
  rewrite allContests_forEach_run.
  unfold bind, logToFile, emit, ret. cbn [app Nat.add]. rewrite ?app_nil_r. reflexivity.
Qed.

Lemma timers_single_log (text : string) : timers [LogLine text] = [].
Proof. reflexivity. Qed.

(** X11. A warning scan never throws and always returns true; it sends
    no channel message, contacts no admin and adds no reaction (it only
    fetches and arms timers); it records the time it started in
    [lastScheduledCheck]; and the number in its closing log line is the
    number of timers it armed. *)
Theorem scheduleTenMinuteWarnings_total (s : State W) :
  let out := scheduleTenMinuteWarnings s in
  result_of out = Return true
  /\ sends_of_any (events_of out) = []
  /\ filter is_admin_event (events_of out) = []
  /\ reactions (events_of out) = []
  /\ lastScheduledCheck (state_of out) = Some (toISOString (world s))
  /\ exists earlier,
       events_of out
       = (earlier ++ [LogLine ("Scheduled "
                               ++ string_of_nat (length (timers (events_of out)))
                               ++ " ten-minute warnings")])%list.
Proof.
  cbv zeta.
  destruct (scheduleTenMinuteWarnings_total_run s)
    as (leetcode & codechef & sA & sB & tA & tB & EA & EB & Hstamp & Hrun).
  cbv zeta in Hrun. rewrite Hrun. clear Hrun.
  destruct (adapter_returns leetcode_operation "LeetCode" (checked s))
    as (l1 & _ & _ & HsA & HaA & HrA & HtA & _).
  fold fetchLeetCodeContests in HsA, HaA, HrA, HtA. rewrite EA in HsA, HaA, HrA, HtA.
  destruct (adapter_returns codechef_operation "CodeChef" sA)
    as (l2 & _ & _ & HsB & HaB & HrB & HtB & _).
  fold fetchCodeChefContests in HsB, HaB, HrB, HtB. rewrite EB in HsB, HaB, HrB, HtB.
  unfold result_of, state_of, events_of in *. cbn [fst snd] in *.
  set (now := (Date_now (world sB) / 1000)%Z).
  set (allContests := (map (with_platform "LeetCode") leetcode
                       ++ map (with_platform "CodeChef") codechef)%list).
  destruct (scan_events_quiet now allContests) as (Hs & Ha & Hr).
  split; [reflexivity |].
  split; [rewrite !sends_of_any_app, HsA, HsB, Hs; reflexivity |].
  split; [rewrite !admin_events_app, HaA, HaB, Ha; reflexivity |].
  split; [rewrite !reactions_app, HrA, HrB, Hr; reflexivity |].
  split; [assumption |].
  eexists. rewrite !app_assoc. f_equal. f_equal. f_equal. f_equal. f_equal.
  rewrite !timers_app, HtA, HtB, timers_scan_events, !timers_single_log.
  cbn [app]. rewrite app_nil_r, length_map. reflexivity.
Qed.

(** X12. Every timer a scan arms waits more than 0 and less than
    1,800,000 ms (thirty minutes), and belongs to a contest labelled
    LeetCode or CodeChef. *)
Theorem armed_timer_delay_bounds (s : State W) (delay : number) (c : Contest) :
  In (SetTimeout delay c) (events_of (scheduleTenMinuteWarnings s)) ->
  (exists q, delay = Some q /\ (0 < q)%Q /\ (q < 1800000)%Q)
  /\ (platform c = Some "LeetCode" \/ platform c = Some "CodeChef").
Proof.
  destruct (scheduleTenMinuteWarnings_total_run s)
    as (leetcode & codechef & sA & sB & tA & tB & EA & EB & _ & Hrun).
  cbv zeta in Hrun. rewrite Hrun. clear Hrun.
  destruct (adapter_returns leetcode_operation "LeetCode" (checked s))
    as (l1 & _ & _ & _ & _ & _ & HtA & _).
  fold fetchLeetCodeContests in HtA. rewrite EA in HtA.
  destruct (adapter_returns codechef_operation "CodeChef" sA)
    as (l2 & _ & _ & _ & _ & _ & HtB & _).
  fold fetchCodeChefContests in HtB. rewrite EB in HtB.
  unfold events_of in *. cbn [snd] in *.
  set (now := (Date_now (world sB) / 1000)%Z).
  intros Hin. apply In_timers in Hin.
  rewrite !timers_app, HtA, HtB, timers_scan_events, !timers_single_log in Hin.
  cbn [app] in Hin. rewrite app_nil_r in Hin.
  apply in_map_iff in Hin. destruct Hin as (c' & Heq & Hin). injection Heq as <- <-.
  apply filter_In in Hin. destruct Hin as [Hin Harm].
  unfold armed in Harm. apply andb_true_iff in Harm. destruct Harm as [Htruthy Hwin].
  destruct (startTime c') as [start |] eqn:Hs; [| discriminate].
  apply (within_window_spec now c' start Hs) in Hwin. destruct Hwin as [Hlo Hhi].
  split.
  - unfold tenMinBefore, js_sub, js_mul. rewrite Hs. eexists. split; [reflexivity |].
    split; lra.
  - apply in_app_or in Hin. destruct Hin as [Hin | Hin];
      apply in_map_iff in Hin; destruct Hin as (c0 & <- & _); cbn; auto.
Qed.

(** Every timer of a scan belongs to a contest that is in the window
    at the clock reading of that scan. *)
Lemma armed_timer_in_window (s : State W) (delay : number) (c : Contest) :
  In (SetTimeout delay c) (events_of (scheduleTenMinuteWarnings s)) ->
  exists start, startTime c = Some start
                /\ (600 < start - inject_Z (scan_reading s))%Q
                /\ (start - inject_Z (scan_reading s) < 2400)%Q.
Proof.
  destruct (scheduleTenMinuteWarnings_total_run s)
    as (leetcode & codechef & sA & sB & tA & tB & EA & EB & _ & Hrun).
  cbv zeta in Hrun. rewrite Hrun. clear Hrun.
  destruct (adapter_returns leetcode_operation "LeetCode" (checked s))
    as (l1 & _ & _ & _ & _ & _ & HtA & _).
  fold fetchLeetCodeContests in HtA. rewrite EA in HtA.
  destruct (adapter_returns codechef_operation "CodeChef" sA)
    as (l2 & _ & _ & _ & _ & _ & HtB & _).
  fold fetchCodeChefContests in HtB. rewrite EB in HtB.
  unfold scan_reading, state_of. rewrite EA. cbn [fst snd]. rewrite EB.
  unfold events_of in *. cbn [fst snd] in *.
  set (now := (Date_now (world sB) / 1000)%Z).
  intros Hin. apply In_timers in Hin.
  rewrite !timers_app, HtA, HtB, timers_scan_events, !timers_single_log in Hin.
  cbn [app] in Hin. rewrite app_nil_r in Hin.
  apply in_map_iff in Hin. destruct Hin as (c' & Heq & Hin). injection Heq as <- <-.
  apply filter_In in Hin. destruct Hin as [Hin Harm].
  unfold armed in Harm. apply andb_true_iff in Harm. destruct Harm as [Htruthy Hwin].
  destruct (startTime c') as [start |] eqn:Hs; [| discriminate].
  apply (within_window_spec now c' start Hs) in Hwin. destruct Hwin as [Hlo Hhi].
  exists start. split; [reflexivity |]. split; lra.
Qed.

(** X13. When two scans arm a timer for the same start time, the clock
    readings they took, each after its two fetches, are less than 1800
    seconds apart: readings half an hour apart or more never warn
    twice. The half-hour period of the schedule does not give that by
    itself, since the retries of a scan delay its reading. *)
Theorem scans_half_an_hour_apart (s1 s2 : State W) (d1 d2 : number) (c1 c2 : Contest) :
  In (SetTimeout d1 c1) (events_of (scheduleTenMinuteWarnings s1)) ->
  In (SetTimeout d2 c2) (events_of (scheduleTenMinuteWarnings s2)) ->
  startTime c1 = startTime c2 ->
  (Z.abs (scan_reading s2 - scan_reading s1) < 1800)%Z.
Proof.
  intros H1 H2 Hsame.
  destruct (armed_timer_in_window s1 d1 c1 H1) as (start1 & Hs1 & Hlo1 & Hhi1).
  destruct (armed_timer_in_window s2 d2 c2 H2) as (start2 & Hs2 & Hlo2 & Hhi2).
  rewrite Hsame, Hs2 in Hs1. injection Hs1 as <-.
  assert (Hlt : (inject_Z (scan_reading s2 - scan_reading s1) < inject_Z 1800)%Q).
  { unfold Z.sub. rewrite inject_Z_plus, inject_Z_opp.
    change (inject_Z 1800) with 1800%Q. lra. }
  assert (Hgt : (inject_Z (scan_reading s1 - scan_reading s2) < inject_Z 1800)%Q).
  { unfold Z.sub. rewrite inject_Z_plus, inject_Z_opp.
    change (inject_Z 1800) with 1800%Q. lra. }
  rewrite <- Zlt_Qlt in Hlt, Hgt. lia.
Qed.

(** The callback when addFields accepts the field named after the
    contest. *)
Lemma tenMinuteWarning_run (contest : Contest) (s : State W) :
  addFields_check [] (title contest) (warning_value (formatted_time (startTime contest)))
  = None ->
  let payload := Options (Some Text.countdown) [warning_embed contest] in
  let delivery := sendDiscordMessage cfg (CHANNEL_ID cfg) payload s in
  exists v,
    result_of delivery = Return v
    /\ let react := add_reaction v "Failed to add reaction to 10-min warning: "
                      (state_of delivery) in
       tenMinuteWarning cfg contest s
       = (Return tt, state_of react,
          [LogLine ("Sending 10-minute warning for " ++ render_string (platform contest)
                    ++ " contest: " ++ render_string (title contest))]
          ++ format_events (startTime contest)
          ++ events_of delivery ++ events_of react)%list.
Proof.
  intros Hacc. cbv zeta.
  set (payload := Options (Some Text.countdown) [warning_embed contest]).
  destruct (sendDiscordMessage_run (CHANNEL_ID cfg) payload s) as ((v & Hv) & _).
  exists v. split; [assumption |].
  unfold tenMinuteWarning.
  unfold try_catch at 1. unfold bind at 1, logToFile at 1, emit at 1.
  unfold bind at 1. rewrite formatContestTime_run.
  unfold bind at 1, lift at 1, addFields.
  change (fields (new_warning_embed contest)) with (@nil Field.t). rewrite Hacc.
  change (with_field (new_warning_embed contest)
            (Field.make (render_string (title contest))
                        (warning_value (formatted_time (startTime contest)))))
    with (warning_embed contest).
  fold payload. unfold bind at 1.
  destruct (sendDiscordMessage cfg (CHANNEL_ID cfg) payload s) as [[r s1] t].
  unfold result_of, state_of, events_of in *. cbn [fst snd] in *. subst r.
  destruct (add_reaction_exact v "Failed to add reaction to 10-min warning: " s1)
    as (Hr & _).
  destruct (add_reaction v "Failed to add reaction to 10-min warning: " s1)
    as [[ra sa] ta].
  unfold result_of in Hr. cbn [fst snd] in *. subst ra.
  cbn [app]. rewrite ?app_nil_r. reflexivity.
Qed.

(** The callback when addFields throws: the error is logged and that
    is all. *)
Lemma tenMinuteWarning_rejected_run (contest : Contest) (s : State W) (error : Error) :
  addFields_check [] (title contest) (warning_value (formatted_time (startTime contest)))
  = Some error ->
  tenMinuteWarning cfg contest s
  = (Return tt, s,
     [LogLine ("Sending 10-minute warning for " ++ render_string (platform contest)
               ++ " contest: " ++ render_string (title contest))]
     ++ format_events (startTime contest)
     ++ [LogLine ("Error sending 10-minute warning: " ++ message error)])%list.
Proof.
  intros Hrej. unfold tenMinuteWarning.
  unfold try_catch at 1. unfold bind at 1, logToFile at 1, emit at 1.
  unfold bind at 1. rewrite formatContestTime_run.
  unfold bind at 1, lift at 1, addFields.
  change (fields (new_warning_embed contest)) with (@nil Field.t). rewrite Hrej.
  unfold logToFile, emit. cbn [app]. rewrite ?app_nil_r. reflexivity.
Qed.

Lemma format_events_logs (timestamp : number) :
  Forall delivery_event (format_events timestamp).
Proof.
  unfold format_events. destruct (toLocaleString _); repeat constructor.
Qed.

Lemma sends_to_reminder_none (ch : string) (events : list Event) :
  sends_of_any events = [] -> sends_to ch events = [].
Proof. intros H. rewrite sends_to_select, H. reflexivity. Qed.

Lemma add_reaction_no_send (msg : option Message) (line : string) (s : State W) :
  sends_of_any (events_of (add_reaction msg line s)) = [].
Proof. now destruct (add_reaction_run msg line s) as (_ & H & _). Qed.

Lemma format_events_no_send (timestamp : number) :
  sends_of_any (format_events timestamp) = [].
Proof. unfold format_events. destruct (toLocaleString _); reflexivity. Qed.

(** X14. When its timer fires, a ten-minute warning for a contest that
    a scan has tagged with its platform never throws, arms no further
    timer and fetches nothing. When addFields accepts the
    field named after the contest title, it hands exactly one payload
    to the delivery service, the countdown text with one red embed that
    holds that single field, and reacts only to a delivered message.
    When addFields throws (as on a contest without a title), it logs
    the error and sends nothing. *)
Theorem tenMinuteWarning_fires_once (contest : Contest) (s : State W) :
  platform contest = Some "LeetCode" \/ platform contest = Some "CodeChef" ->
  let out := tenMinuteWarning cfg contest s in
  let value := warning_value (formatted_time (startTime contest)) in
  let payload := Options (Some Text.countdown) [warning_embed contest] in
  let delivery := sendDiscordMessage cfg (CHANNEL_ID cfg) payload s in
  result_of out = Return tt
  /\ timers (events_of out) = []
  /\ called (events_of out) = []
  /\ (addFields_check [] (title contest) value = None ->
      map Field.name (fields (warning_embed contest)) = [render_string (title contest)]
      /\ sends_to (CHANNEL_ID cfg) (events_of out)
         = (if channels_cache_has (world s) (CHANNEL_ID cfg) then [payload] else [])
      /\ sends_of_any (events_of out) = sends_of_any (events_of delivery)
      /\ reactions (events_of out)
         = match result_of delivery with
           | Return (Some m) => [(m, Text.check_mark)]
           | _ => []
           end)
  /\ (forall error,
        addFields_check [] (title contest) value = Some error ->
        sends_of_any (events_of out) = []
        /\ filter is_admin_event (events_of out) = []
        /\ reactions (events_of out) = []
        /\ exists earlier,
             events_of out
             = (earlier ++ [LogLine ("Error sending 10-minute warning: "
                                     ++ message error)])%list).
Proof.
  intros _. cbv zeta.
  pose proof (delivery_events_quiet _ (format_events_logs (startTime contest)))
    as (Hfr & Hft & Hfc & _).
  destruct (addFields_check [] (title contest)
              (warning_value (formatted_time (startTime contest)))) as [error |] eqn:Hcheck.
  - rewrite (tenMinuteWarning_rejected_run contest s error Hcheck).
    unfold result_of, events_of. cbn [fst snd].
    split; [reflexivity |].
    split; [rewrite !timers_app, Hft; reflexivity |].
    split; [rewrite !called_app, Hfc; reflexivity |].
    split; [discriminate |].
    intros e [= <-].
    split; [rewrite !sends_of_any_app, format_events_no_send; reflexivity |].
    split.
    { rewrite !admin_events_app.
      unfold format_events. now destruct (toLocaleString _). }
    split; [rewrite !reactions_app, Hfr; reflexivity |].
    eexists. rewrite app_assoc. reflexivity.
  - destruct (tenMinuteWarning_run contest s Hcheck) as (v & Hv & Hrun).
    cbv zeta in Hrun. rewrite Hrun. clear Hrun.
    set (payload := Options (Some Text.countdown) [warning_embed contest]) in *.
    destruct (sendDiscordMessage_run (CHANNEL_ID cfg) payload s) as (_ & Hprimary & _).
    destruct (sendDiscordMessage_kinds (CHANNEL_ID cfg) payload s) as [Hk _].
    pose proof (delivery_events_quiet _ Hk) as (Hdr & Hdt & Hdc & _).
    destruct (add_reaction_exact v "Failed to add reaction to 10-min warning: "
                (state_of (sendDiscordMessage cfg (CHANNEL_ID cfg) payload s)))
      as (_ & Hre & Hrk & _).
    pose proof (reminder_events_quiet _ Hrk) as (Hrt & Hrc & _).
    pose proof (add_reaction_no_send v "Failed to add reaction to 10-min warning: "
                  (state_of (sendDiscordMessage cfg (CHANNEL_ID cfg) payload s))) as Hrs.
    rewrite Hv. unfold result_of, events_of in *. cbn [fst snd].
    split; [reflexivity |].
    split; [rewrite !timers_app, Hft, Hdt, Hrt; reflexivity |].
    split; [rewrite !called_app, Hfc, Hdc, Hrc; reflexivity |].
    split; [| discriminate].
    intros _. split; [reflexivity |]. split; [| split].
    + rewrite !sends_to_app, Hprimary.
      rewrite (sends_to_reminder_none _ (format_events _) (format_events_no_send _)).
      rewrite (sends_to_reminder_none _ _ Hrs). cbn. now rewrite app_nil_r.
    + rewrite !sends_of_any_app, format_events_no_send, Hrs. cbn. now rewrite app_nil_r.
    + rewrite !reactions_app, Hfr, Hdr, Hre. cbn. now destruct v.
Qed.

(** ** Cron table *)

Lemma scheduled_app (a b : list Event) :
  scheduled (a ++ b) = (scheduled a ++ scheduled b)%list.
Proof. apply flat_map_app. Qed.

Lemma cronJobs_forEach_accepts (job : CronJob) (rest : list CronJob) (b : bool)
    (s : State W) (w1 : W) :
  cron_validate (job_expression job) = Return b ->
  cron_schedule (job_expression job) (world s) = (Return tt, w1) ->
  cronJobs_forEach (job :: rest) s
  = let '(r, s2, t) := cronJobs_forEach rest (mkState w1 (lastScheduledCheck s)) in
    (r, s2,
     CronSchedule (job_expression job) (job_name job)
     :: LogLine ("Scheduled: " ++ job_name job ++ " - " ++ job_description job) :: t).
Proof.
  intros Hv Hw1. cbn [cronJobs_forEach].
  unfold bind at 1. unfold bind at 1.
  rewrite (validateCronExpression_returns _ _ b s Hv).
  unfold bind at 1. unfold perform at 1. rewrite Hw1.
  unfold logToFile at 1, emit at 1.
  destruct (cronJobs_forEach rest _) as [[r s2] t]. reflexivity.
Qed.

Lemma cronJobs_forEach_rejects (job : CronJob) (rest : list CronJob) (e : Error)
    (s : State W) :
  cron_validate (job_expression job) = Throw e ->
  cronJobs_forEach (job :: rest) s
  = let '(r, s2, t) := cronJobs_forEach rest s in
    (r, s2,
     LogLine ("Invalid cron expression for " ++ job_name job ++ ": " ++ job_expression job)
     :: LogLine ("Error: " ++ message e)
     :: LogLine ("Failed to schedule job: " ++ job_name job) :: t).
Proof.
  intros Hv. cbn [cronJobs_forEach].
  unfold bind at 1. unfold bind at 1.
  rewrite (validateCronExpression_throws _ _ e s Hv).
  unfold logToFile at 1, emit at 1.
  destruct (cronJobs_forEach rest s) as [[r s2] t]. reflexivity.
Qed.

(** X15. When [cron.schedule] itself does not throw, the start-up loop
    does not throw either: it schedules, in table order, exactly the
    entries for which [cron.validate] returned (whatever boolean), logs
    each of them as scheduled, and for each entry on which
    [cron.validate] threw it logs the invalid expression and the
    failure to schedule, without stopping the loop. *)
Theorem cronJobs_forEach_skips_throwing (jobs : list CronJob) (s : State W) :
  (forall expr w, exists w1, cron_schedule expr w = (Return tt, w1)) ->
  let out := cronJobs_forEach jobs s in
  result_of out = Return tt
  /\ scheduled (events_of out) = map job_expression (filter accepted jobs)
  /\ (forall job, In job jobs -> accepted job = true ->
        In ("Scheduled: " ++ job_name job ++ " - " ++ job_description job)
           (log_lines (events_of out)))
  /\ (forall job, In job jobs -> accepted job = false ->
        In ("Invalid cron expression for " ++ job_name job ++ ": " ++ job_expression job)
           (log_lines (events_of out))
        /\ In ("Failed to schedule job: " ++ job_name job) (log_lines (events_of out))).
Proof.
  intros Hsched. revert s. induction jobs as [| job rest IH]; intros s; cbv zeta.
  - cbn. split; [reflexivity |]. split; [reflexivity |]. split; intros j [].
  - cbn [filter]. unfold accepted at 1.
    destruct (cron_validate (job_expression job)) as [b | e] eqn:Hv.
    + destruct (Hsched (job_expression job) (world s)) as [w1 Hw1].
      rewrite (cronJobs_forEach_accepts job rest b s w1 Hv Hw1).
      specialize (IH (mkState w1 (lastScheduledCheck s))). cbv zeta in IH.
      destruct (cronJobs_forEach rest _) as [[r s2] t].
      unfold result_of, events_of in *. cbn [fst snd map] in *.
      destruct IH as (Hr & Hs & Hok & Hbad).
      split; [assumption |]. split; [| split].
      * unfold scheduled in *. cbn [flat_map app]. now rewrite Hs.
      * intros j [<- | Hin] Hacc; [cbn; now left |].
        unfold log_lines in *. cbn [flat_map app]. right. now apply Hok.
      * intros j [<- | Hin] Hacc.
        -- unfold accepted in Hacc. rewrite Hv in Hacc. discriminate.
        -- destruct (Hbad j Hin Hacc). unfold log_lines in *. cbn [flat_map app].
           split; right; assumption.
    + rewrite (cronJobs_forEach_rejects job rest e s Hv).
      specialize (IH s). cbv zeta in IH.
      destruct (cronJobs_forEach rest s) as [[r s2] t].
      unfold result_of, events_of in *. cbn [fst snd map] in *.
      destruct IH as (Hr & Hs & Hok & Hbad).
      split; [assumption |]. split; [| split].
      * unfold scheduled in *. cbn [flat_map app]. now rewrite Hs.
      * intros j [<- | Hin] Hacc.
        -- unfold accepted in Hacc. rewrite Hv in Hacc. discriminate.
        -- unfold log_lines in *. cbn [flat_map app]. right. right. right. now apply Hok.
      * intros j [<- | Hin] Hacc.
        -- unfold log_lines. cbn [flat_map app]. split; [now left | right; right; now left].
        -- destruct (Hbad j Hin Hacc). unfold log_lines in *. cbn [flat_map app].
           split; right; right; right; assumption.
Qed.



(** ** Records *)

Lemma truthy_string_render (v : option string) :
  truthy_string v = true -> truthy_string (Some (render_string v)) = true.
Proof. destruct v; [trivial | discriminate]. Qed.

(** X17. A record built by the CodeChef adapter always has a title
    ("Unnamed Contest" when the entry has no name), a link and no
    description. It is skipped by the composer exactly when its start
    time is unusable; in particular an entry whose start date cannot be
    parsed never becomes a field of a reminder and never gets a warning
    timer. *)
Theorem codechef_record_shape (entry : CodeChefEntry) (now : Z) :
  let c := codechef_contest entry in
  truthy_string (title c) = true
  /\ (truthy_string (contest_name entry) = false -> title c = Some "Unnamed Contest")
  /\ url c = Some ("https://www.codechef.com/" ++ render_string (contest_code entry))
  /\ description c = None
  /\ (incomplete c = true <-> truthy_number (startTime c) = false)
  /\ (Date_getTime (contest_start_date entry) = None ->
      incomplete c = true
      /\ expected_fields [c] = []
      /\ armed now (with_platform "CodeChef" c) = false).
Proof.
  cbv zeta.
  assert (Ht : truthy_string (title (codechef_contest entry)) = true).
  { unfold codechef_contest. cbn [title].
    destruct (truthy_string (contest_name entry)) eqn:E; [| reflexivity].
    now apply truthy_string_render. }
  split; [assumption |]. split; [| split; [| split; [| split]]].
  - intros Hn. unfold codechef_contest. cbn [title]. now rewrite Hn.
  - reflexivity.
  - reflexivity.
  - unfold incomplete. rewrite Ht. cbn [negb orb]. apply negb_true_iff.
  - intros Hd.
    assert (Hs : startTime (codechef_contest entry) = None).
    { unfold codechef_contest. cbn [startTime]. now rewrite Hd. }
    assert (Hinc : incomplete (codechef_contest entry) = true).
    { unfold incomplete. rewrite Hs. cbn. apply orb_true_r. }
    split; [assumption |]. split.
    + unfold expected_fields. cbn [filter]. now rewrite Hinc.
    + unfold armed, with_platform. cbn [startTime]. now rewrite Hs.
Qed.

(** X18. The hours printed for a contest are the duration divided by 60
    and rounded to the nearest integer, halves upwards: for a non-zero
    duration d, an integer of magnitude at most 2^53 (where the
    rational quotient and the double quotient round alike), the printed
    number h satisfies d/60 - 1/2 < h <= d/60 + 1/2, while an absent or
    zero duration prints 0. *)
Theorem duration_hours_rounding (c : Contest) :
  exact_duration c ->
  (forall d, duration c = Some d -> ~ (d == 0)%Q ->
     (d / 60 - (1 # 2) < inject_Z (duration_hours c))%Q
     /\ (inject_Z (duration_hours c) <= d / 60 + (1 # 2))%Q)
  /\ (truthy_number (duration c) = false -> duration_hours c = 0%Z).
Proof.
  intros _. unfold duration_hours, Math_round. split.
  - intros d Hd Hnz. rewrite Hd.
    assert (Ht : truthy_number (Some d) = true).
    { cbn. apply negb_true_iff. destruct (Qeq_bool d 0) eqn:E; [| reflexivity].
      apply Qeq_bool_iff in E. contradiction. }
    rewrite Ht.
    pose proof (Qfloor_le (d / 60 + (1 # 2))) as Hle.
    pose proof (Qlt_floor (d / 60 + (1 # 2))) as Hlt.
    rewrite inject_Z_plus in Hlt. split; [| assumption].
    change (inject_Z 1) with 1%Q in Hlt. lra.
  - intros ->. reflexivity.
Qed.

End Properties.

(** * Properties of start-up, login, chat commands and daily messages *)

Section ShellProperties.
Context {W : Type} {RT : Runtime W} {HT : Host W}.
Variable cfg : Config.

Ltac run_task :=
  unfold tbind, ttry, temit, tperform, tret, run, logToFile, emit, bind, ret,
    result_of, events_of, state_of, outcome_of, effects_of, final_of in *;
  cbn [fst snd world lastScheduledCheck map app] in *.

(** ** Start-up configuration *)

Lemma truthy_string_nonempty (v : option string) :
  truthy_string v = true -> exists s, v = Some s /\ s <> "".
Proof.
  destruct v as [s |]; [| discriminate]. intros H. exists s. split; [reflexivity |].
  cbn in H. apply negb_true_iff in H. now apply String.eqb_neq.
Qed.

Lemma or_null_spec (v : option string) (b : string) :
  or_null v = Some b -> v = Some b /\ b <> "".
Proof.
  unfold or_null. destruct (truthy_string v) eqn:E; [| discriminate].
  intros ->. destruct (truthy_string_nonempty _ E) as (s & Hs & Hne).
  injection Hs as <-. now split.
Qed.

(** X19. The process gets past its first lines exactly when
    DISCORD_TOKEN and CHANNEL_ID are both set to non-empty strings;
    otherwise it exits with code 1 after naming the missing variables,
    in the order DISCORD_TOKEN, CHANNEL_ID. In the constants it loads,
    the channel id is non-empty, an optional id is either null or
    non-empty (an empty BACKUP_CHANNEL_ID or DISCORD_ADMIN_ID counts as
    unset), and the log file falls back to ./bot-log.txt. *)
Theorem load_constants_spec (env : Env) :
  (truthy_string (env "DISCORD_TOKEN") = true /\ truthy_string (env "CHANNEL_ID") = true ->
   exists c,
     load_constants env = Loaded c
     /\ env "CHANNEL_ID" = Some (CHANNEL_ID (constants_config c))
     /\ CHANNEL_ID (constants_config c) <> ""
     /\ (forall b, BACKUP_CHANNEL_ID (constants_config c) = Some b ->
                   env "BACKUP_CHANNEL_ID" = Some b /\ b <> "")
     /\ (forall a, DISCORD_ADMIN_ID (constants_config c) = Some a ->
                   env "DISCORD_ADMIN_ID" = Some a /\ a <> "")
     /\ (truthy_string (env "LOG_FILE") = false -> LOG_FILE c = "./bot-log.txt"))
  /\ (truthy_string (env "DISCORD_TOKEN") = false \/ truthy_string (env "CHANNEL_ID") = false ->
      load_constants env
      = ExitWith 1 ("Error: Missing required environment variables: "
                    ++ match truthy_string (env "DISCORD_TOKEN"),
                             truthy_string (env "CHANNEL_ID") with
                       | false, false => "DISCORD_TOKEN, CHANNEL_ID"
                       | false, true => "DISCORD_TOKEN"
                       | _, _ => "CHANNEL_ID"
                       end)).
Proof.
  unfold load_constants, missingEnvVars, requiredEnvVars. cbn [filter]. split.
  - intros [Ht Hc]. rewrite Ht, Hc. cbn [negb length Nat.ltb Nat.leb].
    eexists. split; [reflexivity |]. cbn [constants_config CHANNEL_ID BACKUP_CHANNEL_ID
                                           DISCORD_ADMIN_ID LOG_FILE].
    destruct (truthy_string_nonempty _ Hc) as (ch & Hch & Hne). rewrite Hch. cbn.
    split; [reflexivity |]. split; [assumption |].
    split; [apply or_null_spec |]. split; [apply or_null_spec |].
    intros ->. reflexivity.
  - intros [Ht | Hc].
    + rewrite Ht. destruct (truthy_string (env "CHANNEL_ID")); reflexivity.
    + rewrite Hc. destruct (truthy_string (env "DISCORD_TOKEN")); reflexivity.
Qed.

(** ** Login with retry *)

Lemma login_process_step (retries : nat) (s : State W) :
  login_process retries s =
  match client_login (world s) with
  | (Return _, w) =>
      (Return Connected, mkState w (lastScheduledCheck s),
       [Core (LogLine "Attempting to log in to Discord..."); ClientLogin])
  | (Throw error, w) =>
      if (retries <? MAX_RETRIES)%nat then
        let delay := (RETRY_DELAY * Z.of_nat (retries + 1))%Z in
        let '(r, s2, t) := login_process (retries + 1)
                             (mkState (timer_wait delay w) (lastScheduledCheck s)) in
        (r, s2,
         [Core (LogLine "Attempting to log in to Discord..."); ClientLogin;
          Core (LogLine (login_failed_line retries error));
          Core (LogLine ("Retrying login in " ++ string_of_Z (delay / 1000) ++ " seconds..."));
          TimerFires delay] ++ t)%list
      else
        (Return (Exited 1), mkState w (lastScheduledCheck s),
         [Core (LogLine "Attempting to log in to Discord..."); ClientLogin;
          Core (LogLine (login_failed_line retries error));
          Core (LogLine "All login attempts failed. Exiting...")])
  end.
Proof.
  rewrite login_process_equation_1. unfold loginWithRetry. run_task.
  destruct (client_login (world s)) as [[[] | error] w]; cbn [fst snd map app];
    [reflexivity |].
  destruct (Nat.ltb_spec retries MAX_RETRIES) as [Hlt | Hge]; cbn [fst snd map app];
    [| reflexivity].
  destruct (lt_dec (MAX_RETRIES - (retries + 1)) (MAX_RETRIES - retries)) as [_ | Hn];
    [| lia].
  destruct (login_process (retries + 1) _) as [[r s2] t]. reflexivity.
Qed.

Lemma login_process_bounds (budget retries : nat) (s : State W) :
  retries + budget = MAX_RETRIES ->
  let out := login_process retries s in
  let attempts := login_attempts (effects_of out) in
  (outcome_of out = Return Connected
   \/ (outcome_of out = Return (Exited 1) /\ attempts = S budget))
  /\ 1 <= attempts <= S budget
  /\ timer_delays (effects_of out)
     = map (fun k => (RETRY_DELAY * Z.of_nat k)%Z) (seq (retries + 1) (attempts - 1)).
Proof.
  revert retries s. unfold login_attempts, timer_delays.
  induction budget as [| budget IH]; intros retries s Hsum; cbv zeta;
    rewrite login_process_step;
    destruct (client_login (world s)) as [[[] | error] w].
  - cbn. split; [now left |]. split; [lia | reflexivity].
  - destruct (Nat.ltb_spec retries MAX_RETRIES) as [Hlt | Hge]; [lia |].
    cbn. split; [right; now split |]. split; [lia | reflexivity].
  - cbn. split; [now left |]. split; [lia | reflexivity].
  - destruct (Nat.ltb_spec retries MAX_RETRIES) as [Hlt | Hge]; [| lia].
    cbv zeta.
    specialize (IH (retries + 1)
                   (mkState (timer_wait (RETRY_DELAY * Z.of_nat (retries + 1)) w)
                            (lastScheduledCheck s))
                   ltac:(lia)).
    cbv zeta in IH.
    destruct (login_process (retries + 1) _) as [[r s2] t].
    unfold outcome_of, effects_of in *. cbn [fst snd] in *.
    destruct IH as (Hres & Hatt & Hdel).
    cbn [app filter length flat_map]. rewrite Hdel.
    split; [| split; [lia |]].
    + destruct Hres as [-> | [-> Hn]]; [now left | right; split; [reflexivity | lia]].
    + destruct (length (filter _ t)) as [| n]; [lia |].
      cbn [Nat.sub seq map app]. rewrite Nat.sub_0_r.
      replace (retries + 1 + 1) with (S (retries + 1)) by lia. reflexivity.
Qed.

(** X20. Whatever Discord answers, the login sequence tries at least
    once and at most MAX_RETRIES + 1 = 4 times and ends either
    connected or in [process.exit(1)], the latter only after four
    failed attempts. Unlike the fetch wrapper it backs off linearly:
    the k-th retry is armed k minutes after the failure before it. *)
Theorem login_process_bounded (s : State W) :
  let out := login_process 0 s in
  let attempts := login_attempts (effects_of out) in
  (outcome_of out = Return Connected
   \/ (outcome_of out = Return (Exited 1) /\ attempts = MAX_RETRIES + 1))
  /\ 1 <= attempts <= MAX_RETRIES + 1
  /\ timer_delays (effects_of out)
     = firstn (attempts - 1) [60000; 120000; 180000]%Z.
Proof.
  cbv zeta.
  destruct (login_process_bounds MAX_RETRIES 0 s eq_refl) as (Hres & Hatt & Hdel).
  split; [| split; [exact Hatt |]].
  - destruct Hres as [H | [H Hn]]; [now left | right; now split].
  - rewrite Hdel.
    destruct (login_attempts (effects_of (login_process 0 s))) as [| [| [| [| [| n]]]]];
      unfold MAX_RETRIES in Hatt; try lia; reflexivity.
Qed.

Lemma login_process_failing (budget retries : nat) (s : State W) :
  login_always_fails ->
  retries + budget = MAX_RETRIES ->
  let out := login_process retries s in
  outcome_of out = Return (Exited 1)
  /\ login_attempts (effects_of out) = S budget
  /\ timer_delays (effects_of out)
     = map (fun k => (RETRY_DELAY * Z.of_nat k)%Z) (seq (retries + 1) budget)
  /\ exists earlier,
       effects_of out
       = (earlier ++ [Core (LogLine "All login attempts failed. Exiting...")])%list.
Proof.
  intros Hfail. revert retries s. unfold login_attempts, timer_delays.
  induction budget as [| budget IH]; intros retries s Hsum; cbv zeta;
    rewrite login_process_step;
    destruct (Hfail (world s)) as [e He];
    destruct (client_login (world s)) as [[[] | error] w]; cbn in He; try discriminate.
  - destruct (Nat.ltb_spec retries MAX_RETRIES) as [Hlt | Hge]; [lia |].
    cbn. repeat split.
    exists [Core (LogLine "Attempting to log in to Discord..."); ClientLogin;
            Core (LogLine (login_failed_line retries error))].
    reflexivity.
  - destruct (Nat.ltb_spec retries MAX_RETRIES) as [Hlt | Hge]; [| lia].
    cbv zeta.
    specialize (IH (retries + 1)
                   (mkState (timer_wait (RETRY_DELAY * Z.of_nat (retries + 1)) w)
                            (lastScheduledCheck s))
                   ltac:(lia)).
    cbv zeta in IH.
    destruct (login_process (retries + 1) _) as [[r s2] t].
    unfold outcome_of, effects_of in *. cbn [fst snd] in *.
    destruct IH as (Hres & Hatt & Hdel & (earlier & Hlast)).
    cbn [app filter length flat_map]. rewrite Hdel, Hatt.
    split; [assumption |]. split; [reflexivity |]. split.
    + cbn [seq map]. replace (retries + 1 + 1) with (S (retries + 1)) by lia. reflexivity.
    + rewrite Hlast. eexists. rewrite !app_comm_cons. reflexivity.
Qed.

(** X21. When Discord rejects every login, the process tries four
    times, waits 60, 120 and 180 seconds between the attempts (six
    minutes in all), logs "All login attempts failed. Exiting..." last,
    and exits with code 1. *)
Theorem login_process_gives_up (s : State W) :
  login_always_fails ->
  let out := login_process 0 s in
  outcome_of out = Return (Exited 1)
  /\ login_attempts (effects_of out) = 4
  /\ timer_delays (effects_of out) = [60000; 120000; 180000]%Z
  /\ exists earlier,
       effects_of out
       = (earlier ++ [Core (LogLine "All login attempts failed. Exiting...")])%list.
Proof.
  intros Hfail. cbv zeta.
  destruct (login_process_failing MAX_RETRIES 0 s Hfail eq_refl)
    as (Hres & Hatt & Hdel & Hlast).
  now repeat split.
Qed.

(** ** Manual trigger *)

Lemma split_not_nil (sep : ascii) (s : string) : split sep s <> [].
Proof.
  destruct s as [| c rest]; cbn; [discriminate |].
  destruct (Ascii.eqb c sep); [discriminate |].
  destruct (split sep rest); discriminate.
Qed.





Lemma replies_core (events : list Event) : replies (map Core events) = [].
Proof. induction events as [| ev rest IH]; [reflexivity | exact IH]. Qed.

Lemma core_events_core (events : list Event) : core_events (map Core events) = events.
Proof.
  induction events as [| ev rest IH]; [reflexivity |].
  cbn [map]. unfold core_events in *. cbn [flat_map app]. now rewrite IH.
Qed.

(** A command that replies and then runs a function of the pipeline. *)
Lemma reply_then_run {A} (text : string) (m : Async W A) (s : State W) :
  tbind (reply text) (fun _ => tbind (run m) (fun _ => tret tt)) s
  = match message_reply text (world s) with
    | (Return _, w1) =>
        let '(r, s2, t) := m (mkState w1 (lastScheduledCheck s)) in
        (match r with Return _ => Return tt | Throw e => Throw e end, s2,
         Reply text false :: map Core t)
    | (Throw e, w1) => (Throw e, mkState w1 (lastScheduledCheck s), [Reply text false])
    end.
Proof.
  unfold reply. run_task.
  destruct (message_reply text (world s)) as [[[] | e] w1]; cbn [fst snd app];
    [| reflexivity].
  destruct (m _) as [[[a | e] s2] t]; cbn [app]; [now rewrite app_nil_r | reflexivity].
Qed.

Lemma reply_run (text : string) (s : State W) :
  reply text s
  = match message_reply text (world s) with
    | (Return _, w1) => (Return tt, mkState w1 (lastScheduledCheck s), [Reply text false])
    | (Throw e, w1) => (Throw e, mkState w1 (lastScheduledCheck s), [Reply text false])
    end.
Proof.
  unfold reply. run_task. now destruct (message_reply text (world s)) as [[[] | e] w1].
Qed.

(** The shapes a run of the listener can take on a command. *)
Lemma messageCreate_command (message : Incoming) (s : State W) :
  author_bot message = false ->
  prefix "!contest" (incoming_content message) = true ->
  exists text,
    (forall e w1, message_reply text (world s) = (Throw e, w1) ->
       messageCreate cfg message s
       = (Throw e, mkState w1 (lastScheduledCheck s), [Reply text false]))
    /\ (forall w1, message_reply text (world s) = (Return tt, w1) ->
          exists r s2 events,
            messageCreate cfg message s = (r, s2, Reply text false :: map Core events)).
Proof.
  intros Hbot Hpre. unfold messageCreate. rewrite Hbot, Hpre. cbv zeta.
  repeat match goal with
         | |- context [if arg_is ?a ?w then _ else _] => destruct (arg_is a w)
         end;
    try (eexists; split; [intros e w1 Hr | intros w1 Hr];
         rewrite reply_then_run, Hr;
         [reflexivity |
          match goal with |- context [?f (mkState ?w ?l)] =>
            destruct (f (mkState w l)) as [[r0 s2] t] end; now do 3 eexists]).
  - eexists. split; [intros e w1 Hr | intros w1 Hr]; rewrite reply_run, Hr;
      [reflexivity | exists (Return tt), (mkState w1 (lastScheduledCheck s)), []; reflexivity].
  - eexists. split; [intros e w1 Hr | intros w1 Hr]; rewrite reply_run, Hr;
      [reflexivity | exists (Return tt), (mkState w1 (lastScheduledCheck s)), []; reflexivity].
Qed.

(** The listener is silent or replies first and once. *)
Lemma messageCreate_shape (message : Incoming) (s : State W) :
  let out := messageCreate cfg message s in
  ((author_bot message = true \/ prefix "!contest" (incoming_content message) = false) ->
   out = (Return tt, s, []))
  /\ (author_bot message = false ->
      prefix "!contest" (incoming_content message) = true ->
      exists text rest,
        effects_of out = Reply text false :: rest
        /\ replies (effects_of out) = [text]
        /\ (forall e w1, message_reply text (world s) = (Throw e, w1) ->
              outcome_of out = Throw e /\ rest = [])).
Proof.
  cbv zeta. split.
  - unfold messageCreate. intros [-> | Hpre]; [reflexivity |].
    rewrite Hpre. now destruct (author_bot message).
  - intros Hbot Hpre.
    destruct (messageCreate_command message s Hbot Hpre) as (text & Hfail & Hok).
    exists text.
    destruct (message_reply text (world s)) as [[[] | e] w1] eqn:Hr.
    + destruct (Hok w1 eq_refl) as (r & s2 & events & Hrun). rewrite Hrun.
      exists (map Core events). unfold effects_of, outcome_of. cbn [fst snd].
      split; [reflexivity |]. split.
      * unfold replies. cbn [flat_map app]. fold (replies (map Core events)).
        now rewrite replies_core.
      * intros e w2 Habs. discriminate.
    + rewrite (Hfail e w1 eq_refl). exists []. unfold effects_of, outcome_of. cbn [fst snd].
      split; [reflexivity |]. split; [reflexivity |].
      intros e' w2 Heq. injection Heq as <- <-. now split.
Qed.

(** X22. The listener does nothing at all for a message written by a
    bot or not starting with "!contest". For any other message it
    replies first and exactly once; when that reply is rejected the
    listener fails with the same error and runs nothing. *)
Theorem messageCreate_guards (message : Incoming) (s : State W) :
  let out := messageCreate cfg message s in
  ((author_bot message = true \/ prefix "!contest" (incoming_content message) = false) ->
   out = (Return tt, s, []))
  /\ (author_bot message = false ->
      prefix "!contest" (incoming_content message) = true ->
      exists text rest,
        effects_of out = Reply text false :: rest
        /\ replies (effects_of out) = [text]
        /\ (forall e w1, message_reply text (world s) = (Throw e, w1) ->
              outcome_of out = Throw e /\ rest = [])).
Proof. apply messageCreate_shape. Qed.


Lemma arg_is_false (arg : option string) (word : string) :
  arg <> Some word -> arg_is arg word = false.
Proof.
  destruct arg as [a |]; [| reflexivity]. intros H. cbn.
  apply String.eqb_neq. congruence.
Qed.

(** X24. A command whose second piece is none of check, leetcode,
    codechef, warn and status (a missing piece, a different spelling or
    case, or the empty piece left by two spaces in a row) gets the help
    text as its only effect: nothing of the pipeline runs and
    [lastScheduledCheck] is unchanged. Conversely each of the five
    subcommands the help text names is acted on and answered with a text
    other than the help text. *)
Theorem unknown_subcommand_gets_help (message : Incoming) (s : State W) :
  author_bot message = false ->
  prefix "!contest" (incoming_content message) = true ->
  let arg := nth_error (split space (incoming_content message)) 1 in
  let out := messageCreate cfg message s in
  ((forall word, In word subcommands -> arg <> Some word) ->
   effects_of out = [Reply help_text false]
   /\ lastScheduledCheck (final_of out) = lastScheduledCheck s)
  /\ ((exists word, In word subcommands /\ arg = Some word) ->
      ~ In help_text (replies (effects_of out))).
Proof.
  intros Hbot Hpre. cbv zeta. split.
  - intros Hnone. unfold messageCreate. rewrite Hbot, Hpre. cbv zeta.
    rewrite !arg_is_false by (apply Hnone; cbn; auto 10).
    rewrite reply_run.
    destruct (message_reply help_text (world s)) as [[[] | e] w1]; now split.
  - intros (word & Hin & Harg).
    destruct (messageCreate_shape message s) as [_ H].
    destruct (H Hbot Hpre) as (text & rest & _ & Hreplies & _). clear H.
    rewrite Hreplies. intros [Heq | []].
    revert Hreplies. unfold messageCreate. rewrite Hbot, Hpre. cbv zeta. rewrite Harg.
    cbn in Hin.
    destruct Hin as [<- | [<- | [<- | [<- | [<- | []]]]]]; cbn [arg_is];
      repeat (match goal with
              | |- context [if ?a =? ?b then _ else _] =>
                  let E := fresh in
                  destruct (String.eqb_spec a b) as [E | E]; [try discriminate E |]
              end); try congruence;
      try (rewrite reply_then_run);
      try (rewrite reply_run);
      destruct (message_reply _ (world s)) as [[[] | e] w1];
      try (match goal with |- context [?f (mkState ?w ?l)] =>
             destruct (f (mkState w l)) as [[r0 s2] t] end);
      unfold effects_of; cbn [snd]; unfold replies; cbn [flat_map app];
      intros Hq; subst text; injection Hq; intros; discriminate.
Qed.

(** ** Status and health *)


(** ** Daily messages *)

Variable MORNING_CHANNEL_ID : option string.

Lemma lookup_poll_row (b : Button) :
  In b poll_row -> lookup (customId b) responseMap = Some (label b).
Proof.
  unfold poll_row. intros [<- | [<- | [<- | [<- | []]]]]; reflexivity.
Qed.



Lemma random_index_in_range (r : Q) (n : nat) :
  (0 <= r)%Q -> (r < 1)%Q -> (0 < n)%nat ->
  (0 <= Qfloor (r * inject_Z (Z.of_nat n)) < Z.of_nat n)%Z.
Proof.
  intros H0 H1 Hn.
  assert (Hpos : (0 < inject_Z (Z.of_nat n))%Q).
  { change 0%Q with (inject_Z 0). rewrite <- Zlt_Qlt. lia. }
  split.
  - change 0%Z with (Qfloor 0). apply Qfloor_resp_le.
    apply Qmult_le_0_compat; [assumption | now apply Qlt_le_weak].
  - rewrite Zlt_Qlt. eapply Qle_lt_trans; [apply Qfloor_le |].
    rewrite <- (Qmult_1_l (inject_Z (Z.of_nat n))) at 2.
    now apply Qmult_lt_compat_r.
Qed.

Lemma quote_at_in (index : Z) :
  (0 <= index < Z.of_nat (length DailyText.motivationalQuotes))%Z ->
  In (quote_at index) DailyText.motivationalQuotes.
Proof.
  intros [H0 H1]. unfold quote_at.
  destruct (Z.ltb_spec index 0); [lia |]. apply nth_In. lia.
Qed.

(** X27. The good-morning message always quotes one of the listed
    quotations: with Math.random in [0, 1) the index
    floor(random * length) stays inside the list, so the text posted is
    the template around a listed quotation and carries no buttons. The
    function never throws, posts at most once, and prints exactly one
    console line about the outcome. *)
Theorem morning_quote_in_bounds (s : State W) :
  (forall w, 0 <= fst (Math_random w) /\ fst (Math_random w) < 1)%Q ->
  let out := sendGoodMorningMessage MORNING_CHANNEL_ID s in
  outcome_of out = Return tt
  /\ (forall content buttons,
        In (content, buttons) (posts (effects_of out)) ->
        buttons = []
        /\ exists q, In q DailyText.motivationalQuotes
                     /\ content = DailyText.good_morning q)
  /\ (length (posts (effects_of out)) <= 1)%nat
  /\ length (console_logs (effects_of out) ++ console_errors (effects_of out)) = 1%nat.
Proof.
  intros Hrand. cbv zeta. unfold sendGoodMorningMessage, fetch_channel, post. run_task.
  destruct (channels_fetch MORNING_CHANNEL_ID (world s)) as [[[|] | e] w1];
    cbn [negb fst snd app posts console_logs console_errors flat_map length In
         world lastScheduledCheck].
  - specialize (Hrand w1). destruct (Math_random w1) as [r w2]. cbn [fst] in Hrand.
    cbn [fst snd world lastScheduledCheck app].
    pose proof (random_index_in_range r (length DailyText.motivationalQuotes)
                  (proj1 Hrand) (proj2 Hrand)) as Hidx.
    assert (Hlen : (0 < length DailyText.motivationalQuotes)%nat) by (cbn; lia).
    specialize (Hidx Hlen). apply quote_at_in in Hidx.
    match goal with |- context [daily_send ?i ?c ?b ?w] =>
      destruct (daily_send i c b w) as [[m | e] w3] end;
      cbn [fst snd app posts console_logs console_errors flat_map length In];
      (split; [reflexivity |]); (split; [| split; [lia | reflexivity]]);
      intros content buttons [Heq | []]; injection Heq as <- <-;
      (split; [reflexivity |]); eexists; (split; [exact Hidx | reflexivity]).
  - split; [reflexivity |]. split; [intros ? ? [] |]. split; [lia | reflexivity].
  - split; [reflexivity |]. split; [intros ? ? [] |]. split; [lia | reflexivity].
Qed.

(** X28. The year reminder never throws and prints exactly one console
    line. That line is the success line exactly when the channel was
    found and both the post and the reaction went through, one after
    the other; the check-mark reaction is attempted only on the message
    that the post returned, and when the channel is missing nothing is
    posted. *)
Theorem sendReminderMessage_outcome (year : string) (s : State W) :
  let out := sendReminderMessage MORNING_CHANNEL_ID year s in
  outcome_of out = Return tt
  /\ length (console_logs (effects_of out) ++ console_errors (effects_of out)) = 1%nat
  /\ (console_logs (effects_of out) = [DailyText.reminder_done year]
      <-> exists w1 sentMessage w2 w3,
            channels_fetch MORNING_CHANNEL_ID (world s) = (Return true, w1)
            /\ daily_send MORNING_CHANNEL_ID (DailyText.reminder year) [] w1
               = (Return sentMessage, w2)
            /\ message_react sentMessage DailyText.check_mark w2 = (Return tt, w3))
  /\ (forall m emoji,
        In (React m emoji) (core_events (effects_of out)) ->
        emoji = DailyText.check_mark
        /\ exists w1 w2,
             daily_send MORNING_CHANNEL_ID (DailyText.reminder year) [] w1 = (Return m, w2))
  /\ (forall w1, channels_fetch MORNING_CHANNEL_ID (world s) = (Return false, w1) ->
        effects_of out
        = [ChannelsFetch MORNING_CHANNEL_ID; ConsoleError "Channel not found" None]).
Proof.
  cbv zeta. unfold sendReminderMessage, fetch_channel, post. run_task.
  destruct (channels_fetch MORNING_CHANNEL_ID (world s)) as [[[|] | e] w1] eqn:Hf;
    cbn [negb fst snd app world lastScheduledCheck].
  - destruct (daily_send MORNING_CHANNEL_ID (DailyText.reminder year) [] w1)
      as [[m | e] w2] eqn:Hp; cbn [fst snd app world lastScheduledCheck].
    + destruct (message_react m DailyText.check_mark w2) as [[[] | e] w3] eqn:Hr;
        cbn [fst snd app console_logs console_errors core_events flat_map length In];
        (split; [reflexivity |]); (split; [reflexivity |]).
      * split; [split; [intros _; now exists w1, m, w2, w3 | reflexivity] |].
        split; [| intros ? [=]].
        intros m' emoji [Heq | []]. injection Heq as <- <-.
        split; [reflexivity | now exists w1, w2].
      * split; [split; [discriminate |] |].
        { intros (w1' & m' & w2' & w3' & H1 & H2 & H3).
          injection H1 as <-. rewrite Hp in H2. injection H2 as <- <-.
          rewrite Hr in H3. discriminate. }
        split; [| intros ? [=]].
        intros m' emoji [Heq | []]. injection Heq as <- <-.
        split; [reflexivity | now exists w1, w2].
    + cbn [console_logs console_errors core_events flat_map length In app].
      split; [reflexivity |]. split; [reflexivity |].
      split; [split; [discriminate |] |].
      { intros (w1' & m' & w2' & w3' & H1 & H2 & H3).
        injection H1 as <-. rewrite Hp in H2. discriminate. }
      split; [intros ? ? [] | intros ? [=]].
  - cbn [console_logs console_errors core_events flat_map length In app].
    split; [reflexivity |]. split; [reflexivity |].
    split; [split; [discriminate |] |].
    { intros (w1' & m' & w2' & w3' & H1 & _). discriminate. }
    split; [intros ? ? [] | intros ? _; reflexivity].
  - cbn [console_logs console_errors core_events flat_map length In app].
    split; [reflexivity |]. split; [reflexivity |].
    split; [split; [discriminate |] |].
    { intros (w1' & m' & w2' & w3' & H1 & _). discriminate. }
    split; [intros ? ? [] | intros ? [=]].
Qed.

(** X29. The good-night poll and its listener fit together: the
    function never throws, whatever it posts is the good-night text
    with the row of four buttons, and each button it posts has an id
    the interaction listener knows, mapped to that button's own label;
    the ids are pairwise different. *)
Theorem good_night_poll_is_answerable (s : State W) :
  let out := sendGoodNightMessage MORNING_CHANNEL_ID s in
  outcome_of out = Return tt
  /\ (forall content buttons,
        In (content, buttons) (posts (effects_of out)) ->
        content = DailyText.good_night
        /\ length buttons = 4%nat
        /\ NoDup (map customId buttons)
        /\ forall b, In b buttons -> lookup (customId b) responseMap = Some (label b))
  /\ (forall w1 m w2,
        channels_fetch MORNING_CHANNEL_ID (world s) = (Return true, w1) ->
        daily_send MORNING_CHANNEL_ID DailyText.good_night poll_row w1 = (Return m, w2) ->
        posts (effects_of out) = [(DailyText.good_night, poll_row)]
        /\ console_logs (effects_of out) = ["Good night message with poll sent successfully"]).
Proof.
  assert (Hrow : length poll_row = 4%nat /\ NoDup (map customId poll_row)).
  { split; [reflexivity |]. cbn.
    repeat (constructor;
            [cbn; intros H; repeat (destruct H as [H | H]; [discriminate H |]); contradiction |]).
    constructor. }
  cbv zeta. unfold sendGoodNightMessage, fetch_channel, post. run_task.
  destruct (channels_fetch MORNING_CHANNEL_ID (world s)) as [[[|] | e] w1];
    cbn [negb fst snd app world lastScheduledCheck].
  - destruct (daily_send MORNING_CHANNEL_ID DailyText.good_night poll_row w1)
      as [[m | e] w2] eqn:Hp; cbn [fst snd app posts console_logs flat_map In];
      (split; [reflexivity |]); split.
    + intros content buttons [Heq | []]. injection Heq as <- <-.
      split; [reflexivity |]. split; [apply Hrow |]. split; [apply Hrow |].
      apply lookup_poll_row.
    + intros w1' m' w2' [= <-] H. now split.
    + intros content buttons [Heq | []]. injection Heq as <- <-.
      split; [reflexivity |]. split; [apply Hrow |]. split; [apply Hrow |].
      apply lookup_poll_row.
    + intros w1' m' w2' [= <-] H. rewrite Hp in H. discriminate.
  - cbn [posts console_logs flat_map In app]. split; [reflexivity |].
    split; [intros ? ? [] | intros ? ? ? [=]].
  - cbn [posts console_logs flat_map In app]. split; [reflexivity |].
    split; [intros ? ? [] | intros ? ? ? [=]].
Qed.

End ShellProperties.

(** * The model at work on the scripted runtime *)

Module Run.

Import Sim.

(** C1 on an API that times out on every call. *)
Lemma fetchWithRetry_exhausted_witness :
  always_fails (leetcode_operation (RT := down))
  /\ result_of (fetchWithRetry (RT := down) (leetcode_operation (RT := down)) "LeetCode" 0 start)
     = Return [].
Proof.
  assert (H : always_fails (leetcode_operation (RT := down)))
    by (intros w; eexists; reflexivity).
  split; [exact H |].
  exact (proj1 (fetchWithRetry_exhausted (RT := down) (leetcode_operation (RT := down))
                  "LeetCode" start H)).
Defined.

Example attempt_line_numbers :
  attempt_line "LeetCode" 0 (mkError "timeout") = "Error fetching LeetCode contests (attempt 1/3): timeout"
  /\ attempt_line "LeetCode" 3 (mkError "timeout") = "Error fetching LeetCode contests (attempt 4/3): timeout"
  /\ retrying_line "LeetCode" = "Retrying LeetCode fetch in 60 seconds...".
Proof. repeat split. Qed.

(** C2 on that server: the backup message is the result. *)
Lemma sendDiscordMessage_fallback_witness :
  primary_fails (RT := runtime primary_down) "general" notice (world start)
  /\ result_of (sendDiscordMessage (RT := runtime primary_down) config "general" notice start)
     = Return (Some (mkMessage 0)).
Proof.
  assert (H : primary_fails (RT := runtime primary_down) "general" notice (world start))
    by (right; eexists; reflexivity).
  split; [exact H |].
  destruct (sendDiscordMessage_fallback (RT := runtime primary_down) config
              "general" notice start H) as (_ & _ & Hdel & _).
  apply Hdel. exists "backup".
  repeat split; try reflexivity; discriminate.
Defined.


(** C7 on a list with one record that has no title. *)
Lemma sendContestsReminder_skips_incomplete_witness :
  [untitled; weekly] <> []
  /\ platform_label "LeetCode"
  /\ (forall c, In c [untitled; weekly] -> exact_duration c)
  /\ result_of (sendContestsReminder (RT := up) config "LeetCode" [untitled; weekly] start)
     = Return (Some true).
Proof.
  assert (H : [untitled; weekly] <> []) by discriminate.
  assert (Hd : forall c, In c [untitled; weekly] -> exact_duration c).
  { intros c [<- | [<- | []]].
    - exists 5400%Z. split; [reflexivity | discriminate].
    - exists 5400%Z. split; [reflexivity | discriminate]. }
  split; [exact H |]. split; [exact (or_introl eq_refl) |]. split; [exact Hd |].
  destruct (sendContestsReminder_skips_incomplete (RT := up) config "LeetCode"
              [untitled; weekly] start H (or_introl eq_refl) Hd) as (_ & _ & Hacc & _).
  exact (proj1 (Hacc eq_refl)).
Defined.

(** Where C7 stops holding: on 26 complete records addFields throws at
    the last one, so that nothing is sent at all and the composer
    returns false. *)
Theorem crowded_list_is_not_rendered :
  let out := sendContestsReminder (RT := up) config "LeetCode" crowded start in
  crowded <> []
  /\ (forall c, In c crowded -> incomplete c = false)
  /\ (exists error,
        rejected (RT := up) []
          (map (fun c => contest_field c (formatted_time (RT := up) (startTime c))) crowded)
        = Some error)
  /\ result_of out = Return (Some false)
  /\ sends_of_any (events_of out) = []
  /\ ~ (exists ch embed,
          In (ChannelSend ch (Options (Some (reminder_text "LeetCode")) [embed]))
             (events_of out)
          /\ length (fields embed) = 26).
Proof.
  cbv zeta. split; [discriminate |]. split.
  - intros c Hin. apply repeat_spec in Hin. now subst c.
  - split; [eexists; vm_compute; reflexivity |]. split; [vm_compute; reflexivity |].
    assert (Hnone : sends_of_any
                      (events_of (sendContestsReminder (RT := up) config "LeetCode"
                                    crowded start)) = [])
      by (vm_compute; reflexivity).
    split; [exact Hnone |].
    intros (ch & embed & Hin & _). apply In_sends_of_any in Hin.
    rewrite Hnone in Hin. destruct Hin.
Qed.

(** C8 when both APIs are down, so that both adapters give up with the
    empty list. *)
Lemma sendCombinedReminder_both_empty_witness :
  result_of (fetchLeetCodeContests (RT := down) (checked (RT := down) start)) = Return []
  /\ result_of (sendCombinedReminder (RT := down) config start) = Return true.
Proof.
  assert (HA : result_of (fetchLeetCodeContests (RT := down) (checked (RT := down) start))
               = Return []) by reflexivity.
  split; [exact HA |].
  exact (proj1 (sendCombinedReminder_both_empty (RT := down) config start HA eq_refl)).
Defined.

(** C9 on the week-end replies: of the three contests ahead, only the
    one that starts in twenty minutes gets a warning. *)
Lemma scheduleTenMinuteWarnings_window_witness :
  result_of (fetchLeetCodeContests (RT := up) (checked (RT := up) start))
  = Return [weekly; biweekly]
  /\ result_of (scheduleTenMinuteWarnings (RT := up) start) = Return true.
Proof.
  assert (HA : result_of (fetchLeetCodeContests (RT := up) (checked (RT := up) start))
               = Return [weekly; biweekly]) by reflexivity.
  split; [exact HA |].
  exact (proj1 (scheduleTenMinuteWarnings_window (RT := up) start [weekly; biweekly]
                  [codechef_contest (RT := up) starters] HA eq_refl)).
Defined.

Example weekend_timers :
  timers (events_of (scheduleTenMinuteWarnings (RT := up) start))
  = [(Some ((inject_Z 1704550200 - inject_Z 1704549000 - 600) * 1000)%Q,
      with_platform "LeetCode" weekly)].
Proof. reflexivity. Qed.

(** C10 on a record without duration. *)
Lemma zero_duration_rendered_witness :
  truthy_string (title biweekly) = true
  /\ incomplete biweekly = false
  /\ duration_hours biweekly = 0%Z
  /\ result_of (sendContestsReminder (RT := up) config "LeetCode" [biweekly] start)
     = Return (Some true).
Proof.
  destruct (zero_duration_rendered (RT := up) config "LeetCode" biweekly
              (new_reminder_embed "LeetCode" 0) start eq_refl eq_refl (or_introl eq_refl))
    as (Hinc & Hround & _ & _ & _ & _ & Hsent & _).
  split; [reflexivity |]. split; [exact Hinc |]. split; [exact Hround |].
  exact (proj1 (Hsent (or_introl eq_refl) eq_refl)).
Defined.

(** Where C10 stops holding: a record without duration whose
    description runs to 1000 characters is not skipped, but its field
    is longer than addFields takes, so that nothing is sent and the
    composer returns false; and of 26 records without duration none is
    rendered, since addFields throws at the last one. *)
Theorem zero_duration_not_rendered :
  let out := sendContestsReminder (RT := up) config "LeetCode" [verbose] start in
  let f := contest_field verbose (formatted_time (RT := up) (startTime verbose)) in
  let many := sendContestsReminder (RT := up) config "LeetCode" (repeat biweekly 26) start in
  (truthy_string (title verbose) = true
   /\ truthy_number (startTime verbose) = true
   /\ duration verbose = None
   /\ incomplete verbose = false
   /\ js_length (Field.value f) = 1070%nat
   /\ result_of out = Return (Some false)
   /\ sends_of_any (events_of out) = [])
  /\ (truthy_string (title biweekly) = true
      /\ truthy_number (startTime biweekly) = true
      /\ duration biweekly = None
      /\ result_of many = Return (Some false)
      /\ sends_of_any (events_of many) = []).
Proof. cbv zeta. repeat split; vm_compute; reflexivity. Qed.

(** ** Where the code departs from its documentation *)

(** C4. For the CodeChef contest that runs from 14:30 to 16:30, two
    hours or 120 minutes, the adapter stores 120000 as the duration,
    the millisecond difference divided by 60, not by 60000; the
    composer, which divides the duration by 60 to print hours, then
    prints 2000 hours. *)
Theorem codechef_duration_off_by_1000 :
  let contest := codechef_contest (RT := up) starters in
  exists q,
    duration contest = Some q
    /\ (q == 120000)%Q
    /\ ~ (q == (1704558600000 - 1704551400000) / 60000)%Q
    /\ ((1704558600000 - 1704551400000) / 60000 == 120)%Q
    /\ duration_hours contest = 2000%Z.
Proof.
  cbv zeta. eexists. split; [reflexivity |].
  split; [reflexivity |]. split; [| split; reflexivity].
  intros H. vm_compute in H. discriminate.
Qed.

(** C5. With node-cron, whose [validate] answers [false] on a bad
    expression instead of throwing, an entry with an invalid expression
    is not logged as invalid and is scheduled like the others. *)
Theorem invalid_expression_is_registered :
  cron_validate (Runtime := up) "every day at noon" = Return false
  /\ result_of (validateCronExpression (RT := up) "every day at noon" "Broken" start)
     = Return true
  /\ let out := cronJobs_forEach (RT := up) (broken :: cronJobs) start in
     scheduled (events_of out)
     = ["every day at noon"; "30 12 * * 6"; "30 12 * * 3"; "0 10 * * 0"; "*/30 * * * *"]
     /\ In (LogLine "Scheduled: Broken - not a cron expression") (events_of out)
     /\ ~ In (LogLine "Invalid cron expression for Broken: every day at noon") (events_of out)
     /\ ~ In (LogLine "Failed to schedule job: Broken") (events_of out).
Proof.
  split; [reflexivity |]. split; [reflexivity |]. cbv zeta.
  split; [reflexivity |]. split; [right; left; reflexivity |].
  split; intros H; vm_compute in H; intuition discriminate.
Qed.

(** When [cron.schedule] checks the expression itself, the bad entry
    makes it throw out of the loop, and the entries behind it are never
    scheduled. *)
Example invalid_expression_stops_the_table :
  let out := cronJobs_forEach (RT := runtime strict) (cronJobs ++ [broken] ++ cronJobs) start in
  (exists e, result_of out = Throw e)
  /\ scheduled (events_of out)
     = ["30 12 * * 6"; "30 12 * * 3"; "0 10 * * 0"; "*/30 * * * *"; "every day at noon"].
Proof. split; [eexists |]; reflexivity. Qed.

End Run.

(** * Further runs on the scripted runtime and host *)

Module Replay.

Import Sim Stage.

(** X2 on an operation that recovers after a minute and a half: the
    third call, two waits in, returns the contest. *)
Lemma fetchWithRetry_recovers_witness :
  succeeds_after (RT := down) flaky 2 (world start) [weekly]
                 (mkWorld (1704549000000 + 60000 + 60000) 0)
  /\ 2 <= MAX_RETRIES
  /\ result_of (fetchWithRetry (RT := down) flaky "LeetCode" 0 start) = Return [weekly].
Proof.
  assert (H : succeeds_after (RT := down) flaky 2 (world start) [weekly]
                (mkWorld (1704549000000 + 60000 + 60000) 0)).
  { cbn [succeeds_after]. do 2 eexists. split; [reflexivity |].
    do 2 eexists. split; reflexivity. }
  assert (Hk : 2 <= MAX_RETRIES) by (unfold MAX_RETRIES; lia).
  split; [exact H |]. split; [exact Hk |].
  exact (proj1 (fetchWithRetry_recovers (RT := down) flaky "LeetCode" 2 start [weekly] _ H Hk)).
Defined.

(** X3 on APIs that answer without the expected fields. *)
Lemma malformed_reply_is_retried_witness :
  (forall w, exists body w1,
      axios_post_leetcode (Runtime := runtime garbled) w = (Return body, w1)
      /\ malformed_leetcode body)
  /\ result_of (fetchLeetCodeContests (RT := runtime garbled) start) = Return []
  /\ fetch_calls (events_of (fetchLeetCodeContests (RT := runtime garbled) start)) = 4.
Proof.
  assert (H : forall w, exists body w1,
               axios_post_leetcode (Runtime := runtime garbled) w = (Return body, w1)
               /\ malformed_leetcode body).
  { intros w. exists (Some (mkLeetCodeBody None)), w. split; reflexivity. }
  split; [exact H |].
  destruct (proj1 (malformed_reply_is_retried (RT := runtime garbled) start) H)
    as (Hres & Hcalls & _).
  split; [exact Hres | exact Hcalls].
Defined.

(** X5 on the server whose primary channel rejects: the message of the
    backup is the result. *)
Lemma sendDiscordMessage_result_witness :
  primary_fails (RT := runtime primary_down) "general" notice (world start)
  /\ result_of (sendDiscordMessage (RT := runtime primary_down) config "general" notice start)
     = Return (Some (mkMessage 0)).
Proof.
  assert (H : primary_fails (RT := runtime primary_down) "general" notice (world start))
    by (right; eexists; reflexivity).
  split; [exact H |].
  destruct (sendDiscordMessage_result (RT := runtime primary_down) config
              "general" notice start (mkMessage 0)) as (_ & Hiff & _).
  apply Hiff. right. split; [exact H |]. exists "backup".
  repeat split; try reflexivity; discriminate.
Defined.

(** X6 on 26 complete records: addFields throws at the last one and
    the composer returns false. *)
Lemma sendContestsReminder_result_witness :
  (forall c, In c crowded -> exact_duration c)
  /\ crowded <> []
  /\ result_of (sendContestsReminder (RT := up) config "LeetCode" crowded start)
     = Return (Some false).
Proof.
  assert (Hd : forall c, In c crowded -> exact_duration c).
  { intros c Hin. apply repeat_spec in Hin. subst c.
    exists 5400%Z. split; [reflexivity | discriminate]. }
  assert (H : crowded <> []) by discriminate.
  split; [exact Hd |]. split; [exact H |].
  destruct (sendContestsReminder_result (RT := up) config "LeetCode" crowded start
              (or_introl eq_refl) Hd)
    as (_ & _ & Hiff & _).
  apply Hiff. split; [exact H |]. eexists. vm_compute. reflexivity.
Defined.

(** X7 on a list whose only record has no title. *)
Lemma sendContestsReminder_all_incomplete_witness :
  [untitled] <> []
  /\ (forall c, In c [untitled] -> incomplete c = true)
  /\ sends_to "general"
       (events_of (sendContestsReminder (RT := up) config "LeetCode" [untitled] start))
     = [Options (Some (reminder_text "LeetCode"))
                [new_reminder_embed "LeetCode" 1704549000000]].
Proof.
  assert (H : [untitled] <> []) by discriminate.
  assert (Hall : forall c, In c [untitled] -> incomplete c = true).
  { intros c [<- | []]. reflexivity. }
  split; [exact H |]. split; [exact Hall |].
  exact (proj1 (proj2 (proj2 (sendContestsReminder_all_incomplete (RT := up) config
                                "LeetCode" [untitled] start H Hall)))).
Defined.

(** X8 on a delivered reminder: the one reaction is on the message the
    channel returned. *)
Lemma reaction_only_on_delivery_witness :
  (forall c, In c [weekly] -> exact_duration c)
  /\ [weekly] <> []
  /\ rejected (RT := up) [] (expected_fields (RT := up) [weekly]) = None
  /\ reactions (events_of (sendContestsReminder (RT := up) config "LeetCode" [weekly] start))
     = [(mkMessage 0, Text.check_mark)].
Proof.
  assert (H : [weekly] <> []) by discriminate.
  assert (Hacc : rejected (RT := up) [] (expected_fields (RT := up) [weekly]) = None)
    by reflexivity.
  assert (Hd : forall c, In c [weekly] -> exact_duration c).
  { intros c [<- | []]. exists 5400%Z. split; [reflexivity | discriminate]. }
  split; [exact Hd |]. split; [exact H |]. split; [exact Hacc |].
  exact (proj2 (proj1 (proj2 (reaction_only_on_delivery (RT := up) config "LeetCode"
                                [weekly] start (or_introl eq_refl) Hd)) H Hacc)).
Defined.


(** X12 on the week-end replies: the one timer waits ten minutes. *)
Lemma armed_timer_delay_bounds_witness :
  In (SetTimeout (Some ((inject_Z 1704550200 - inject_Z 1704549000 - 600) * 1000)%Q)
                 (with_platform "LeetCode" weekly))
     (events_of (scheduleTenMinuteWarnings (RT := up) start))
  /\ (platform (with_platform "LeetCode" weekly) = Some "LeetCode"
      \/ platform (with_platform "LeetCode" weekly) = Some "CodeChef").
Proof.
  assert (H : In (SetTimeout (Some ((inject_Z 1704550200 - inject_Z 1704549000 - 600) * 1000)%Q)
                             (with_platform "LeetCode" weekly))
                 (events_of (scheduleTenMinuteWarnings (RT := up) start))).
  { vm_compute. repeat (first [left; reflexivity | right]). }
  split; [exact H |].
  exact (proj2 (armed_timer_delay_bounds (RT := up) start _ _ H)).
Defined.

(** X13 on a scan that three retries delay by three minutes and the
    scan started half an hour after it: both arm a timer for the same
    contest, and their readings are 1620 seconds apart. *)
Lemma scans_half_an_hour_apart_witness :
  In (SetTimeout (Some ((inject_Z (1704549000 + 2500) - inject_Z 1704549180 - 600) * 1000)%Q)
                 (with_platform "LeetCode" ahead))
     (events_of (scheduleTenMinuteWarnings (RT := recovering) start))
  /\ In (SetTimeout (Some ((inject_Z (1704549000 + 2500) - inject_Z 1704550800 - 600)
                           * 1000)%Q)
                    (with_platform "LeetCode" ahead))
        (events_of (scheduleTenMinuteWarnings (RT := recovering) half_hour_later))
  /\ clock (world half_hour_later) = (clock (world start) + 1800 * 1000)%Z
  /\ (Z.abs (scan_reading (RT := recovering) half_hour_later
             - scan_reading (RT := recovering) start) < 1800)%Z.
Proof.
  assert (H1 : In (SetTimeout (Some ((inject_Z (1704549000 + 2500) - inject_Z 1704549180
                                      - 600) * 1000)%Q)
                              (with_platform "LeetCode" ahead))
                  (events_of (scheduleTenMinuteWarnings (RT := recovering) start))).
  { vm_compute. repeat (first [left; reflexivity | right]). }
  assert (H2 : In (SetTimeout (Some ((inject_Z (1704549000 + 2500) - inject_Z 1704550800
                                      - 600) * 1000)%Q)
                              (with_platform "LeetCode" ahead))
                  (events_of (scheduleTenMinuteWarnings (RT := recovering) half_hour_later))).
  { vm_compute. repeat (first [left; reflexivity | right]). }
  split; [exact H1 |]. split; [exact H2 |]. split; [reflexivity |].
  exact (scans_half_an_hour_apart (RT := recovering) start half_hour_later _ _ _ _
           H1 H2 eq_refl).
Defined.

(** X14 on a contest without a title: addFields throws on the missing
    name, and nothing is sent. *)
Lemma tenMinuteWarning_fires_once_witness :
  title (with_platform "LeetCode" untitled) = None
  /\ platform (with_platform "LeetCode" untitled) = Some "LeetCode"
  /\ sends_of_any (events_of (tenMinuteWarning (RT := up) config
                                (with_platform "LeetCode" untitled) start))
     = [].
Proof.
  split; [reflexivity |]. split; [reflexivity |].
  destruct (tenMinuteWarning_fires_once (RT := up) config
              (with_platform "LeetCode" untitled) start (or_introl eq_refl))
    as (_ & _ & _ & _ & Hrej).
  exact (proj1 (Hrej _ eq_refl)).
Defined.

Example tenMinuteWarning_delivered :
  sends_to "general"
    (events_of (tenMinuteWarning (RT := up) config (with_platform "LeetCode" weekly) start))
  = [Options (Some Text.countdown) [warning_embed (RT := up) (with_platform "LeetCode" weekly)]].
Proof. reflexivity. Qed.

(** X15 with a validator that throws on the bad expression: the entry
    is left out and the four of the table are scheduled. *)
Lemma cronJobs_forEach_skips_throwing_witness :
  (forall expr w, exists w1,
      cron_schedule (Runtime := throwing_validator) expr w = (Return tt, w1))
  /\ scheduled (events_of (cronJobs_forEach (RT := throwing_validator)
                             (broken :: cronJobs) start))
     = ["30 12 * * 6"; "30 12 * * 3"; "0 10 * * 0"; "*/30 * * * *"].
Proof.
  assert (H : forall expr w, exists w1,
               cron_schedule (Runtime := throwing_validator) expr w = (Return tt, w1)).
  { intros expr w. exists w. reflexivity. }
  split; [exact H |].
  exact (proj1 (proj2 (cronJobs_forEach_skips_throwing (RT := throwing_validator)
                         (broken :: cronJobs) start H))).
Defined.

(** X17 on a CodeChef entry without a start date. *)
Lemma codechef_record_shape_witness :
  Date_getTime (Runtime := up) None = None
  /\ incomplete (codechef_contest (RT := up)
                   (mkCodeChefEntry (Some "Starters 117") None None (Some "START117")))
     = true.
Proof.
  split; [reflexivity |].
  destruct (codechef_record_shape (RT := up)
              (mkCodeChefEntry (Some "Starters 117") None None (Some "START117"))
              1704549000) as (_ & _ & _ & _ & _ & H).
  exact (proj1 (H eq_refl)).
Defined.

(** X18 on a contest of ninety minutes. *)
Lemma duration_hours_rounding_witness :
  exact_duration weekly
  /\ duration weekly = Some (inject_Z 5400)
  /\ (inject_Z 5400 / 60 - (1 # 2) < inject_Z (duration_hours weekly))%Q.
Proof.
  assert (He : exact_duration weekly).
  { exists 5400%Z. split; [reflexivity | discriminate]. }
  split; [exact He |]. split; [reflexivity |].
  assert (Hne : ~ (inject_Z 5400 == 0)%Q) by (intros H; discriminate H).
  exact (proj1 (proj1 (duration_hours_rounding weekly He) (inject_Z 5400) eq_refl Hne)).
Defined.

(** X19 on an environment with the two required variables only. *)
Lemma load_constants_spec_witness :
  truthy_string (minimal_env "DISCORD_TOKEN") = true
  /\ truthy_string (minimal_env "CHANNEL_ID") = true
  /\ exists c, load_constants minimal_env = Loaded c
               /\ minimal_env "CHANNEL_ID" = Some (CHANNEL_ID (constants_config c)).
Proof.
  split; [reflexivity |]. split; [reflexivity |].
  destruct (proj1 (load_constants_spec minimal_env) (conj eq_refl eq_refl))
    as (c & Hc & Hid & _).
  exists c. split; [exact Hc | exact Hid].
Defined.

(** X21 on a token that Discord never accepts. *)
Lemma login_process_gives_up_witness :
  login_always_fails (HT := host locked_out)
  /\ outcome_of (login_process (RT := up) (HT := host locked_out) 0 start)
     = Return (Exited 1).
Proof.
  assert (H : login_always_fails (HT := host locked_out)).
  { intros w. eexists. reflexivity. }
  split; [exact H |].
  exact (proj1 (login_process_gives_up (RT := up) (HT := host locked_out) start H)).
Defined.

(** A token accepted a hundred seconds after the start: the third
    attempt, after waits of one and two minutes, connects. *)
Example login_process_late :
  let out := login_process (RT := up) (HT := host late) 0 start in
  outcome_of out = Return Connected
  /\ login_attempts (effects_of out) = 3
  /\ timer_delays (effects_of out) = [60000; 120000]%Z.
Proof. repeat split. Qed.

(** X22 on a message written by a bot. *)
Lemma messageCreate_guards_witness :
  author_bot (mkIncoming true "!contest check") = true
  /\ messageCreate (RT := up) (HT := host online) config
       (mkIncoming true "!contest check") start
     = (Return tt, start, []).
Proof.
  split; [reflexivity |].
  exact (proj1 (messageCreate_guards (RT := up) (HT := host online) config
                  (mkIncoming true "!contest check") start) (or_introl eq_refl)).
Defined.


(** X24 on a word that is no subcommand. *)
Lemma unknown_subcommand_gets_help_witness :
  author_bot (mkIncoming false "!contest help") = false
  /\ prefix "!contest" "!contest help" = true
  /\ effects_of (messageCreate (RT := up) (HT := host online) config
                   (mkIncoming false "!contest help") start)
     = [Reply help_text false].
Proof.
  split; [reflexivity |]. split; [reflexivity |].
  assert (Hno : forall word, In word subcommands ->
                  nth_error (split space "!contest help") 1 <> Some word).
  { intros word Hin. cbn in Hin.
    repeat (destruct Hin as [<- | Hin]; [discriminate |]). destruct Hin. }
  exact (proj1 (proj1 (unknown_subcommand_gets_help (RT := up) (HT := host online) config
                         (mkIncoming false "!contest help") start eq_refl eq_refl) Hno)).
Defined.



(** On the id of an inherited property the listener answers with the
    text of the function it finds. *)
Example inherited_key_is_answered :
  effects_of (interactionCreate (HT := host online) (mkInteraction true "asha" "toString")
                start)
  = [Reply (DailyText.thanks "asha" "function toString() { [native code] }") true;
     ConsoleLog (DailyText.responded "asha" "function toString() { [native code] }")].
Proof. reflexivity. Qed.

(** X27 with the random source at 0.7: the eighth quotation. *)
Lemma morning_quote_in_bounds_witness :
  (forall w, 0 <= fst (Math_random (Host := host online) w)
             /\ fst (Math_random (Host := host online) w) < 1)%Q
  /\ outcome_of (sendGoodMorningMessage (HT := host online) (Some "daily") start)
     = Return tt.
Proof.
  assert (H : (forall w, 0 <= fst (Math_random (Host := host online) w)
                         /\ fst (Math_random (Host := host online) w) < 1)%Q).
  { intros w. split; [discriminate | reflexivity]. }
  split; [exact H |].
  exact (proj1 (morning_quote_in_bounds (HT := host online) (Some "daily") start H)).
Defined.

Example morning_quote_at_point_seven :
  posts (effects_of (sendGoodMorningMessage (HT := host online)
                       (Some "daily") start))
  = [(DailyText.good_morning (nth 7 DailyText.motivationalQuotes ""), [])].
Proof. reflexivity. Qed.

(** X28 on a host where fetch, post and reaction all succeed. *)
Lemma sendReminderMessage_outcome_witness :
  channels_fetch (Host := host online) (Some "daily") (world start)
  = (Return true, world start)
  /\ console_logs (effects_of (sendReminderMessage (RT := up) (HT := host online)
                                 (Some "daily") "2nd Year" start))
     = [DailyText.reminder_done "2nd Year"].
Proof.
  split; [reflexivity |].
  destruct (sendReminderMessage_outcome (RT := up) (HT := host online)
              (Some "daily") "2nd Year" start) as (_ & _ & Hiff & _).
  apply Hiff. exists (world start), (mkMessage 0), (mkWorld 1704549000000 1),
                (mkWorld 1704549000000 1).
  repeat split.
Defined.

(** X29 on that host: the poll goes out with its four buttons. *)
Lemma good_night_poll_is_answerable_witness :
  channels_fetch (Host := host online) (Some "daily") (world start)
  = (Return true, world start)
  /\ posts (effects_of (sendGoodNightMessage (HT := host online)
                          (Some "daily") start))
     = [(DailyText.good_night, poll_row)].
Proof.
  split; [reflexivity |].
  destruct (good_night_poll_is_answerable (HT := host online)
              (Some "daily") start) as (_ & _ & H).
  exact (proj1 (H (world start) (mkMessage 0) (mkWorld 1704549000000 1) eq_refl eq_refl)).
Defined.

End Replay.
